(** * Website audit pipeline: capture, extract, analyse, locate

    A shallow embedding of the analysis pipeline of the repository:

    - [src/api/analyze.js]: the Express pipeline ([autoScroll], the three
      [analyze*WithAI] requests with their narrative parsing, [analyze]);
    - the serverless handler ([handler], [analyzeWebsite],
      [analyzePageContent], [generateDefaultAnalysis]) and the link
      extraction;
    - [server.js]: the routes and the solution generators;
    - the front end's [findElementLocation] and [generateSolution].

    JavaScript strings are sequences of UTF-16 code units; the regular
    expressions of the source work on code units, so that is the
    representation used here. *)

From Stdlib Require Import List NArith ZArith QArith Bool Lia Arith.
From Stdlib Require Import Strings.String Strings.Ascii.
From Stdlib Require Import Numbers.DecimalString Numbers.DecimalNat.
Import ListNotations.

Set Implicit Arguments.
Close Scope Q_scope.

(* ===================================================================== *)
(** ** JavaScript strings *)
(* ===================================================================== *)

Module JS.

(** A UTF-16 code unit and a JavaScript string. *)
Definition jschar := N.
Definition jsstring := list jschar.

(** An ASCII literal as a JavaScript string. *)
Fixpoint lit (s : string) : jsstring :=
  match s with
  | EmptyString => []
  | String a s' => N_of_ascii a :: lit s'
  end.

Arguments lit _%_string.

(** The line feed, ["\n"]. *)
Definition LF : jschar := 10%N.

(** The bullet U+2022, the one non-ASCII character the source names. *)
Definition BULLET : jschar := 8226%N.

Definition inRange (lo hi c : N) : bool := ((lo <=? c) && (c <=? hi))%N.

(** ECMAScript WhiteSpace and LineTerminator: what [String.prototype.trim]
    removes and what [\s] matches. *)
Definition isWhiteSpace (c : jschar) : bool :=
  inRange 9 13 c || (c =? 32)%N || (c =? 160)%N || (c =? 5760)%N
  || inRange 8192 8202 c || (c =? 8232)%N || (c =? 8233)%N
  || (c =? 8239)%N || (c =? 8287)%N || (c =? 12288)%N || (c =? 65279)%N.

(** [[0-9]] *)
Definition isDigit (c : jschar) : bool := inRange 48 57 c.

Fixpoint dropWhile (p : jschar -> bool) (s : jsstring) : jsstring :=
  match s with
  | [] => []
  | c :: s' => if p c then dropWhile p s' else s
  end.

Fixpoint takeWhile (p : jschar -> bool) (s : jsstring) : jsstring :=
  match s with
  | [] => []
  | c :: s' => if p c then c :: takeWhile p s' else []
  end.

Definition trimStart (s : jsstring) : jsstring := dropWhile isWhiteSpace s.
Definition trimEnd (s : jsstring) : jsstring := rev (dropWhile isWhiteSpace (rev s)).

(** [s.trim()] *)
Definition trim (s : jsstring) : jsstring := trimEnd (trimStart s).

(** Strict equality of strings, [a === b]. *)
Fixpoint eqb (a b : jsstring) : bool :=
  match a, b with
  | [], [] => true
  | x :: a', y :: b' => (x =? y)%N && eqb a' b'
  | _, _ => false
  end.

(** [s.startsWith(p)] *)
Fixpoint startsWith (p s : jsstring) : bool :=
  match p, s with
  | [], _ => true
  | x :: p', y :: s' => (x =? y)%N && startsWith p' s'
  | _ :: _, [] => false
  end.

(** The first occurrence of [pat] in [s]: what precedes it and what follows
    it.  [None] when [pat] does not occur. *)
Fixpoint findFirst (pat s : jsstring) : option (jsstring * jsstring) :=
  if startsWith pat s then Some ([], skipn (List.length pat) s)
  else match s with
       | [] => None
       | c :: s' =>
           match findFirst pat s' with
           | Some (before, after) => Some (c :: before, after)
           | None => None
           end
       end.

(** [s.includes(pat)] *)
Definition includes (pat s : jsstring) : bool :=
  match findFirst pat s with Some _ => true | None => false end.

(** [s.split('\n')] *)
Fixpoint splitLines (s : jsstring) : list jsstring :=
  match s with
  | [] => [[]]
  | c :: s' =>
      if (c =? LF)%N then [] :: splitLines s'
      else match splitLines s' with
           | l :: ls => (c :: l) :: ls
           | [] => [[c]]
           end
  end.

(** The decimal rendering of a non-negative integer, as a template literal
    [`${n}`] renders an array length. *)
Definition ofNat (n : nat) : jsstring := lit (NilZero.string_of_uint (Nat.to_uint n)).

(** Truthiness of a string: the empty string is falsy. *)
Definition truthy (s : jsstring) : bool :=
  match s with [] => false | _ :: _ => true end.

(** Truthiness of a possibly undefined string. *)
Definition truthyOpt (s : option jsstring) : bool :=
  match s with Some s' => truthy s' | None => false end.

(** [a || b] on strings where [a] may be undefined or null. *)
Definition orElse (a : option jsstring) (b : jsstring) : jsstring :=
  match a with
  | Some s => if truthy s then s else b
  | None => b
  end.

(** ASCII lower-casing, an instance of [toLowerCase] for ASCII text. *)
Definition asciiToLowerCase (s : jsstring) : jsstring :=
  map (fun c => if inRange 65 90 c then (c + 32)%N else c) s.

End JS.

Import JS.

(* ===================================================================== *)
(** ** The issue narrative parser ([src/api/analyze.js]) *)
(* ===================================================================== *)

Module Narrative.

(** [(text.match(/LABEL(.*?)(?=NEXT|$)/s) || [])[1]].

    With the [s] flag [.] matches every code unit and, without [m], [$]
    matches at the end of the input only.  The match starts at the leftmost
    occurrence of the label; the lazy group then grows until the lookahead
    holds, that is up to the first later occurrence of [next], or to the end
    of the input. *)
Definition captureUntil (label next text : jsstring) : option jsstring :=
  match findFirst label text with
  | None => None
  | Some (_, rest) =>
      match findFirst next rest with
      | Some (captured, _) => Some captured
      | None => Some rest
      end
  end.

(** [(text.match(/LABEL(.*?)$/s) || [])[1]]: everything after the leftmost
    occurrence of the label. *)
Definition captureToEnd (label text : jsstring) : option jsstring :=
  match findFirst label text with
  | None => None
  | Some (_, rest) => Some rest
  end.

(** [point.match(/^[-•*]/)]: the line begins with a bullet marker. *)
Definition startsWithBullet (point : jsstring) : bool :=
  match point with
  | c :: _ => (c =? 45)%N || (c =? BULLET)%N || (c =? 42)%N
  | [] => false
  end.

(** [point && !point.match(/^[-•*]/)] *)
Definition keepPoint (point : jsstring) : bool :=
  truthy point && negb (startsWithBullet point).

(** [point.replace(/^[0-9]+\.\s*/, '')].  The greedy digit run must be
    followed by a dot; the white space after the dot goes with it. *)
Definition stripOrdinal (point : jsstring) : jsstring :=
  match takeWhile isDigit point, dropWhile isDigit point with
  | _ :: _, dot :: rest =>
      if (dot =? 46)%N then dropWhile isWhiteSpace rest else point
  | _, _ => point
  end.

(** [section.split('\n').map(p => p.trim()).filter(...).map(...)] *)
Definition points (section : jsstring) : list jsstring :=
  map stripOrdinal (filter keepPoint (map trim (splitLines section))).

(** [section ? section.split('\n')... : []] *)
Definition processSection (section : option jsstring) : list jsstring :=
  match section with
  | Some s => if truthy s then points s else []
  | None => []
  end.

End Narrative.

(* ===================================================================== *)
(** ** Data model *)
(* ===================================================================== *)

(** The records follow the objects built by the extractors and the types the
    front end declares for them.  One module per record keeps the source's
    field names. *)

Module BoundingBox.
Record t := { x : Q; y : Q; width : Q; height : Q }.
End BoundingBox.

Module Heading.
Record t := { text : jsstring; level : Z; location : BoundingBox.t }.
End Heading.

Module Paragraph.
Record t := { text : jsstring; location : BoundingBox.t }.
End Paragraph.

Module ListBlock.
Record t := { items : list jsstring; type : jsstring; location : BoundingBox.t }.
End ListBlock.

Module AssetImage.
(** [alt] is optional: [generateDefaultAnalysis] tests [!img.alt]. *)
Record t := { type : jsstring; src : jsstring; alt : option jsstring;
              width : Z; height : Z; loading : jsstring;
              location : BoundingBox.t }.
End AssetImage.

Module Stylesheet.
Record t := { type : jsstring; href : jsstring; media : jsstring }.
End Stylesheet.

Module Script.
Record t := { type : jsstring; src : option jsstring; async : bool; defer : bool }.
End Script.

Module Video.
Record t := { type : jsstring; src : option jsstring; poster : option jsstring;
              width : Z; height : Z; autoplay : bool; controls : bool;
              location : BoundingBox.t }.
End Video.

Module Font.
Record t := { type : jsstring; href : jsstring; format : jsstring }.
End Font.

Module Assets.
Record t := { images : list AssetImage.t; stylesheets : list Stylesheet.t;
              scripts : list Script.t; videos : list Video.t;
              fonts : list Font.t }.
End Assets.

Module ContentImage.
Record t := { src : jsstring; alt : jsstring; location : BoundingBox.t }.
End ContentImage.

Module Button.
Record t := { text : jsstring; location : BoundingBox.t }.
End Button.

Module FormInput.
Record t := { type : jsstring; placeholder : jsstring; required : bool;
              location : BoundingBox.t }.
End FormInput.

Module Form.
Record t := { inputs : list FormInput.t; location : BoundingBox.t }.
End Form.

Module NavItem.
Record t := { text : jsstring; url : jsstring; location : BoundingBox.t }.
End NavItem.

Module Nav.
Record t := { items : list NavItem.t; location : BoundingBox.t }.
End Nav.

Module Footer.
Record t := { text : jsstring; links : list NavItem.t; location : BoundingBox.t }.
End Footer.

Module Metadata.
Record t := { title : option jsstring; description : option jsstring;
              keywords : option jsstring; ogTitle : option jsstring;
              ogDescription : option jsstring; ogImage : option jsstring }.
End Metadata.

Module TextContent.
Record t := { headings : option (list Heading.t);
              paragraphs : option (list Paragraph.t);
              lists : option (list ListBlock.t) }.
End TextContent.

(** The content record of the serverless handler and of the front end. *)
Module PageContent.
Record t := { textContent : option TextContent.t;
              images : option (list ContentImage.t);
              buttons : option (list Button.t);
              forms : option (list Form.t);
              navigation : option (list Nav.t);
              footerContent : option Footer.t;
              metadata : option Metadata.t }.
End PageContent.

Module PageLink.
Record t := { url : jsstring; text : jsstring; location : BoundingBox.t }.
End PageLink.

Module Visual.
Record t := { exitPoints : list jsstring; designIssues : list jsstring;
              recommendations : list jsstring }.
End Visual.

Module AssetsAnalysis.
Record t := { performanceIssues : list jsstring;
              accessibilityIssues : list jsstring;
              seoIssues : list jsstring; bestPractices : list jsstring;
              recommendations : list jsstring }.
End AssetsAnalysis.

Module ContentAnalysis.
Record t := { structureIssues : list jsstring; qualityIssues : list jsstring;
              seoIssues : list jsstring; uxIssues : list jsstring;
              recommendations : list jsstring }.
End ContentAnalysis.

Module AnalysisResult.
Record t := { visual : Visual.t; assets : AssetsAnalysis.t;
              content : ContentAnalysis.t }.
End AnalysisResult.

(** The front end reads [content], [assets] and [links] through optional
    chaining, so all three may be absent. *)
Module PageAnalysis.
Record t := { url : jsstring; title : jsstring; analysis : AnalysisResult.t;
              screenshot : jsstring; content : option PageContent.t;
              assets : option Assets.t; links : option (list PageLink.t) }.
End PageAnalysis.

(* ===================================================================== *)
(** ** Effects: exceptions, pending promises and the request log *)
(* ===================================================================== *)

Module Effects.

(** A thrown value, by its [message] (empty when it has none). *)
Module Error.
Record t := { message : jsstring }.
End Error.

(** What awaiting a promise gives: a value, an exception, or nothing yet
    when the allotted number of timer ticks did not settle it. *)
Inductive outcome (A : Type) : Type :=
| Returned (a : A)
| Thrown (e : Error.t)
| Pending.

Arguments Thrown {A} e.
Arguments Pending {A}.

(** The language model service: the completion object of a chat completion. *)
Module Message.
Record t := { content : option jsstring }.
End Message.

Module Choice.
Record t := { message : Message.t }.
End Choice.

Module ChatCompletion.
Record t := { choices : list Choice.t }.
End ChatCompletion.

(** The [simplifiedContent] object that [analyzePageContent] sends. *)
Record SimplifiedContent := {
  s_title : jsstring;
  s_headings : list (jsstring * Z);
  s_paragraphs : list jsstring;
  s_lists : list (list jsstring * jsstring);
  s_buttons : list jsstring;
  s_images : list (jsstring * option jsstring);
  s_navigation : list (list (jsstring * jsstring))
}.

(** A request to the model, by the values its prompt interpolates; the
    fixed prompt text, model name and token limit are the same in every
    request of a kind. *)
Inductive Request : Type :=
| AssetsPrompt (pageTitle pageUrl : jsstring)
    (images stylesheets scripts videos fonts : nat)
| ContentPrompt (pageTitle pageUrl : jsstring)
    (headings paragraphs lists buttons forms menus : nat) (metadata : Metadata.t)
| VisualPrompt (title url screenshot : jsstring)
| JsonPrompt (simplified : SimplifiedContent).

(** The service answers a request made with the configured credential. *)
Definition Service := option jsstring -> Request -> outcome ChatCompletion.t.

(** Computations that log the requests they issue. *)
Definition M (A : Type) : Type := list Request -> outcome A * list Request.

Definition ret {A} (a : A) : M A := fun log => (Returned a, log).
Definition throw {A} (e : Error.t) : M A := fun log => (Thrown e, log).
Definition await {A} (o : outcome A) : M A := fun log => (o, log).

Definition bind {A B} (m : M A) (k : A -> M B) : M B :=
  fun log =>
    match m log with
    | (Returned a, log') => k a log'
    | (Thrown e, log') => (Thrown e, log')
    | (Pending, log') => (Pending, log')
    end.

(** [try { body } catch (error) { handler }] *)
Definition tryCatch {A} (body : M A) (handler : Error.t -> M A) : M A :=
  fun log =>
    match body log with
    | (Thrown e, log') => handler e log'
    | r => r
    end.

(** [try { body } finally { cleanup }]: an exception of the cleanup replaces
    the body's completion. *)
Definition tryFinally {A} (body : M A) (cleanup : M unit) : M A :=
  fun log =>
    match body log with
    | (Pending, log') => (Pending, log')
    | (r, log') =>
        match cleanup log' with
        | (Returned _, log'') => (r, log'')
        | (Thrown e, log'') => (Thrown e, log'')
        | (Pending, log'') => (Pending, log'')
        end
    end.

(** [await openai.chat.completions.create(...)], on the client that holds
    [apiKey].  The client is built when the module is loaded ([newOpenAI]
    below), so a call is made only with a key that is set. *)
Definition create (service : Service) (apiKey : option jsstring)
    (request : Request) : M ChatCompletion.t :=
  fun log => (service apiKey request, log ++ [request]).

(** [const openai = new OpenAI({ apiKey: process.env.OPENAI_API_KEY })], the
    statement each of the two pipeline modules runs when it is loaded.  The
    constructor of the client library throws when the key is [undefined];
    it accepts every string, the empty one too. *)
Definition newOpenAI (apiKey : option jsstring) : outcome unit :=
  match apiKey with
  | Some _ => Returned tt
  | None =>
      Thrown {| Error.message :=
        lit "The OPENAI_API_KEY environment variable is missing or empty; either provide it, or instantiate the OpenAI client with an apiKey option, like new OpenAI({ apiKey: 'My API Key' })." |}
  end.

(** A call of a function that a pipeline module exports: the statements of
    the module run first, and a module whose loading threw exports nothing
    that could be called. *)
Definition imported {A} (OPENAI_API_KEY : option jsstring) (call : M A) : M A :=
  bind (await (newOpenAI OPENAI_API_KEY)) (fun _ => call).

(** [completion.choices[0].message.content]: reading [message] of an absent
    first choice is a TypeError. *)
Definition firstContent (completion : ChatCompletion.t) : M (option jsstring) :=
  match ChatCompletion.choices completion with
  | [] => throw {| Error.message := lit "Cannot read properties of undefined (reading 'message')" |}
  | choice :: _ => ret (Message.content (Choice.message choice))
  end.

End Effects.

Import Effects.

Declare Scope js_scope.
Delimit Scope js_scope with js.
Notation "x <- m ;; k" := (bind m (fun x => k))
  (at level 61, m at next level, right associativity) : js_scope.

Local Open Scope js_scope.

(* ===================================================================== *)
(** ** The Express pipeline ([src/api/analyze.js]) *)
(* ===================================================================== *)

Module Express.

(** The content record of [extractContent] in this file: interactive
    elements are grouped, and every collection is present. *)
Module Text.
Record t := { headings : list Heading.t; paragraphs : list Paragraph.t;
              lists : list ListBlock.t }.
End Text.

Module Interactive.
Record t := { buttons : list Button.t; forms : list Form.t }.
End Interactive.

Module Content.
Record t := { metadata : Metadata.t; textContent : Text.t;
              interactiveElements : Interactive.t;
              navigation : list Nav.t; footerContent : option Footer.t }.
End Content.

Module MainPage.
Record t := { url : jsstring; title : jsstring; screenshot : jsstring;
              content : Content.t; assets : Assets.t;
              analysis : AnalysisResult.t }.
End MainPage.

Module FullAnalysis.
Record t := { mainPage : MainPage.t; allLinks : list jsstring }.
End FullAnalysis.

Module Response.
Record t := { ok : bool; status : nat; statusText : jsstring }.
End Response.

(** *** The narrative parsers of the three requests *)

Definition parseAssets (response_text : jsstring) : AssetsAnalysis.t :=
  let sections_performanceIssues :=
    Narrative.captureUntil (lit "Performance Issues:") (lit "Accessibility Issues:") response_text in
  let sections_accessibilityIssues :=
    Narrative.captureUntil (lit "Accessibility Issues:") (lit "SEO Issues:") response_text in
  let sections_seoIssues :=
    Narrative.captureUntil (lit "SEO Issues:") (lit "Best Practices:") response_text in
  let sections_bestPractices :=
    Narrative.captureUntil (lit "Best Practices:") (lit "Recommendations:") response_text in
  let sections_recommendations :=
    Narrative.captureToEnd (lit "Recommendations:") response_text in
  {| AssetsAnalysis.performanceIssues := Narrative.processSection sections_performanceIssues;
     AssetsAnalysis.accessibilityIssues := Narrative.processSection sections_accessibilityIssues;
     AssetsAnalysis.seoIssues := Narrative.processSection sections_seoIssues;
     AssetsAnalysis.bestPractices := Narrative.processSection sections_bestPractices;
     AssetsAnalysis.recommendations := Narrative.processSection sections_recommendations |}.

Definition parseContent (response_text : jsstring) : ContentAnalysis.t :=
  let sections_structureIssues :=
    Narrative.captureUntil (lit "Content Structure Issues:") (lit "Content Quality Issues:") response_text in
  let sections_qualityIssues :=
    Narrative.captureUntil (lit "Content Quality Issues:") (lit "SEO Content Issues:") response_text in
  let sections_seoIssues :=
    Narrative.captureUntil (lit "SEO Content Issues:") (lit "UX/UI Issues:") response_text in
  let sections_uxIssues :=
    Narrative.captureUntil (lit "UX/UI Issues:") (lit "Recommendations:") response_text in
  let sections_recommendations :=
    Narrative.captureToEnd (lit "Recommendations:") response_text in
  {| ContentAnalysis.structureIssues := Narrative.processSection sections_structureIssues;
     ContentAnalysis.qualityIssues := Narrative.processSection sections_qualityIssues;
     ContentAnalysis.seoIssues := Narrative.processSection sections_seoIssues;
     ContentAnalysis.uxIssues := Narrative.processSection sections_uxIssues;
     ContentAnalysis.recommendations := Narrative.processSection sections_recommendations |}.

Definition parseVisual (response_text : jsstring) : Visual.t :=
  let sections_exitPoints :=
    Narrative.captureUntil (lit "Exit Points:") (lit "Design Issues:") response_text in
  let sections_designIssues :=
    Narrative.captureUntil (lit "Design Issues:") (lit "Recommendations:") response_text in
  let sections_recommendations :=
    Narrative.captureToEnd (lit "Recommendations:") response_text in
  {| Visual.exitPoints := Narrative.processSection sections_exitPoints;
     Visual.designIssues := Narrative.processSection sections_designIssues;
     Visual.recommendations := Narrative.processSection sections_recommendations |}.

(** The records of the three [catch] blocks. *)
Definition assetsError : AssetsAnalysis.t :=
  {| AssetsAnalysis.performanceIssues := [lit "Error analyzing assets with AI"];
     AssetsAnalysis.accessibilityIssues := [];
     AssetsAnalysis.seoIssues := [];
     AssetsAnalysis.bestPractices := [];
     AssetsAnalysis.recommendations := [] |}.

Definition contentError : ContentAnalysis.t :=
  {| ContentAnalysis.structureIssues := [lit "Error analyzing content with AI"];
     ContentAnalysis.qualityIssues := [];
     ContentAnalysis.seoIssues := [];
     ContentAnalysis.uxIssues := [];
     ContentAnalysis.recommendations := [] |}.

Definition visualError : Visual.t :=
  {| Visual.exitPoints := [lit "Error analyzing page with AI"];
     Visual.designIssues := [];
     Visual.recommendations := [] |}.

Section Pipeline.

(** The document in the browser: its state, the scroll height it reports
    and how it reacts to one scroll step and the wait that follows. *)
Variable Doc : Type.
Variable scrollHeight : Doc -> Z.
Variable scrollBy : Z -> Doc -> Doc.

(** The model service and the credential of the process-wide client,
    [process.env.OPENAI_API_KEY]. *)
Variable service : Service.
Variable OPENAI_API_KEY : option jsstring.

(** What the browser automation calls give for one request. *)
Record Browser := {
  launch : outcome unit;
  newPage : outcome unit;
  setViewport : outcome unit;
  goto : jsstring -> outcome Response.t;
  document : Doc;
  screenshot : outcome jsstring;
  extractLinks : outcome (list jsstring);
  extractAssets : outcome Assets.t;
  extractContent : outcome Content.t;
  title : outcome jsstring;
  close : outcome unit
}.

(** *** [autoScroll] *)

Definition distance : Z := 100.

(** The timer callback, run once per tick until it resolves; [fuel]
    bounds the number of ticks.  Gives the document and the accumulated
    [totalHeight] at the tick that resolved. *)
Fixpoint sweep (fuel : nat) (doc : Doc) (totalHeight : Z) : option (Doc * Z) :=
  match fuel with
  | O => None
  | S fuel' =>
      let scrollHeight_now := scrollHeight doc in
      let doc' := scrollBy distance doc in
      let totalHeight' := (totalHeight + distance)%Z in
      if (totalHeight' >=? scrollHeight_now)%Z then Some (doc', totalHeight')
      else sweep fuel' doc' totalHeight'
  end.

Definition autoScroll (fuel : nat) (doc : Doc) : M unit :=
  await (match sweep fuel doc 0 with
         | Some _ => Returned tt
         | None => Pending
         end).

(** *** The three requests *)

Definition analyzeAssetsWithAI (assets : Assets.t) (pageTitle pageUrl : jsstring)
    : M AssetsAnalysis.t :=
  tryCatch
    (analysis <- create service OPENAI_API_KEY
       (AssetsPrompt pageTitle pageUrl
          (List.length (Assets.images assets))
          (List.length (Assets.stylesheets assets))
          (List.length (Assets.scripts assets))
          (List.length (Assets.videos assets))
          (List.length (Assets.fonts assets))) ;;
     content <- firstContent analysis ;;
     let response_text := orElse content [] in
     ret (parseAssets response_text))
    (fun error => ret assetsError).

Definition analyzeContentWithAI (content : Content.t) (pageTitle pageUrl : jsstring)
    : M ContentAnalysis.t :=
  tryCatch
    (analysis <- create service OPENAI_API_KEY
       (ContentPrompt pageTitle pageUrl
          (List.length (Text.headings (Content.textContent content)))
          (List.length (Text.paragraphs (Content.textContent content)))
          (List.length (Text.lists (Content.textContent content)))
          (List.length (Interactive.buttons (Content.interactiveElements content)))
          (List.length (Interactive.forms (Content.interactiveElements content)))
          (List.length (Content.navigation content))
          (Content.metadata content)) ;;
     reply <- firstContent analysis ;;
     let response_text := orElse reply [] in
     ret (parseContent response_text))
    (fun error => ret contentError).

Definition analyzePageWithAI (title url screenshot : jsstring) : M Visual.t :=
  tryCatch
    (analysis <- create service OPENAI_API_KEY (VisualPrompt title url screenshot) ;;
     content <- firstContent analysis ;;
     let response_text := orElse content [] in
     ret (parseVisual response_text))
    (fun error => ret visualError).

(** *** [analyze] *)

Definition launched (browser : Browser) : bool :=
  match launch browser with Returned _ => true | _ => false end.

Definition analyze (fuel : nat) (browser : Browser) (url : jsstring)
    : M FullAnalysis.t :=
  tryFinally
    (tryCatch
       (_ <- await (launch browser) ;;
        _ <- await (newPage browser) ;;
        _ <- await (setViewport browser) ;;
        response <- await (goto browser url) ;;
        _ <- (if negb (Response.ok response)
              then throw {| Error.message :=
                     lit "Failed to load page: " ++ ofNat (Response.status response)
                     ++ lit " " ++ Response.statusText response |}
              else ret tt) ;;
        _ <- autoScroll fuel (document browser) ;;
        screenshot <- await (screenshot browser) ;;
        links <- await (extractLinks browser) ;;
        assets <- await (extractAssets browser) ;;
        content <- await (extractContent browser) ;;
        pageTitle <- await (title browser) ;;
        assetsAnalysis <- analyzeAssetsWithAI assets pageTitle url ;;
        contentAnalysis <- analyzeContentWithAI content pageTitle url ;;
        visualAnalysis <- analyzePageWithAI pageTitle url screenshot ;;
        ret {| FullAnalysis.mainPage :=
                 {| MainPage.url := url;
                    MainPage.title := pageTitle;
                    MainPage.screenshot := screenshot;
                    MainPage.content := content;
                    MainPage.assets := assets;
                    MainPage.analysis :=
                      {| AnalysisResult.visual := visualAnalysis;
                         AnalysisResult.assets := assetsAnalysis;
                         AnalysisResult.content := contentAnalysis |} |};
               FullAnalysis.allLinks := links |})
       (fun error =>
          throw {| Error.message := orElse (Some (Error.message error))
                                (lit "Failed to analyze website") |}))
    (if launched browser then await (close browser) else ret tt).

End Pipeline.

End Express.

(* ===================================================================== *)
(** ** The serverless handler: [analyzePageContent] and the heuristic
       analyzer [generateDefaultAnalysis] *)
(* ===================================================================== *)

Module Serverless.

Definition orEmpty {A} (xs : option (list A)) : list A :=
  match xs with Some l => l | None => [] end.

(** [content.textContent?.headings] *)
Definition headingsOf (content : PageContent.t) : option (list Heading.t) :=
  match PageContent.textContent content with
  | Some t => TextContent.headings t
  | None => None
  end.

(** [content.textContent?.paragraphs] *)
Definition paragraphsOf (content : PageContent.t) : option (list Paragraph.t) :=
  match PageContent.textContent content with
  | Some t => TextContent.paragraphs t
  | None => None
  end.

(** [content.textContent?.lists] *)
Definition listsOf (content : PageContent.t) : option (list ListBlock.t) :=
  match PageContent.textContent content with
  | Some t => TextContent.lists t
  | None => None
  end.

(** [content.metadata?.description] *)
Definition descriptionOf (content : PageContent.t) : option jsstring :=
  match PageContent.metadata content with
  | Some m => Metadata.description m
  | None => None
  end.

(** [content.metadata?.title] *)
Definition titleOf (content : PageContent.t) : option jsstring :=
  match PageContent.metadata content with
  | Some m => Metadata.title m
  | None => None
  end.

(** *** [generateDefaultAnalysis] *)

(** [img => !img.alt || img.alt.trim() === ''] *)
Definition withoutAlt (img : AssetImage.t) : bool :=
  match AssetImage.alt img with
  | None => true
  | Some alt => negb (truthy alt) || eqb (trim alt) []
  end.

(** [img => img.width > 1000 || img.height > 1000] *)
Definition isLarge (img : AssetImage.t) : bool :=
  (AssetImage.width img >? 1000)%Z || (AssetImage.height img >? 1000)%Z.

(** [h => h.level === 1] *)
Definition isH1 (h : Heading.t) : bool := (Heading.level h =? 1)%Z.

Definition emptyAnalysis : AnalysisResult.t :=
  {| AnalysisResult.visual :=
       {| Visual.exitPoints := []; Visual.designIssues := [];
          Visual.recommendations := [] |};
     AnalysisResult.assets :=
       {| AssetsAnalysis.performanceIssues := [];
          AssetsAnalysis.accessibilityIssues := [];
          AssetsAnalysis.seoIssues := [];
          AssetsAnalysis.bestPractices := [];
          AssetsAnalysis.recommendations := [] |};
     AnalysisResult.content :=
       {| ContentAnalysis.structureIssues := [];
          ContentAnalysis.qualityIssues := [];
          ContentAnalysis.seoIssues := [];
          ContentAnalysis.uxIssues := [];
          ContentAnalysis.recommendations := [] |} |}.

(** The [push] calls of the analyzer, one function per list it grows. *)
Definition onAssets (f : AssetsAnalysis.t -> AssetsAnalysis.t)
    (analysis : AnalysisResult.t) : AnalysisResult.t :=
  {| AnalysisResult.visual := AnalysisResult.visual analysis;
     AnalysisResult.assets := f (AnalysisResult.assets analysis);
     AnalysisResult.content := AnalysisResult.content analysis |}.

Definition onContent (f : ContentAnalysis.t -> ContentAnalysis.t)
    (analysis : AnalysisResult.t) : AnalysisResult.t :=
  {| AnalysisResult.visual := AnalysisResult.visual analysis;
     AnalysisResult.assets := AnalysisResult.assets analysis;
     AnalysisResult.content := f (AnalysisResult.content analysis) |}.

Definition pushAccessibilityIssue (s : jsstring) : AnalysisResult.t -> AnalysisResult.t :=
  onAssets (fun a =>
    {| AssetsAnalysis.performanceIssues := AssetsAnalysis.performanceIssues a;
       AssetsAnalysis.accessibilityIssues := AssetsAnalysis.accessibilityIssues a ++ [s];
       AssetsAnalysis.seoIssues := AssetsAnalysis.seoIssues a;
       AssetsAnalysis.bestPractices := AssetsAnalysis.bestPractices a;
       AssetsAnalysis.recommendations := AssetsAnalysis.recommendations a |}).

Definition pushPerformanceIssue (s : jsstring) : AnalysisResult.t -> AnalysisResult.t :=
  onAssets (fun a =>
    {| AssetsAnalysis.performanceIssues := AssetsAnalysis.performanceIssues a ++ [s];
       AssetsAnalysis.accessibilityIssues := AssetsAnalysis.accessibilityIssues a;
       AssetsAnalysis.seoIssues := AssetsAnalysis.seoIssues a;
       AssetsAnalysis.bestPractices := AssetsAnalysis.bestPractices a;
       AssetsAnalysis.recommendations := AssetsAnalysis.recommendations a |}).

Definition pushAssetsRecommendation (s : jsstring) : AnalysisResult.t -> AnalysisResult.t :=
  onAssets (fun a =>
    {| AssetsAnalysis.performanceIssues := AssetsAnalysis.performanceIssues a;
       AssetsAnalysis.accessibilityIssues := AssetsAnalysis.accessibilityIssues a;
       AssetsAnalysis.seoIssues := AssetsAnalysis.seoIssues a;
       AssetsAnalysis.bestPractices := AssetsAnalysis.bestPractices a;
       AssetsAnalysis.recommendations := AssetsAnalysis.recommendations a ++ [s] |}).

Definition pushStructureIssue (s : jsstring) : AnalysisResult.t -> AnalysisResult.t :=
  onContent (fun c =>
    {| ContentAnalysis.structureIssues := ContentAnalysis.structureIssues c ++ [s];
       ContentAnalysis.qualityIssues := ContentAnalysis.qualityIssues c;
       ContentAnalysis.seoIssues := ContentAnalysis.seoIssues c;
       ContentAnalysis.uxIssues := ContentAnalysis.uxIssues c;
       ContentAnalysis.recommendations := ContentAnalysis.recommendations c |}).

Definition pushQualityIssue (s : jsstring) : AnalysisResult.t -> AnalysisResult.t :=
  onContent (fun c =>
    {| ContentAnalysis.structureIssues := ContentAnalysis.structureIssues c;
       ContentAnalysis.qualityIssues := ContentAnalysis.qualityIssues c ++ [s];
       ContentAnalysis.seoIssues := ContentAnalysis.seoIssues c;
       ContentAnalysis.uxIssues := ContentAnalysis.uxIssues c;
       ContentAnalysis.recommendations := ContentAnalysis.recommendations c |}).

Definition pushContentSeoIssue (s : jsstring) : AnalysisResult.t -> AnalysisResult.t :=
  onContent (fun c =>
    {| ContentAnalysis.structureIssues := ContentAnalysis.structureIssues c;
       ContentAnalysis.qualityIssues := ContentAnalysis.qualityIssues c;
       ContentAnalysis.seoIssues := ContentAnalysis.seoIssues c ++ [s];
       ContentAnalysis.uxIssues := ContentAnalysis.uxIssues c;
       ContentAnalysis.recommendations := ContentAnalysis.recommendations c |}).

Definition pushContentRecommendation (s : jsstring) : AnalysisResult.t -> AnalysisResult.t :=
  onContent (fun c =>
    {| ContentAnalysis.structureIssues := ContentAnalysis.structureIssues c;
       ContentAnalysis.qualityIssues := ContentAnalysis.qualityIssues c;
       ContentAnalysis.seoIssues := ContentAnalysis.seoIssues c;
       ContentAnalysis.uxIssues := ContentAnalysis.uxIssues c;
       ContentAnalysis.recommendations := ContentAnalysis.recommendations c ++ [s] |}).

(** The five rules, in the order of the source; each takes the analysis
    built so far and gives the analysis after its [push] calls. *)

Definition checkAltText (assets : Assets.t) (analysis : AnalysisResult.t) : AnalysisResult.t :=
  let imagesWithoutAlt := filter withoutAlt (Assets.images assets) in
  if (0 <? List.length imagesWithoutAlt)%nat then
    pushAssetsRecommendation (lit "Add descriptive alt text to all images")
      (pushAccessibilityIssue
         (ofNat (List.length imagesWithoutAlt) ++ lit " images missing alt text")
         analysis)
  else analysis.

Definition checkLargeImages (assets : Assets.t) (analysis : AnalysisResult.t) : AnalysisResult.t :=
  let largeImages := filter isLarge (Assets.images assets) in
  if (0 <? List.length largeImages)%nat then
    pushAssetsRecommendation (lit "Optimize and resize large images")
      (pushPerformanceIssue
         (ofNat (List.length largeImages) ++ lit " large images may slow down page load")
         analysis)
  else analysis.

Definition checkHeadings (content : PageContent.t) (analysis : AnalysisResult.t) : AnalysisResult.t :=
  let headings := orEmpty (headingsOf content) in
  if (List.length headings =? 0)%nat then
    pushContentRecommendation (lit "Add proper heading structure (H1, H2, etc.)")
      (pushStructureIssue (lit "No headings found on the page") analysis)
  else
    let h1Count := List.length (filter isH1 headings) in
    if (h1Count =? 0)%nat then
      pushContentRecommendation (lit "Add a single H1 heading as the main title")
        (pushStructureIssue (lit "No H1 heading found") analysis)
    else if (1 <? h1Count)%nat then
      pushContentRecommendation (lit "Use only one H1 heading per page")
        (pushStructureIssue
           (lit "Multiple H1 headings (" ++ ofNat h1Count ++ lit ") found")
           analysis)
    else analysis.

Definition checkMetaDescription (content : PageContent.t) (analysis : AnalysisResult.t) : AnalysisResult.t :=
  let missing :=
    match descriptionOf content with
    | None => true
    | Some d => negb (truthy d) || eqb (trim d) []
    end in
  if missing then
    pushContentRecommendation (lit "Add a descriptive meta description")
      (pushContentSeoIssue (lit "Missing meta description") analysis)
  else analysis.

Definition checkShortContent (content : PageContent.t) (analysis : AnalysisResult.t) : AnalysisResult.t :=
  let paragraphs := orEmpty (paragraphsOf content) in
  if (List.length paragraphs <? 3)%nat then
    pushContentRecommendation (lit "Add more descriptive text content")
      (pushQualityIssue (lit "Limited text content found") analysis)
  else analysis.

Definition generateDefaultAnalysis (content : PageContent.t) (assets : Assets.t)
    : AnalysisResult.t :=
  let analysis := emptyAnalysis in
  let analysis := checkAltText assets analysis in
  let analysis := checkLargeImages assets analysis in
  let analysis := checkHeadings content analysis in
  let analysis := checkMetaDescription content analysis in
  let analysis := checkShortContent content analysis in
  analysis.

(** *** [analyzePageContent] *)

Section Orchestrator.

Variable service : Service.
Variable OPENAI_API_KEY : option jsstring.

(** [JSON.parse] of the reply, read at the type the callers give the
    result. *)
Variable JSON_parse : option jsstring -> outcome AnalysisResult.t.

Definition simplify (content : PageContent.t) (assets : Assets.t) : SimplifiedContent :=
  {| s_title := orElse (titleOf content) [];
     s_headings := map (fun h => (Heading.text h, Heading.level h))
                       (orEmpty (headingsOf content));
     s_paragraphs := map Paragraph.text (orEmpty (paragraphsOf content));
     s_lists := map (fun l => (ListBlock.items l, ListBlock.type l))
                    (orEmpty (listsOf content));
     s_buttons := map Button.text (orEmpty (PageContent.buttons content));
     s_images := map (fun img => (AssetImage.src img, AssetImage.alt img))
                     (Assets.images assets);
     s_navigation :=
       map (fun nav => map (fun item => (NavItem.text item, NavItem.url item))
                           (Nav.items nav))
           (orEmpty (PageContent.navigation content)) |}.

Definition analyzePageContent (content : PageContent.t) (assets : Assets.t)
    : M AnalysisResult.t :=
  let simplifiedContent := simplify content assets in
  tryCatch
    (if negb (truthyOpt OPENAI_API_KEY)
     then ret (generateDefaultAnalysis content assets)
     else
       completion <- create service OPENAI_API_KEY (JsonPrompt simplifiedContent) ;;
       analysisText <- firstContent completion ;;
       analysis <- await (JSON_parse analysisText) ;;
       ret analysis)
    (fun error => ret (generateDefaultAnalysis content assets)).

End Orchestrator.

End Serverless.

(* ===================================================================== *)
(** ** The location resolver of the front end: [findElementLocation] *)
(* ===================================================================== *)

Module Resolver.

Inductive IssueType : Type :=
| exitPoint | designIssue | performance | accessibility | seo | content | other.

(** [xs[i]] for an integer [i]: undefined outside the array. *)
Definition at_ {A} (xs : list A) (i : Z) : option A :=
  if (i <? 0)%Z then None else nth_error xs (Z.to_nat i).

(** [a || b] on possibly undefined boxes; a box is an object, hence truthy. *)
Definition orBox (a b : option BoundingBox.t) : option BoundingBox.t :=
  match a with Some l => Some l | None => b end.

(** [Math.min(index, xs.length - 1)] *)
Definition clampIndex {A} (index : Z) (xs : list A) : Z :=
  Z.min index (Z.of_nat (List.length xs) - 1).

Definition orEmpty {A} (xs : option (list A)) : list A :=
  match xs with Some l => l | None => [] end.

(** The seven collections read at the top of the function. *)

(** [pageAnalysis.content?.images || []] *)
Definition allImages (pageAnalysis : PageAnalysis.t) : list ContentImage.t :=
  orEmpty (match PageAnalysis.content pageAnalysis with
           | Some c => PageContent.images c
           | None => None
           end).

(** [pageAnalysis.assets?.videos || []] *)
Definition allVideos (pageAnalysis : PageAnalysis.t) : list Video.t :=
  orEmpty (match PageAnalysis.assets pageAnalysis with
           | Some a => Some (Assets.videos a)
           | None => None
           end).

(** [pageAnalysis.content?.textContent?.headings || []] *)
Definition headings (pageAnalysis : PageAnalysis.t) : list Heading.t :=
  orEmpty (match PageAnalysis.content pageAnalysis with
           | Some c => match PageContent.textContent c with
                       | Some t => TextContent.headings t
                       | None => None
                       end
           | None => None
           end).

(** [pageAnalysis.content?.textContent?.paragraphs || []] *)
Definition paragraphs (pageAnalysis : PageAnalysis.t) : list Paragraph.t :=
  orEmpty (match PageAnalysis.content pageAnalysis with
           | Some c => match PageContent.textContent c with
                       | Some t => TextContent.paragraphs t
                       | None => None
                       end
           | None => None
           end).

(** [pageAnalysis.links || []] *)
Definition links (pageAnalysis : PageAnalysis.t) : list PageLink.t :=
  orEmpty (PageAnalysis.links pageAnalysis).

(** [pageAnalysis.content?.forms || []] *)
Definition forms (pageAnalysis : PageAnalysis.t) : list Form.t :=
  orEmpty (match PageAnalysis.content pageAnalysis with
           | Some c => PageContent.forms c
           | None => None
           end).

(** [pageAnalysis.content?.navigation || []] *)
Definition navigation (pageAnalysis : PageAnalysis.t) : list Nav.t :=
  orEmpty (match PageAnalysis.content pageAnalysis with
           | Some c => PageContent.navigation c
           | None => None
           end).

Definition nonEmpty {A} (xs : list A) : bool := (0 <? List.length xs)%nat.

Definition hasElements (pageAnalysis : PageAnalysis.t) : bool :=
  nonEmpty (allImages pageAnalysis) ||
  nonEmpty (allVideos pageAnalysis) ||
  nonEmpty (headings pageAnalysis) ||
  nonEmpty (paragraphs pageAnalysis) ||
  nonEmpty (links pageAnalysis) ||
  nonEmpty (forms pageAnalysis) ||
  nonEmpty (navigation pageAnalysis).

(** [xs[i]?.location] for each kind of element. *)
Definition imageAt p i := option_map ContentImage.location (at_ (allImages p) i).
Definition videoAt p i := option_map Video.location (at_ (allVideos p) i).
Definition headingAt p i := option_map Heading.location (at_ (headings p) i).
Definition paragraphAt p i := option_map Paragraph.location (at_ (paragraphs p) i).
Definition linkAt p i := option_map PageLink.location (at_ (links p) i).
Definition formAt p i := option_map Form.location (at_ (forms p) i).
Definition navAt p i := option_map Nav.location (at_ (navigation p) i).

Section WithLowerCase.

(** [String.prototype.toLowerCase], which follows the Unicode case
    mapping; the resolver is verified for every such function. *)
Variable toLowerCase : jsstring -> jsstring.

(** The [switch] on the issue type: the value of [location] after it. *)
Definition categoryLocation (issue : jsstring) (pageAnalysis : PageAnalysis.t)
    (index : Z) (issueType : IssueType) : option BoundingBox.t :=
  let issueLower := toLowerCase issue in
  let p := pageAnalysis in
  match issueType with
  | exitPoint =>
      if nonEmpty (links p)
      then let linkIndex := clampIndex index (links p) in linkAt p linkIndex
      else None
  | designIssue =>
      if nonEmpty (allImages p)
      then let imageIndex := clampIndex index (allImages p) in imageAt p imageIndex
      else None
  | performance =>
      if includes (lit "image") issueLower && nonEmpty (allImages p) then imageAt p 0
      else if includes (lit "video") issueLower && nonEmpty (allVideos p) then videoAt p 0
      else if nonEmpty (allImages p) then imageAt p 0
      else None
  | accessibility =>
      if includes (lit "form") issueLower && nonEmpty (forms p) then formAt p 0
      else if includes (lit "image") issueLower && nonEmpty (allImages p) then imageAt p 0
      else if includes (lit "navigation") issueLower && nonEmpty (navigation p) then navAt p 0
      else if nonEmpty (allImages p) then imageAt p 0
      else None
  | seo =>
      if includes (lit "heading") issueLower && nonEmpty (headings p) then headingAt p 0
      else if includes (lit "content") issueLower && nonEmpty (paragraphs p) then paragraphAt p 0
      else if nonEmpty (headings p) then headingAt p 0
      else None
  | content =>
      if nonEmpty (paragraphs p)
      then let paraIndex := clampIndex index (paragraphs p) in paragraphAt p paraIndex
      else if nonEmpty (headings p)
      then let headingIndex := clampIndex index (headings p) in headingAt p headingIndex
      else None
  | other =>
      if includes (lit "navigation") issueLower && nonEmpty (navigation p) then navAt p 0
      else if includes (lit "image") issueLower && nonEmpty (allImages p) then imageAt p 0
      else if includes (lit "text") issueLower && nonEmpty (paragraphs p) then paragraphAt p 0
      else if includes (lit "link") issueLower && nonEmpty (links p) then linkAt p 0
      else None
  end.

(** The final [return ( a || b || ... )]. *)
Definition fallbackLocation (pageAnalysis : PageAnalysis.t) : option BoundingBox.t :=
  let p := pageAnalysis in
  orBox (imageAt p 0)
    (orBox (headingAt p 0)
       (orBox (paragraphAt p 0)
          (orBox (linkAt p 0)
             (orBox (formAt p 0)
                (orBox (navAt p 0) (videoAt p 0)))))).

(** [index] is the position of the issue in its list, which some callers
    offset by a constant. *)
Definition findElementLocation (issue : jsstring) (pageAnalysis : PageAnalysis.t)
    (index : Z) (issueType : IssueType) : option BoundingBox.t :=
  if negb (hasElements pageAnalysis) then None
  else
    match categoryLocation issue pageAnalysis index issueType with
    | Some location => Some location
    | None => fallbackLocation pageAnalysis
    end.

End WithLowerCase.

End Resolver.

(* ===================================================================== *)
(** ** Link extraction ([extractLinks], [extractLinksWithLocation]) *)
(* ===================================================================== *)

Module Links.

(** [self.indexOf(value)]: the first index of [value], or -1. *)
Fixpoint indexOf (value : jsstring) (self : list jsstring) : Z :=
  match self with
  | [] => (-1)%Z
  | x :: rest =>
      if eqb x value then 0%Z
      else let i := indexOf value rest in
           if (i <? 0)%Z then (-1)%Z else (i + 1)%Z
  end.

(** [xs.filter((value, index) => keep(value, index))], from a given index
    on. *)
Fixpoint filterFrom {A} (keep : A -> Z -> bool) (index : Z) (xs : list A) : list A :=
  match xs with
  | [] => []
  | x :: rest =>
      if keep x index then x :: filterFrom keep (index + 1) rest
      else filterFrom keep (index + 1) rest
  end.

(** [self.filter((value, index, self) => self.indexOf(value) === index)] *)
Definition removeDuplicates (self : list jsstring) : list jsstring :=
  filterFrom (fun value index => (indexOf value self =? index)%Z) 0 self.

(** [xs.filter(Boolean)] on strings that may be null. *)
Fixpoint filterTruthy (xs : list (option jsstring)) : list jsstring :=
  match xs with
  | [] => []
  | Some s :: rest => if truthy s then s :: filterTruthy rest else filterTruthy rest
  | None :: rest => filterTruthy rest
  end.

(** [xs.filter(Boolean)] on objects that may be null. *)
Fixpoint filterNonNull {A} (xs : list (option A)) : list A :=
  match xs with
  | [] => []
  | Some a :: rest => a :: filterNonNull rest
  | None :: rest => filterNonNull rest
  end.

Section InPage.

(** The anchors of the document, [document.querySelectorAll('a[href]')],
    with what the browser gives for each. *)
Variable Anchor : Type.

(** The [try] block of the [map] callback: the absolute [href] when
    [new URL(link.href, baseUrl)] succeeds and its hostname is that of
    the base URL; nothing when the constructor throws or the hostname
    differs. *)
Variable sameDomainHref : Anchor -> option jsstring.

(** [link.textContent] and [link.getBoundingClientRect()]. *)
Variable textContent : Anchor -> jsstring.
Variable getBoundingClientRect : Anchor -> BoundingBox.t.

Definition extractLinks (links : list Anchor) : list jsstring :=
  removeDuplicates (filterTruthy (map sameDomainHref links)).

Definition extractLinksWithLocation (links : list Anchor) : list PageLink.t :=
  filterNonNull
    (map (fun link =>
            match sameDomainHref link with
            | Some href =>
                Some {| PageLink.url := href;
                        PageLink.text := trim (textContent link);
                        PageLink.location := getBoundingClientRect link |}
            | None => None
            end)
         links).

End InPage.

End Links.

(* ===================================================================== *)
(** ** HTTP handlers of the analysis ([server.js], serverless handler) *)
(* ===================================================================== *)

Module Http.

(** A field of the JSON request body: absent (or another falsy value that
    is not a string), a string, or a truthy value that is not a string. *)
Inductive Field : Type :=
| Missing
| Text (s : jsstring)
| NotText.

(** [!field] *)
Definition falsy (f : Field) : bool :=
  match f with
  | Missing => true
  | Text s => negb (truthy s)
  | NotText => false
  end.

Inductive Body (A : Type) : Type :=
| Json (value : A)
| ErrorJson (error : jsstring)
| NoBody.

Arguments ErrorJson {A} error.
Arguments NoBody {A}.

Record Response (A : Type) := { status : nat; body : Body A }.

(** [req.body] as the serverless platform hands it over: [undefined] when
    the request carries no body, [null] when the body is the JSON [null],
    else the parsed value, by its [url] field.  (In [server.js] the
    [express.json()] middleware makes [req.body] an object for every
    request that reaches a route.) *)
Inductive RequestBody : Type :=
| Undefined
| Null
| Parsed (url : Field).

End Http.

Module ExpressServer.

Section Routes.

Variable Doc : Type.
Variable scrollHeight : Doc -> Z.
Variable scrollBy : Z -> Doc -> Doc.
Variable service : Service.
Variable OPENAI_API_KEY : option jsstring.

(** [app.post('/analyze', ...)] *)
Definition analyzeRoute (fuel : nat) (browser : Express.Browser Doc) (url : Http.Field)
    : M (Http.Response Express.FullAnalysis.t) :=
  tryCatch
    (if Http.falsy url then
       ret {| Http.status := 400; Http.body := Http.ErrorJson (lit "URL is required") |}
     else
       match url with
       | Http.Text url =>
           if negb (startsWith (lit "http://") url) && negb (startsWith (lit "https://") url)
           then ret {| Http.status := 400;
                       Http.body := Http.ErrorJson
                         (lit "Invalid URL format. URL must start with http:// or https://") |}
           else
             analysis <- Express.analyze scrollHeight scrollBy service OPENAI_API_KEY
                           fuel browser url ;;
             ret {| Http.status := 200; Http.body := Http.Json analysis |}
       | _ => throw {| Error.message := lit "url.startsWith is not a function" |}
       end)
    (fun error =>
       ret {| Http.status := 500;
              Http.body := Http.ErrorJson
                (orElse (Some (Error.message error)) (lit "Failed to analyze website")) |}).

End Routes.

End ExpressServer.

(* ===================================================================== *)
(** ** The serverless pipeline: [analyzeWebsite] and [handler] *)
(* ===================================================================== *)

Module ServerlessApi.

Module FullAnalysis.
Record t := { mainPage : PageAnalysis.t; additionalPages : list PageAnalysis.t;
              allLinks : list jsstring }.
End FullAnalysis.

Section Pipeline.

Variable Doc : Type.
Variable scrollHeight : Doc -> Z.
Variable scrollBy : Z -> Doc -> Doc.
Variable service : Service.
Variable OPENAI_API_KEY : option jsstring.
Variable JSON_parse : option jsstring -> outcome AnalysisResult.t.

(** What the browser automation calls give for one request.  The browser
    is closed at the end of the [try] block, and once more in the [catch]
    block when anything in the [try] block threw. *)
Record Browser := {
  launch : outcome unit;
  newPage : outcome unit;
  setViewport : outcome unit;
  goto : jsstring -> outcome unit;
  title : outcome jsstring;
  document : Doc;
  screenshot : outcome jsstring;
  extractLinks : outcome (list jsstring);
  extractAssets : outcome Assets.t;
  extractContent : outcome PageContent.t;
  extractLinksWithLocation : outcome (list PageLink.t);
  close : outcome unit;
  closeInCatch : outcome unit
}.

(** [analyzeWebsite]; its [autoScroll] is the function of the Express
    pipeline, word for word. *)
Definition analyzeWebsite (fuel : nat) (browser : Browser) (url : jsstring)
    : M FullAnalysis.t :=
  _ <- await (launch browser) ;;
  tryCatch
    (_ <- await (newPage browser) ;;
     _ <- await (setViewport browser) ;;
     _ <- await (goto browser url) ;;
     title <- await (title browser) ;;
     _ <- Express.autoScroll scrollHeight scrollBy fuel (document browser) ;;
     screenshot <- await (screenshot browser) ;;
     allLinks <- await (extractLinks browser) ;;
     assets <- await (extractAssets browser) ;;
     content <- await (extractContent browser) ;;
     links <- await (extractLinksWithLocation browser) ;;
     analysis <- Serverless.analyzePageContent service OPENAI_API_KEY JSON_parse
                   content assets ;;
     let mainPageAnalysis :=
       {| PageAnalysis.url := url;
          PageAnalysis.title := title;
          PageAnalysis.analysis := analysis;
          PageAnalysis.screenshot := lit "data:image/png;base64," ++ screenshot;
          PageAnalysis.content := Some content;
          PageAnalysis.assets := Some assets;
          PageAnalysis.links := Some links |} in
     let fullAnalysis :=
       {| FullAnalysis.mainPage := mainPageAnalysis;
          FullAnalysis.additionalPages := [];
          FullAnalysis.allLinks := allLinks |} in
     _ <- await (close browser) ;;
     ret fullAnalysis)
    (fun error =>
       _ <- await (closeInCatch browser) ;;
       throw error).

(** [const { url } = req.body]: destructuring [undefined] or [null] is a
    TypeError. *)
Definition urlOf (body : Http.RequestBody) : M Http.Field :=
  match body with
  | Http.Undefined =>
      throw {| Error.message :=
        lit "Cannot destructure property 'url' of 'req.body' as it is undefined." |}
  | Http.Null =>
      throw {| Error.message :=
        lit "Cannot destructure property 'url' of 'req.body' as it is null." |}
  | Http.Parsed url => ret url
  end.

(** [handler(req, res)] *)
Definition handler (fuel : nat) (browser : Browser) (method : jsstring)
    (body : Http.RequestBody) : M (Http.Response FullAnalysis.t) :=
  if eqb method (lit "OPTIONS") then
    ret {| Http.status := 200; Http.body := Http.NoBody |}
  else if negb (eqb method (lit "POST")) then
    ret {| Http.status := 405; Http.body := Http.ErrorJson (lit "Method not allowed") |}
  else
    tryCatch
      (url <- urlOf body ;;
       if Http.falsy url then
         ret {| Http.status := 400; Http.body := Http.ErrorJson (lit "URL is required") |}
       else
         match url with
         | Http.Text url =>
             if negb (startsWith (lit "http://") url) && negb (startsWith (lit "https://") url)
             then ret {| Http.status := 400;
                         Http.body := Http.ErrorJson
                           (lit "Invalid URL format. URL must start with http:// or https://") |}
             else
               analysis <- analyzeWebsite fuel browser url ;;
               ret {| Http.status := 200; Http.body := Http.Json analysis |}
         | _ => throw {| Error.message := lit "url.startsWith is not a function" |}
         end)
      (fun error =>
         ret {| Http.status := 500;
                Http.body := Http.ErrorJson
                  (orElse (Some (Error.message error)) (lit "Failed to analyze website")) |}).

End Pipeline.

End ServerlessApi.

(* ===================================================================== *)
(** ** Solutions for an issue ([server.js], [lib/solutions]) *)
(* ===================================================================== *)

Module Solutions.

(** The double quote, written by its code unit. *)
Definition QUOTE : jschar := 34%N.

(** *** The texts of [generateFallbackSolution] and [generateSolution] *)

Definition altTextSolution : jsstring :=
  lit "Add descriptive alt text to all images to improve accessibil" ++
  lit "ity." ++ [LF; LF] ++ lit "Example:" ++ [LF] ++ lit "<img src=" ++
  [QUOTE] ++ lit "image.jpg" ++ [QUOTE] ++ lit " alt=" ++ [QUOTE] ++
  lit "Descriptive text about the image content" ++ [QUOTE] ++
  lit " />" ++ [LF; LF] ++ lit "Good alt text should:" ++ [LF] ++
  lit "- Be concise but descriptive" ++ [LF] ++
  lit "- Convey the purpose of the image" ++ [LF] ++
  lit "- Not start with " ++ [QUOTE] ++ lit "image of" ++ [QUOTE] ++
  lit " or " ++ [QUOTE] ++ lit "picture of" ++ [QUOTE].

Definition contrastSolution : jsstring :=
  lit "Improve color contrast between text and background to meet W" ++
  lit "CAG standards (minimum 4.5:1 for normal text, 3:1 for large " ++
  lit "text)." ++ [LF; LF] ++ lit "Steps to fix:" ++ [LF] ++
  lit "1. Use a contrast checker tool like WebAIM" ++ [LF] ++
  lit "2. Adjust text or background colors" ++ [LF] ++
  lit "3. Consider adding a semi-transparent background behind text" ++
  lit " on images".

Definition responsiveSolution : jsstring :=
  lit "Make your design responsive for all device sizes:" ++ [LF; LF] ++
  lit "1. Use responsive units (%, em, rem) instead of fixed pixels" ++
  [LF] ++ lit "2. Implement media queries for different breakpoints" ++
  [LF] ++ lit "3. Test on various devices and screen sizes" ++ [LF] ++
  lit "4. Consider a mobile-first approach to design".

Definition performanceSolution : jsstring :=
  lit "Improve page load performance:" ++ [LF; LF] ++
  lit "1. Optimize and compress images" ++ [LF] ++
  lit "2. Minify CSS and JavaScript" ++ [LF] ++
  lit "3. Implement lazy loading for images and videos" ++ [LF] ++
  lit "4. Use a Content Delivery Network (CDN)" ++ [LF] ++
  lit "5. Enable browser caching" ++ [LF] ++
  lit "6. Reduce third-party scripts".

Definition seoSolution : jsstring :=
  lit "Improve SEO with these steps:" ++ [LF; LF] ++
  lit "1. Add descriptive title tags (50-60 characters)" ++ [LF] ++
  lit "2. Write compelling meta descriptions (150-160 characters)" ++
  [LF] ++ lit "3. Use proper heading structure (H1, H2, etc.)" ++ [LF] ++
  lit "4. Add structured data/schema markup" ++ [LF] ++
  lit "5. Ensure mobile-friendliness" ++ [LF] ++
  lit "6. Improve page load speed".

Definition typographySolution : jsstring :=
  lit "Improve typography:" ++ [LF; LF] ++
  lit "1. Limit font families to 2-3 per page" ++ [LF] ++
  lit "2. Ensure proper font sizes (min 16px for body text)" ++ [LF] ++
  lit "3. Maintain adequate line height (1.5-2x font size)" ++ [LF] ++
  lit "4. Use web-safe fonts or properly implement web fonts" ++ [LF] ++
  lit "5. Ensure consistent styling throughout the site".

Definition navigationSolution : jsstring :=
  lit "Improve navigation:" ++ [LF; LF] ++
  lit "1. Keep navigation consistent across all pages" ++ [LF] ++
  lit "2. Highlight the current page/section" ++ [LF] ++
  lit "3. Ensure clickable areas are large enough (min 44x44px)" ++
  [LF] ++ lit "4. Add breadcrumbs for complex sites" ++ [LF] ++
  lit "5. Make sure navigation is keyboard accessible" ++ [LF] ++
  lit "6. Consider adding a search function".

Definition contentSolution : jsstring :=
  lit "Improve content quality:" ++ [LF; LF] ++
  lit "1. Use clear, concise language" ++ [LF] ++
  lit "2. Break text into short paragraphs" ++ [LF] ++
  lit "3. Use bullet points for lists" ++ [LF] ++
  lit "4. Include subheadings to organize content" ++ [LF] ++
  lit "5. Proofread for spelling and grammar" ++ [LF] ++
  lit "6. Ensure content is relevant and valuable to users".

Definition defaultSolution : jsstring :=
  lit "To fix this issue, consider the following steps:" ++ [LF; LF] ++
  lit "1. Analyze the specific problem mentioned" ++ [LF] ++
  lit "2. Research best practices for this particular area" ++ [LF] ++
  lit "3. Implement changes incrementally and test results" ++ [LF] ++
  lit "4. Get feedback from users or colleagues" ++ [LF] ++
  lit "5. Continue to monitor and refine your solution" ++ [LF; LF] ++
  lit "For more specific guidance, consider consulting with a speci" ++
  lit "alist in this area or researching industry standards.".

(** *** The system prompts of [getSystemPromptForCategory] *)

Definition accessibilityPrompt : jsstring :=
  lit "You are an accessibility expert specializing in web developm" ++
  lit "ent. Provide specific, actionable solutions to fix website a" ++
  lit "ccessibility issues. Include code examples, WCAG guidelines " ++
  lit "references, and best practices. Focus on creating inclusive " ++
  lit "experiences for users with disabilities.".

Definition contrastPrompt : jsstring :=
  lit "You are a UI/UX designer specializing in color theory and vi" ++
  lit "sual accessibility. Provide specific solutions for contrast " ++
  lit "and color issues on websites. Include color ratio recommenda" ++
  lit "tions, tools for checking contrast, and code examples using " ++
  lit "accessible color combinations.".

Definition responsivePrompt : jsstring :=
  lit "You are a responsive design expert. Provide detailed solutio" ++
  lit "ns for making websites work well on all device sizes. Includ" ++
  lit "e CSS media query examples, responsive design patterns, and " ++
  lit "testing methodologies. Focus on mobile-first approaches and " ++
  lit "fluid layouts.".

Definition performancePrompt : jsstring :=
  lit "You are a web performance optimization specialist. Provide t" ++
  lit "echnical solutions for improving website loading speed and p" ++
  lit "erformance. Include specific code optimizations, caching str" ++
  lit "ategies, and resource loading techniques. Mention relevant t" ++
  lit "ools for measuring and monitoring performance.".

Definition seoPrompt : jsstring :=
  lit "You are an SEO specialist. Provide detailed solutions for im" ++
  lit "proving website search engine optimization. Include specific" ++
  lit " meta tag recommendations, structured data examples, and con" ++
  lit "tent optimization techniques. Focus on both technical SEO an" ++
  lit "d content-related improvements.".

Definition typographyPrompt : jsstring :=
  lit "You are a typography and web design expert. Provide solution" ++
  lit "s for improving text readability and visual hierarchy. Inclu" ++
  lit "de CSS examples, font pairing recommendations, and best prac" ++
  lit "tices for line height, spacing, and font sizes. Focus on bot" ++
  lit "h aesthetics and readability.".

Definition navigationPrompt : jsstring :=
  lit "You are a UX designer specializing in website navigation and" ++
  lit " information architecture. Provide solutions for improving s" ++
  lit "ite navigation, menu structures, and user flows. Include acc" ++
  lit "essibility considerations, mobile navigation patterns, and b" ++
  lit "est practices for link design.".

Definition contentPrompt : jsstring :=
  lit "You are a content strategist and UX writer. Provide solution" ++
  lit "s for improving website content quality, structure, and effe" ++
  lit "ctiveness. Include writing guidelines, content organization " ++
  lit "strategies, and techniques for improving readability and eng" ++
  lit "agement.".

Definition securityPrompt : jsstring :=
  lit "You are a web security expert. Provide solutions for improvi" ++
  lit "ng website security and data protection. Include specific co" ++
  lit "de examples, security headers, form validation techniques, a" ++
  lit "nd best practices for protecting user data.".

Definition formsPrompt : jsstring :=
  lit "You are a UX designer specializing in form design and valida" ++
  lit "tion. Provide solutions for improving form usability, access" ++
  lit "ibility, and conversion rates. Include validation techniques" ++
  lit ", error handling best practices, and code examples for creat" ++
  lit "ing user-friendly forms.".

Definition generalPrompt : jsstring :=
  lit "You are a helpful web development and design expert. Provide" ++
  lit " specific, actionable solutions to fix website issues. Forma" ++
  lit "t your response with clear steps, examples, and best practic" ++
  lit "es. Keep your response concise but comprehensive.".

(** The own keys of the [prompts] object, in the order of the source. *)
Definition prompts : list (jsstring * jsstring) :=
  [ (lit "accessibility", accessibilityPrompt);
    (lit "contrast", contrastPrompt);
    (lit "responsive", responsivePrompt);
    (lit "performance", performancePrompt);
    (lit "seo", seoPrompt);
    (lit "typography", typographyPrompt);
    (lit "navigation", navigationPrompt);
    (lit "content", contentPrompt);
    (lit "security", securityPrompt);
    (lit "forms", formsPrompt);
    (lit "general", generalPrompt) ].

(** The members every object literal inherits from [Object.prototype];
    each of them is a truthy value that is not a string. *)
Definition inheritedMembers : list jsstring :=
  [ lit "constructor"; lit "__defineGetter__"; lit "__defineSetter__";
    lit "hasOwnProperty"; lit "__lookupGetter__"; lit "__lookupSetter__";
    lit "isPrototypeOf"; lit "propertyIsEnumerable"; lit "toString";
    lit "valueOf"; lit "__proto__"; lit "toLocaleString" ].

(** The value of a property access on [prompts]. *)
Inductive PromptValue : Type :=
| PromptText (text : jsstring)
| Inherited (member : jsstring).

Fixpoint ownProperty (key : jsstring) (object : list (jsstring * jsstring))
    : option jsstring :=
  match object with
  | [] => None
  | (k, v) :: rest => if eqb k key then Some v else ownProperty key rest
  end.

(** [prompts[category] || prompts.general] *)
Definition getSystemPromptForCategory (category : jsstring) : PromptValue :=
  match ownProperty category prompts with
  | Some text => if truthy text then PromptText text else PromptText generalPrompt
  | None =>
      if existsb (eqb category) inheritedMembers then Inherited category
      else PromptText generalPrompt
  end.

(** [text.includes(word)] for a literal word. *)
Definition mentions (text : jsstring) (word : string) : bool :=
  includes (lit word) text.

Arguments mentions text word%_string.

Section WithLowerCase.

Variable toLowerCase : jsstring -> jsstring.

(** [categorizeIssue] *)
Definition categorizeIssue (issue : jsstring) : jsstring :=
  let issueLower := toLowerCase issue in
  if mentions issueLower "image" && (mentions issueLower "alt"
     || mentions issueLower "accessibility")
    then lit "accessibility"
  else if mentions issueLower "contrast"
          || mentions issueLower "color"
          || mentions issueLower "readability"
    then lit "contrast"
  else if mentions issueLower "responsive"
          || mentions issueLower "mobile"
          || mentions issueLower "screen size"
    then lit "responsive"
  else if mentions issueLower "load"
          || mentions issueLower "performance"
          || mentions issueLower "speed"
    then lit "performance"
  else if mentions issueLower "seo"
          || mentions issueLower "meta"
          || mentions issueLower "search engine"
    then lit "seo"
  else if mentions issueLower "font"
          || mentions issueLower "typography"
          || mentions issueLower "text"
    then lit "typography"
  else if mentions issueLower "navigation"
          || mentions issueLower "menu"
          || mentions issueLower "link"
    then lit "navigation"
  else if mentions issueLower "content"
          || mentions issueLower "writing"
          || mentions issueLower "copy"
    then lit "content"
  else if mentions issueLower "security"
          || mentions issueLower "privacy"
          || mentions issueLower "data"
    then lit "security"
  else if mentions issueLower "form"
          || mentions issueLower "input"
          || mentions issueLower "validation"
    then lit "forms"
  else lit "general".

(** [generateFallbackSolution] of [server.js] *)
Definition generateFallbackSolution (issue : jsstring) : jsstring :=
  let issueLower := toLowerCase issue in
  if mentions issueLower "image" && mentions issueLower "alt" then altTextSolution
  else if mentions issueLower "contrast" then contrastSolution
  else if mentions issueLower "responsive" || mentions issueLower "mobile"
    then responsiveSolution
  else if mentions issueLower "load" || mentions issueLower "performance"
    then performanceSolution
  else if mentions issueLower "seo" || mentions issueLower "meta" then seoSolution
  else if mentions issueLower "font" || mentions issueLower "typography"
    then typographySolution
  else if mentions issueLower "navigation" || mentions issueLower "menu"
    then navigationSolution
  else if mentions issueLower "content" || mentions issueLower "text"
    then contentSolution
  else defaultSolution.

(** [generateSolution] of the front end, which lower-cases the issue anew
    in every test. *)
Definition generateSolution (issue : jsstring) : jsstring :=
  if mentions (toLowerCase issue) "image" && mentions (toLowerCase issue) "alt"
    then altTextSolution
  else if mentions (toLowerCase issue) "contrast" then contrastSolution
  else if mentions (toLowerCase issue) "responsive"
          || mentions (toLowerCase issue) "mobile"
    then responsiveSolution
  else if mentions (toLowerCase issue) "load"
          || mentions (toLowerCase issue) "performance"
    then performanceSolution
  else if mentions (toLowerCase issue) "seo" || mentions (toLowerCase issue) "meta"
    then seoSolution
  else if mentions (toLowerCase issue) "font"
          || mentions (toLowerCase issue) "typography"
    then typographySolution
  else if mentions (toLowerCase issue) "navigation"
          || mentions (toLowerCase issue) "menu"
    then navigationSolution
  else if mentions (toLowerCase issue) "content" || mentions (toLowerCase issue) "text"
    then contentSolution
  else defaultSolution.

(** *** The route [/api/generate-solution] of [server.js] *)

(** The request sent to the chat completion endpoint, by what varies in
    it. *)
Record FetchRequest := {
  authorization : jsstring;
  systemPrompt : PromptValue;
  userIssue : jsstring
}.

(** The response of [fetch]: [response.ok], [response.statusText] and what
    awaiting [response.json()] gives. *)
Record FetchResponse := {
  ok : bool;
  statusText : jsstring;
  json : outcome ChatCompletion.t
}.

Variable fetch : FetchRequest -> outcome FetchResponse.
Variable OPENAI_API_KEY : option jsstring.

(** Computations that log the requests they send with [fetch]. *)
Definition F (A : Type) : Type := list FetchRequest -> outcome A * list FetchRequest.

Definition done {A} (a : A) : F A := fun log => (Returned a, log).
Definition raise {A} (e : Error.t) : F A := fun log => (Thrown e, log).
Definition awaited {A} (o : outcome A) : F A := fun log => (o, log).

Definition andThen {A B} (m : F A) (k : A -> F B) : F B :=
  fun log =>
    match m log with
    | (Returned a, log') => k a log'
    | (Thrown e, log') => (Thrown e, log')
    | (Pending, log') => (Pending, log')
    end.

Definition attempt {A} (body : F A) (handler : Error.t -> F A) : F A :=
  fun log =>
    match body log with
    | (Thrown e, log') => handler e log'
    | r => r
    end.

Definition send (request : FetchRequest) : F FetchResponse :=
  fun log => (fetch request, log ++ [request]).

(** [generateFallbackSolution(issue)] on a body field: calling
    [toLowerCase] on a value that is not a string throws. *)
Definition fallbackFor (issue : Http.Field) : F jsstring :=
  match issue with
  | Http.Text s => done (generateFallbackSolution s)
  | _ => raise {| Error.message := lit "issue.toLowerCase is not a function" |}
  end.

(** [data.choices[0].message.content.trim()] *)
Definition trimmedContent (data : ChatCompletion.t) : F jsstring :=
  match ChatCompletion.choices data with
  | [] => raise {| Error.message :=
             lit "Cannot read properties of undefined (reading 'message')" |}
  | choice :: _ =>
      match Message.content (Choice.message choice) with
      | Some content => done (trim content)
      | None => raise {| Error.message :=
                  lit "Cannot read properties of null (reading 'trim')" |}
      end
  end.

Definition solutionRoute (issue : Http.Field) : F (Http.Response jsstring) :=
  attempt
    (if Http.falsy issue then
       done {| Http.status := 400; Http.body := Http.ErrorJson (lit "Issue is required") |}
     else if negb (truthyOpt OPENAI_API_KEY) then
       andThen (fallbackFor issue) (fun solution =>
       done {| Http.status := 200; Http.body := Http.Json solution |})
     else
       match issue with
       | Http.Text text =>
           let category := categorizeIssue text in
           let prompt := getSystemPromptForCategory category in
           andThen (send {| authorization := orElse OPENAI_API_KEY [];
                            systemPrompt := prompt;
                            userIssue := text |}) (fun response =>
           if negb (ok response) then
             andThen (awaited (json response)) (fun errorData =>
             raise {| Error.message :=
                        lit "OpenAI API error: " ++ statusText response |})
           else
             andThen (awaited (json response)) (fun data =>
             andThen (trimmedContent data) (fun solution =>
             done {| Http.status := 200; Http.body := Http.Json solution |})))
       | _ => raise {| Error.message := lit "issue.toLowerCase is not a function" |}
       end)
    (fun error =>
       andThen (fallbackFor issue) (fun solution =>
       done {| Http.status := 200; Http.body := Http.Json solution |})).

End WithLowerCase.

End Solutions.
(* ===================================================================== *)
(** ** Vocabulary of the properties *)
(* ===================================================================== *)

Module Props.

(** The boxes of the elements the resolver can see in a page analysis. *)
Definition elementLocations (p : PageAnalysis.t) : list BoundingBox.t :=
  map ContentImage.location (Resolver.allImages p)
  ++ map Video.location (Resolver.allVideos p)
  ++ map Heading.location (Resolver.headings p)
  ++ map Paragraph.location (Resolver.paragraphs p)
  ++ map PageLink.location (Resolver.links p)
  ++ map Form.location (Resolver.forms p)
  ++ map Nav.location (Resolver.navigation p).

(** All seven collections are empty. *)
Definition noElements (p : PageAnalysis.t) : Prop :=
  Resolver.allImages p = [] /\ Resolver.allVideos p = [] /\
  Resolver.headings p = [] /\ Resolver.paragraphs p = [] /\
  Resolver.links p = [] /\ Resolver.forms p = [] /\
  Resolver.navigation p = [].

(** The alt text of an image is missing, empty, or white space only. *)
Definition blankAlt (img : AssetImage.t) : bool :=
  match AssetImage.alt img with
  | None => true
  | Some alt => forallb isWhiteSpace alt
  end.

(** The number of images whose alt text is missing or blank. *)
Definition imagesWithoutAlt (assets : Assets.t) : nat :=
  List.length (filter blankAlt (Assets.images assets)).

(** The count in the words of the specification: the images whose alt
    attribute is missing or the empty string. *)
Definition emptyOrMissingAlts (assets : Assets.t) : nat :=
  List.length (filter (fun img => match AssetImage.alt img with
                                  | None => true
                                  | Some [] => true
                                  | Some (_ :: _) => false
                                  end)
                 (Assets.images assets)).

(** The number of headings of level 1 of a content record. *)
Definition h1Count (content : PageContent.t) : nat :=
  List.length (filter (fun h => (Heading.level h =? 1)%Z)
                 (Serverless.orEmpty (Serverless.headingsOf content))).

Definition jsstring_eq_dec : forall a b : jsstring, {a = b} + {a <> b} :=
  list_eq_dec N.eq_dec.

(** How many times a text occurs in a list of issues. *)
Definition occurrences (text : jsstring) (issues : list jsstring) : nat :=
  count_occ jsstring_eq_dec issues text.

(** The pattern occurs somewhere in the text. *)
Definition occursIn (pat text : jsstring) : Prop :=
  exists pre post, text = pre ++ pat ++ post.

(** One of the three bullet markers of [/^[-•*]/]. *)
Definition isBulletMarker (c : jschar) : bool :=
  (c =? 45)%N || (c =? BULLET)%N || (c =? 42)%N.

(** The text behind a leading ordinal, that is behind a run of digits, a
    dot and the white space after the dot; nothing when the line does not
    begin with digits and a dot.  [seen] says that a digit was read. *)
Fixpoint afterOrdinal (seen : bool) (line : jsstring) : option jsstring :=
  match line with
  | [] => None
  | c :: rest =>
      if isDigit c then afterOrdinal true rest
      else if seen && (c =? 46)%N then Some (trimStart rest)
      else None
  end.

(** A line without its leading ordinal; a line that has none is left as
    it is. *)
Definition withoutOrdinal (line : jsstring) : jsstring :=
  match afterOrdinal false line with
  | Some text => text
  | None => line
  end.

(** The line begins with one of the bullet markers. *)
Definition bulleted (line : jsstring) : bool :=
  match line with
  | c :: _ => isBulletMarker c
  | [] => false
  end.

(** The line is an ordinal and nothing else. *)
Definition bareOrdinal (line : jsstring) : bool :=
  truthy line && negb (truthy (withoutOrdinal line)).

(** The post-processing step by step: split, trim, drop the lines that
    begin with a bullet marker, strip the ordinals, drop the empty lines. *)
Definition pointsOfSection (section : jsstring) : list jsstring :=
  filter truthy
    (map withoutOrdinal
       (filter (fun line => negb (bulleted line))
          (map trim (splitLines section)))).

(** What one line of a section contributes to the output: nothing when it
    is blank or begins with a bullet marker, else the trimmed line without
    its leading ordinal. *)
Definition pointOfLine (line : jsstring) : list jsstring :=
  match trim line with
  | [] => []
  | c :: rest =>
      if isBulletMarker c then [] else [Narrative.stripOrdinal (c :: rest)]
  end.

(** The post-processing in the words of the specification: split, trim,
    drop the lines that are only a bullet marker, strip ordinals, drop the
    empty lines. *)
Definition pointsAsSpecified (section : jsstring) : list jsstring :=
  filter truthy
    (map withoutOrdinal
       (filter (fun line => negb (match line with
                                  | [c] => isBulletMarker c
                                  | _ => false
                                  end))
          (map trim (splitLines section)))).

(** The document after a number of timer ticks of the sweep. *)
Definition docAfter {Doc} (scrollBy : Z -> Doc -> Doc) (doc : Doc) (ticks : nat) : Doc :=
  Nat.iter ticks (scrollBy Express.distance) doc.

(** The timer callback resolves at tick [k], counted from 0: the distance
    accumulated by then reaches the scroll height read at that tick. *)
Definition resolvesAt {Doc} (scrollHeight : Doc -> Z) (scrollBy : Z -> Doc -> Doc)
    (doc : Doc) (k : nat) : Prop :=
  (scrollHeight (docAfter scrollBy doc k) <= 100 * (Z.of_nat k + 1))%Z.

(** A request that makes the [try] block of its category throw: the call
    rejects (network error, non-success status) or the completion has no
    choice to read. *)
Definition requestFails (reply : outcome ChatCompletion.t) : Prop :=
  (exists e, reply = Thrown e)
  \/ reply = Returned {| ChatCompletion.choices := [] |}.

(** The request of the assets category. *)
Definition assetsRequest (assets : Assets.t) (pageTitle pageUrl : jsstring) : Request :=
  AssetsPrompt pageTitle pageUrl
    (List.length (Assets.images assets)) (List.length (Assets.stylesheets assets))
    (List.length (Assets.scripts assets)) (List.length (Assets.videos assets))
    (List.length (Assets.fonts assets)).

Definition isAssetsPrompt (request : Request) : bool :=
  match request with
  | AssetsPrompt _ _ _ _ _ _ _ => true
  | _ => false
  end.

(** The number of images wider or higher than 1000 pixels. *)
Definition largeImages (assets : Assets.t) : nat :=
  List.length (filter (fun img => (1000 <? AssetImage.width img)%Z
                                  || (1000 <? AssetImage.height img)%Z)
                 (Assets.images assets)).

(** The meta description is present and not blank. *)
Definition hasDescription (content : PageContent.t) : Prop :=
  exists d, Serverless.descriptionOf content = Some d /\ trim d <> [].

(** The number of paragraphs of a content record. *)
Definition paragraphCount (content : PageContent.t) : nat :=
  List.length (Serverless.orEmpty (Serverless.paragraphsOf content)).

(** The narrative a category parses: the text of the first choice (empty
    when it is null), or nothing when the request fails. *)
Definition narrativeOf (reply : outcome ChatCompletion.t) : option jsstring :=
  match reply with
  | Returned completion =>
      match ChatCompletion.choices completion with
      | choice :: _ => Some (orElse (Message.content (Choice.message choice)) [])
      | [] => None
      end
  | _ => None
  end.

(** The request of the content category. *)
Definition contentRequest (content : Express.Content.t) (pageTitle pageUrl : jsstring)
    : Request :=
  ContentPrompt pageTitle pageUrl
    (List.length (Express.Text.headings (Express.Content.textContent content)))
    (List.length (Express.Text.paragraphs (Express.Content.textContent content)))
    (List.length (Express.Text.lists (Express.Content.textContent content)))
    (List.length (Express.Interactive.buttons (Express.Content.interactiveElements content)))
    (List.length (Express.Interactive.forms (Express.Content.interactiveElements content)))
    (List.length (Express.Content.navigation content))
    (Express.Content.metadata content).

(** Every call the Express pipeline makes to the browser succeeds. *)
Definition browserSucceeds {Doc} (browser : Express.Browser Doc)
    (url screenshot : jsstring) (links : list jsstring) (assets : Assets.t)
    (content : Express.Content.t) (pageTitle : jsstring) : Prop :=
  Express.launch browser = Returned tt
  /\ Express.newPage browser = Returned tt
  /\ Express.setViewport browser = Returned tt
  /\ (exists response, Express.goto browser url = Returned response
                       /\ Express.Response.ok response = true)
  /\ Express.screenshot browser = Returned screenshot
  /\ Express.extractLinks browser = Returned links
  /\ Express.extractAssets browser = Returned assets
  /\ Express.extractContent browser = Returned content
  /\ Express.title browser = Returned pageTitle
  /\ Express.close browser = Returned tt.

(** A numbered list, one item per line, counting from [n]:
    ["n. item"], a line feed, and so on. *)
Fixpoint numberedFrom (n : nat) (items : list jsstring) : jsstring :=
  match items with
  | [] => []
  | item :: rest =>
      ofNat n ++ lit ". " ++ item ++ LF :: numberedFrom (S n) rest
  end.

(** A narrative in the format the visual prompt asks for: each label on a
    line of its own, followed by its numbered items. *)
Definition visualNarrative (exitPoints designIssues recommendations : list jsstring)
    : jsstring :=
  lit "Exit Points:" ++ LF :: numberedFrom 1 exitPoints
  ++ lit "Design Issues:" ++ LF :: numberedFrom 1 designIssues
  ++ lit "Recommendations:" ++ LF :: numberedFrom 1 recommendations.

(** An item that fits on a line as it is: no line feed inside and no white
    space around. *)
Definition plainItem (item : jsstring) : Prop :=
  ~ In LF item /\ trim item = item.

(** The first and the last code unit of a string are not white space. *)
Definition tight (s : jsstring) : Prop :=
  match s with [] => True | c :: _ => isWhiteSpace c = false end
  /\ match rev s with [] => True | c :: _ => isWhiteSpace c = false end.

(** The colon that ends every label. *)
Definition COLON : jschar := 58%N.

(** A search result moved behind a prefix that was skipped. *)
Definition behind (prefix : jsstring) (found : option (jsstring * jsstring))
    : option (jsstring * jsstring) :=
  match found with
  | Some (before, after) => Some (prefix ++ before, after)
  | None => None
  end.

(** The elements of a list that were not seen before, in order. *)
Fixpoint firstOccurrences (seen l : list jsstring) : list jsstring :=
  match l with
  | [] => []
  | x :: rest =>
      if existsb (eqb x) seen then firstOccurrences seen rest
      else x :: firstOccurrences (seen ++ [x]) rest
  end.

(** The address begins with [http://] or [https://]. *)
Definition webAddress (url : jsstring) : bool :=
  startsWith (lit "http://") url || startsWith (lit "https://") url.

(** Every call the serverless pipeline makes to the browser succeeds. *)
Definition serverlessBrowserSucceeds {Doc} (browser : ServerlessApi.Browser Doc)
    (url pageTitle screenshot : jsstring) (allLinks : list jsstring)
    (assets : Assets.t) (content : PageContent.t) (links : list PageLink.t) : Prop :=
  ServerlessApi.launch browser = Returned tt
  /\ ServerlessApi.newPage browser = Returned tt
  /\ ServerlessApi.setViewport browser = Returned tt
  /\ ServerlessApi.goto browser url = Returned tt
  /\ ServerlessApi.title browser = Returned pageTitle
  /\ ServerlessApi.screenshot browser = Returned screenshot
  /\ ServerlessApi.extractLinks browser = Returned allLinks
  /\ ServerlessApi.extractAssets browser = Returned assets
  /\ ServerlessApi.extractContent browser = Returned content
  /\ ServerlessApi.extractLinksWithLocation browser = Returned links
  /\ ServerlessApi.close browser = Returned tt.

(** The request the solution route sends for an issue. *)
Definition solutionRequest (toLowerCase : jsstring -> jsstring)
    (OPENAI_API_KEY : option jsstring) (issue : jsstring) : Solutions.FetchRequest :=
  {| Solutions.authorization := orElse OPENAI_API_KEY [];
     Solutions.systemPrompt :=
       Solutions.getSystemPromptForCategory (Solutions.categorizeIssue toLowerCase issue);
     Solutions.userIssue := issue |}.

(** The answer 200 with a solution. *)
Definition solved (solution : jsstring) : Http.Response jsstring :=
  {| Http.status := 200; Http.body := Http.Json solution |}.

(** The nine texts of the static solutions. *)
Definition staticSolutions : list jsstring :=
  [ Solutions.altTextSolution; Solutions.contrastSolution;
    Solutions.responsiveSolution; Solutions.performanceSolution;
    Solutions.seoSolution; Solutions.typographySolution;
    Solutions.navigationSolution; Solutions.contentSolution;
    Solutions.defaultSolution ].

End Props.

(** Sample data used to run the definitions. *)
Module Sample.

Definition box (n : Z) : BoundingBox.t :=
  {| BoundingBox.x := inject_Z n; BoundingBox.y := inject_Z (2 * n);
     BoundingBox.width := 100; BoundingBox.height := 20 |}.

Definition link (n : Z) : PageLink.t :=
  {| PageLink.url := lit "https://example.com/"; PageLink.text := lit "more";
     PageLink.location := box n |}.

(** A page analysis that has two links and nothing else. *)
Definition twoLinks : PageAnalysis.t :=
  {| PageAnalysis.url := lit "https://example.com/";
     PageAnalysis.title := lit "Example";
     PageAnalysis.analysis := Serverless.emptyAnalysis;
     PageAnalysis.screenshot := [];
     PageAnalysis.content := None;
     PageAnalysis.assets := None;
     PageAnalysis.links := Some [link 1; link 2] |}.

Definition heading (level : Z) : Heading.t :=
  {| Heading.text := lit "Title"; Heading.level := level;
     Heading.location := box level |}.

Definition contentWith (hs : list Heading.t) : PageContent.t :=
  {| PageContent.textContent :=
       Some {| TextContent.headings := Some hs;
               TextContent.paragraphs := Some [];
               TextContent.lists := Some [] |};
     PageContent.images := Some [];
     PageContent.buttons := Some [];
     PageContent.forms := Some [];
     PageContent.navigation := Some [];
     PageContent.footerContent := None;
     PageContent.metadata := None |}.

Definition image (alt : option jsstring) : AssetImage.t :=
  {| AssetImage.type := lit "image"; AssetImage.src := lit "https://example.com/a.png";
     AssetImage.alt := alt; AssetImage.width := 64; AssetImage.height := 64;
     AssetImage.loading := lit "lazy"; AssetImage.location := box 3 |}.

Definition assetsWith (imgs : list AssetImage.t) : Assets.t :=
  {| Assets.images := imgs; Assets.stylesheets := []; Assets.scripts := [];
     Assets.videos := []; Assets.fonts := [] |}.

(** One image whose alt text is a single space. *)
Definition blankAltAssets : Assets.t :=
  assetsWith [image (Some (lit " "))].

(** A section whose only issue is written as a bullet. *)
Definition bulletedSection : jsstring :=
  [LF] ++ lit "- Low contrast text" ++ [LF].

(** The narrative of the visual request used as a running example. *)
Definition narrative : jsstring :=
  lit "Exit Points:" ++ [LF] ++ lit "A" ++ [LF] ++ lit "B" ++ [LF; LF]
  ++ lit "Design Issues:" ++ [LF] ++ lit "C".

Definition reply (text : option jsstring) : ChatCompletion.t :=
  {| ChatCompletion.choices :=
       [ {| Choice.message := {| Message.content := text |} |} ] |}.

(** A service that refuses every request made with an empty credential
    and otherwise answers with the test narrative. *)
Definition keyedService : Service :=
  fun apiKey request =>
    if truthyOpt apiKey then Returned (reply (Some narrative))
    else Thrown {| Error.message := lit "401 Incorrect API key provided" |}.

(** A page of constant height: the document is its scroll height. *)
Definition staticHeight (doc : Z) : Z := doc.
Definition staticScroll (distance doc : Z) : Z := doc.

(** An infinite-scroll page: every scroll step loads as much again. *)
Definition growingScroll (distance doc : Z) : Z := (doc + distance)%Z.

(** A page that loads 50 pixels more at every scroll step. *)
Definition slowlyGrowingScroll (distance doc : Z) : Z := (doc + 50)%Z.

Definition expressContent : Express.Content.t :=
  {| Express.Content.metadata :=
       {| Metadata.title := Some (lit "Example"); Metadata.description := None;
          Metadata.keywords := None; Metadata.ogTitle := None;
          Metadata.ogDescription := None; Metadata.ogImage := None |};
     Express.Content.textContent :=
       {| Express.Text.headings := [heading 2]; Express.Text.paragraphs := [];
          Express.Text.lists := [] |};
     Express.Content.interactiveElements :=
       {| Express.Interactive.buttons := []; Express.Interactive.forms := [] |};
     Express.Content.navigation := [];
     Express.Content.footerContent := None |}.

(** A browser session in which every step succeeds, on a page 250 pixels
    high. *)
Definition browser : Express.Browser Z :=
  {| Express.launch := Returned tt;
     Express.newPage := Returned tt;
     Express.setViewport := Returned tt;
     Express.goto := fun url =>
       Returned {| Express.Response.ok := true; Express.Response.status := 200;
                   Express.Response.statusText := lit "OK" |};
     Express.document := 250%Z;
     Express.screenshot := Returned (lit "iVBORw0KGgo=");
     Express.extractLinks := Returned [lit "https://example.com/about"];
     Express.extractAssets := Returned (assetsWith [image None]);
     Express.extractContent := Returned expressContent;
     Express.title := Returned (lit "Example");
     Express.close := Returned tt |}.

(** A service whose completions carry no text ([content: null]). *)
Definition silentService : Service :=
  fun apiKey request => Returned (reply None).

(** A service that answers with the test narrative, and one that differs
    from it only in rejecting the assets request. *)
Definition narratingService : Service :=
  fun apiKey request => Returned (reply (Some narrative)).

Definition assetsFailingService : Service :=
  fun apiKey request =>
    match request with
    | AssetsPrompt _ _ _ _ _ _ _ =>
        Thrown {| Error.message := lit "Connection error." |}
    | _ => narratingService apiKey request
    end.

Definition exampleUrl : jsstring := lit "https://example.com/".

(** What the pipeline returns for that session when the service answers
    every request with the test narrative. *)
Definition answered : Express.FullAnalysis.t :=
  {| Express.FullAnalysis.mainPage :=
       {| Express.MainPage.url := exampleUrl;
          Express.MainPage.title := lit "Example";
          Express.MainPage.screenshot := lit "iVBORw0KGgo=";
          Express.MainPage.content := expressContent;
          Express.MainPage.assets := assetsWith [image None];
          Express.MainPage.analysis :=
            {| AnalysisResult.visual := Express.parseVisual narrative;
               AnalysisResult.assets := Express.parseAssets narrative;
               AnalysisResult.content := Express.parseContent narrative |} |};
     Express.FullAnalysis.allLinks := [lit "https://example.com/about"] |}.

Definition threeRequests : list Request :=
  [ AssetsPrompt (lit "Example") exampleUrl 1 0 0 0 0;
    ContentPrompt (lit "Example") exampleUrl 1 0 0 0 0 0
      (Express.Content.metadata expressContent);
    VisualPrompt (lit "Example") exampleUrl (lit "iVBORw0KGgo=") ].

(** A page analysis with three images, two headings and no paragraph. *)
Definition contentImage (n : Z) : ContentImage.t :=
  {| ContentImage.src := lit "https://example.com/a.png";
     ContentImage.alt := lit "photo"; ContentImage.location := box n |}.

Definition gallery : PageAnalysis.t :=
  {| PageAnalysis.url := lit "https://example.com/";
     PageAnalysis.title := lit "Gallery";
     PageAnalysis.analysis := Serverless.emptyAnalysis;
     PageAnalysis.screenshot := [];
     PageAnalysis.content :=
       Some {| PageContent.textContent :=
                 Some {| TextContent.headings := Some [heading 1; heading 2];
                         TextContent.paragraphs := Some [];
                         TextContent.lists := Some [] |};
               PageContent.images :=
                 Some [contentImage 10; contentImage 11; contentImage 12];
               PageContent.buttons := Some [];
               PageContent.forms := Some [];
               PageContent.navigation := Some [];
               PageContent.footerContent := None;
               PageContent.metadata := None |};
     PageAnalysis.assets := None;
     PageAnalysis.links := None |}.

(** A session whose navigation ends on a missing page. *)
Definition notFound : Express.Browser Z :=
  {| Express.launch := Returned tt;
     Express.newPage := Returned tt;
     Express.setViewport := Returned tt;
     Express.goto := fun url =>
       Returned {| Express.Response.ok := false; Express.Response.status := 404;
                   Express.Response.statusText := lit "Not Found" |};
     Express.document := 0%Z;
     Express.screenshot := Returned [];
     Express.extractLinks := Returned [];
     Express.extractAssets := Returned (assetsWith []);
     Express.extractContent := Returned expressContent;
     Express.title := Returned [];
     Express.close := Returned tt |}.

(** A serverless browser session in which every step succeeds. *)
Definition serverlessBrowser : ServerlessApi.Browser Z :=
  {| ServerlessApi.launch := Returned tt;
     ServerlessApi.newPage := Returned tt;
     ServerlessApi.setViewport := Returned tt;
     ServerlessApi.goto := fun url => Returned tt;
     ServerlessApi.title := Returned (lit "Example");
     ServerlessApi.document := 250%Z;
     ServerlessApi.screenshot := Returned (lit "iVBORw0KGgo=");
     ServerlessApi.extractLinks := Returned [lit "https://example.com/about"];
     ServerlessApi.extractAssets := Returned (assetsWith [image None]);
     ServerlessApi.extractContent := Returned (contentWith [heading 2]);
     ServerlessApi.extractLinksWithLocation := Returned [link 1];
     ServerlessApi.close := Returned tt;
     ServerlessApi.closeInCatch := Returned tt |}.

(** A completion endpoint that answers every request with a padded text. *)
Definition answeringFetch (request : Solutions.FetchRequest)
    : outcome Solutions.FetchResponse :=
  Returned {| Solutions.ok := true; Solutions.statusText := lit "OK";
              Solutions.json := Returned (reply (Some (lit "  Add alt text.  "))) |}.

End Sample.

(* ===================================================================== *)
(** ** Properties of the location resolver *)
(* ===================================================================== *)

Section ResolverFacts.

Import Resolver Props.

Variable toLowerCase : jsstring -> jsstring.

Lemma nonEmpty_true_head A (xs : list A) :
  nonEmpty xs = true -> exists a, at_ xs 0 = Some a.
Proof.
  destruct xs as [|a xs]; cbn; [discriminate|]. intros _. now exists a.
Qed.

Lemma nonEmpty_false_nil A (xs : list A) : nonEmpty xs = false -> xs = [].
Proof. destruct xs; cbn; [reflexivity|discriminate]. Qed.

Lemma nonEmpty_iff A (xs : list A) : nonEmpty xs = true <-> xs <> [].
Proof. destruct xs; cbn; split; intros; congruence. Qed.

Lemma at_In A (xs : list A) i a : at_ xs i = Some a -> In a xs.
Proof.
  unfold at_. destruct (i <? 0)%Z; [discriminate|]. apply nth_error_In.
Qed.

(** Clamping an exhausted index lands on the last element. *)
Lemma at_clamp_last A (xs : list A) index :
  xs <> [] -> (Z.of_nat (List.length xs) <= index)%Z ->
  exists front l, xs = front ++ [l] /\ at_ xs (clampIndex index xs) = Some l.
Proof.
  intros Hne Hle.
  destruct (exists_last Hne) as (front & l & ->).
  exists front, l. split; [reflexivity|].
  unfold at_, clampIndex. rewrite length_app in *. cbn [List.length] in *.
  rewrite Z.min_r by lia.
  destruct (Z.ltb_spec (Z.of_nat (List.length front + 1) - 1) 0); [lia|].
  replace (Z.to_nat (Z.of_nat (List.length front + 1) - 1)) with (List.length front) by lia.
  rewrite nth_error_app2 by lia. now rewrite Nat.sub_diag.
Qed.

Lemma hasElements_false_iff p : hasElements p = false <-> noElements p.
Proof.
  unfold hasElements, noElements. rewrite !orb_false_iff.
  split.
  - intros ((((((H1 & H2) & H3) & H4) & H5) & H6) & H7).
    repeat split; now apply nonEmpty_false_nil.
  - intros (H1 & H2 & H3 & H4 & H5 & H6 & H7).
    rewrite H1, H2, H3, H4, H5, H6, H7. cbn. tauto.
Qed.

(** The final disjunction finds a box as soon as one collection has an
    element. *)
Lemma fallback_some p :
  hasElements p = true -> exists b, fallbackLocation p = Some b.
Proof.
  unfold hasElements, fallbackLocation, imageAt, headingAt, paragraphAt,
    linkAt, formAt, navAt, videoAt.
  rewrite !orb_true_iff.
  intros H.
  destruct (allImages p) as [|i ?]; [|cbn; eauto].
  destruct (headings p) as [|h ?]; [|cbn; eauto].
  destruct (paragraphs p) as [|q ?]; [|cbn; eauto].
  destruct (links p) as [|l ?]; [|cbn; eauto].
  destruct (forms p) as [|f ?]; [|cbn; eauto].
  destruct (navigation p) as [|n ?]; [|cbn; eauto].
  destruct (allVideos p) as [|v ?]; [|cbn; eauto].
  cbn in H. intuition discriminate.
Qed.

Lemma In_locations p b :
  In b (map ContentImage.location (allImages p)) \/
  In b (map Video.location (allVideos p)) \/
  In b (map Heading.location (headings p)) \/
  In b (map Paragraph.location (paragraphs p)) \/
  In b (map PageLink.location (links p)) \/
  In b (map Form.location (forms p)) \/
  In b (map Nav.location (navigation p)) ->
  In b (elementLocations p).
Proof. unfold elementLocations. rewrite !in_app_iff. tauto. Qed.

Lemma at_location_In A (loc : A -> BoundingBox.t) (xs : list A) i b :
  option_map loc (at_ xs i) = Some b -> In b (map loc xs).
Proof.
  destruct (at_ xs i) as [a|] eqn:E; cbn; [|discriminate].
  intros [= <-]. apply in_map. eapply at_In; eassumption.
Qed.

Ltac element_box :=
  match goal with
  | H : _ = Some ?b |- In ?b (elementLocations _) =>
      apply In_locations; apply at_location_In in H; tauto
  end.

Lemma category_In issue p index issueType b :
  categoryLocation toLowerCase issue p index issueType = Some b ->
  In b (elementLocations p).
Proof.
  unfold categoryLocation, imageAt, videoAt, headingAt, paragraphAt, linkAt,
    formAt, navAt.
  destruct issueType;
    repeat match goal with
           | |- context [if ?c then _ else _] => destruct c
           end;
    intros H; try discriminate; element_box.
Qed.

Lemma fallback_In p b : fallbackLocation p = Some b -> In b (elementLocations p).
Proof.
  unfold fallbackLocation, orBox, imageAt, videoAt, headingAt, paragraphAt,
    linkAt, formAt, navAt.
  repeat match goal with
         | |- context [match option_map ?f ?o with _ => _ end] =>
             destruct (option_map f o) eqn:?
         end;
    intros H; try discriminate;
    try (injection H as <-); element_box.
Qed.

(** C3: the resolver reports no location exactly when the images, videos,
    headings, paragraphs, links, forms and navigation blocks of the page
    analysis are all empty, whatever the issue text, category and index;
    otherwise it returns a box, which is the box of the category rule or,
    when that rule gives none, the first box in the fallback order. *)
Theorem C3_no_location_iff_no_elements issue p index issueType :
  (findElementLocation toLowerCase issue p index issueType = None
     <-> noElements p)
  /\ (~ noElements p <->
      exists b,
        findElementLocation toLowerCase issue p index issueType = Some b
        /\ (categoryLocation toLowerCase issue p index issueType = Some b
            \/ (categoryLocation toLowerCase issue p index issueType = None
                /\ fallbackLocation p = Some b))).
Proof.
  rewrite <- hasElements_false_iff.
  unfold findElementLocation.
  destruct (hasElements p) eqn:He; cbn.
  - destruct (fallback_some p He) as (fb & Hfb).
    destruct (categoryLocation toLowerCase issue p index issueType) as [c|].
    + split; [split; discriminate|].
      split; [intros _; exists c; auto | intros _; discriminate].
    + rewrite Hfb. split; [split; discriminate|].
      split; [intros _; exists fb; auto | intros _; discriminate].
  - split; [tauto|]. split; [congruence|]. intros (b & H & _). discriminate.
Qed.

(** C4: with at least one link and an index at or beyond the number of
    links, the resolver for an exit point returns the box of the last
    link, the one at [min(index, length - 1)], and never no location. *)
Theorem C4_exit_point_clamps_to_last_link issue p index :
  links p <> [] ->
  (Z.of_nat (List.length (links p)) <= index)%Z ->
  exists front last,
    links p = front ++ [last]
    /\ at_ (links p) (Z.min index (Z.of_nat (List.length (links p)) - 1)) = Some last
    /\ findElementLocation toLowerCase issue p index exitPoint
       = Some (PageLink.location last).
Proof.
  intros Hne Hle.
  destruct (at_clamp_last Hne Hle) as (front & l & Hl & Hat).
  exists front, l. split; [exact Hl|]. split; [exact Hat|].
  unfold findElementLocation.
  assert (Hn : nonEmpty (links p) = true) by now apply nonEmpty_iff.
  assert (He : hasElements p = true).
  { unfold hasElements. rewrite Hn. now rewrite !orb_true_r. }
  rewrite He. cbn [negb].
  unfold categoryLocation. rewrite Hn. unfold linkAt. rewrite Hat.
  reflexivity.
Qed.

(** C10: a box returned by the resolver is the location of an element of
    the page analysis (an image, video, heading, paragraph, link, form or
    navigation block): it is read from the analysis, never computed. *)
Theorem C10_location_belongs_to_an_element issue p index issueType b :
  findElementLocation toLowerCase issue p index issueType = Some b ->
  In b (elementLocations p).
Proof.
  unfold findElementLocation.
  destruct (negb (hasElements p)); [discriminate|].
  destruct (categoryLocation toLowerCase issue p index issueType) as [c|] eqn:Hc.
  - intros [= <-]. eapply category_In; eassumption.
  - apply fallback_In.
Qed.

End ResolverFacts.

Lemma C4_exit_point_clamps_to_last_link_witness :
  exists front last,
    Resolver.links Sample.twoLinks = front ++ [last]
    /\ Resolver.at_ (Resolver.links Sample.twoLinks)
         (Z.min 7 (Z.of_nat (List.length (Resolver.links Sample.twoLinks)) - 1)) = Some last
    /\ Resolver.findElementLocation asciiToLowerCase (lit "Footer link leaves the site")
         Sample.twoLinks 7 Resolver.exitPoint
       = Some (PageLink.location last).
Proof.
  apply (C4_exit_point_clamps_to_last_link asciiToLowerCase
           (lit "Footer link leaves the site") Sample.twoLinks (index := 7)).
  - cbn. discriminate.
  - cbn. lia.
Defined.

Lemma C10_location_belongs_to_an_element_witness :
  In (Sample.box 1) (Props.elementLocations Sample.twoLinks).
Proof.
  apply (C10_location_belongs_to_an_element asciiToLowerCase
           (lit "Slow images") Sample.twoLinks 0 Resolver.performance).
  reflexivity.
Defined.

(* ===================================================================== *)
(** ** Properties of the heuristic analyzer *)
(* ===================================================================== *)

Section HeuristicFacts.

Import Serverless Props.

Lemma dropWhile_nil_iff p s : dropWhile p s = [] <-> forallb p s = true.
Proof.
  induction s as [|c s IH]; cbn; [tauto|].
  destruct (p c); cbn; [exact IH|]. split; discriminate.
Qed.

(** A string trims to the empty string exactly when it is blank. *)
Lemma trim_nil_iff s : trim s = [] <-> forallb isWhiteSpace s = true.
Proof.
  unfold trim, trimEnd, trimStart. split.
  - intros H. apply (f_equal (@rev _)) in H. rewrite rev_involutive in H.
    cbn in H. apply dropWhile_nil_iff in H.
    rewrite forallb_forall in H.
    destruct (dropWhile isWhiteSpace s) as [|c r] eqn:E.
    + now apply dropWhile_nil_iff.
    + assert (Hc : isWhiteSpace c = true).
      { apply H. rewrite <- in_rev. now left. }
      clear H. exfalso. revert E Hc. clear.
      induction s as [|d s IH]; cbn; [discriminate|].
      destruct (isWhiteSpace d) eqn:Hd; [exact IH|].
      intros [= -> _]. congruence.
  - intros H. apply dropWhile_nil_iff in H. now rewrite H.
Qed.

Lemma eqb_nil s : eqb s [] = true <-> s = [].
Proof. destruct s; cbn; split; congruence. Qed.

(** The alt-text rule counts the images whose [alt] is absent or blank. *)
Lemma withoutAlt_spec img :
  withoutAlt img = true <->
  match AssetImage.alt img with
  | None => True
  | Some alt => forallb isWhiteSpace alt = true
  end.
Proof.
  unfold withoutAlt. destruct (AssetImage.alt img) as [alt|]; [|tauto].
  rewrite orb_true_iff, eqb_nil, trim_nil_iff.
  split; [|tauto]. intros [H|H]; [|exact H].
  destruct alt; [reflexivity|discriminate].
Qed.

(** The counts of the properties are the counts the rules take. *)
Lemma blankAlt_withoutAlt img : blankAlt img = withoutAlt img.
Proof.
  apply eq_true_iff_eq. rewrite withoutAlt_spec. unfold blankAlt.
  destruct (AssetImage.alt img); [reflexivity|tauto].
Qed.

Lemma imagesWithoutAlt_filter assets :
  imagesWithoutAlt assets = List.length (filter withoutAlt (Assets.images assets)).
Proof.
  unfold imagesWithoutAlt. f_equal. apply filter_ext. exact blankAlt_withoutAlt.
Qed.

Lemma largeImages_filter assets :
  largeImages assets = List.length (filter isLarge (Assets.images assets)).
Proof.
  unfold largeImages, isLarge. f_equal. apply filter_ext. intros img.
  now rewrite !Z.gtb_ltb.
Qed.

Lemma h1Count_filter content :
  h1Count content = List.length (filter isH1 (orEmpty (headingsOf content))).
Proof. reflexivity. Qed.

Lemma lit_inj a b : lit a = lit b -> a = b.
Proof.
  revert b. induction a as [|x a IH]; intros [|y b]; cbn; try congruence.
  intros [= Hxy Hab]. f_equal; [|now apply IH].
  rewrite <- (ascii_N_embedding x), <- (ascii_N_embedding y). now rewrite Hxy.
Qed.

(** Different counts render differently. *)
Lemma ofNat_inj n m : ofNat n = ofNat m -> n = m.
Proof.
  unfold ofNat. intros H. apply lit_inj in H.
  apply DecimalNat.Unsigned.to_uint_inj.
  assert (Hu : forall d, NilZero.uint_of_string (NilZero.string_of_uint (Nat.to_uint d))
                         = Some (Nat.to_uint d)).
  { intros d. apply NilZero.usu.
    intros Hnil. pose proof (DecimalNat.Unsigned.of_to d) as Hof.
    rewrite Hnil in Hof. cbn in Hof. subst d. discriminate. }
  pose proof (Hu n) as Hn. rewrite H, Hu in Hn. congruence.
Qed.

(** The rules on the content leave the assets category alone, and the
    other way round. *)
Lemma assets_of_generateDefaultAnalysis content assets :
  AnalysisResult.assets (generateDefaultAnalysis content assets)
  = AnalysisResult.assets (checkLargeImages assets (checkAltText assets emptyAnalysis)).
Proof.
  unfold generateDefaultAnalysis, checkShortContent, checkMetaDescription, checkHeadings.
  repeat match goal with
         | |- context [if ?c then _ else _] =>
             lazymatch c with
             | context [Assets.images] => fail
             | _ => destruct c
             end
         end; reflexivity.
Qed.

Lemma structureIssues_of_generateDefaultAnalysis content assets :
  ContentAnalysis.structureIssues
    (AnalysisResult.content (generateDefaultAnalysis content assets))
  = ContentAnalysis.structureIssues
      (AnalysisResult.content (checkHeadings content emptyAnalysis)).
Proof.
  unfold generateDefaultAnalysis, checkShortContent, checkMetaDescription,
    checkHeadings, checkLargeImages, checkAltText.
  repeat match goal with
         | |- context [if ?c then _ else _] => destruct c
         end; reflexivity.
Qed.

(** The heuristic analyzer never reports anything in the visual category. *)
Lemma visual_of_generateDefaultAnalysis content assets :
  AnalysisResult.visual (generateDefaultAnalysis content assets)
  = AnalysisResult.visual emptyAnalysis.
Proof.
  unfold generateDefaultAnalysis, checkShortContent, checkMetaDescription,
    checkHeadings, checkLargeImages, checkAltText.
  repeat match goal with
         | |- context [if ?c then _ else _] => destruct c
         end; reflexivity.
Qed.

(** C5: with N images whose alt text is missing, empty or white space
    only, N > 0, the accessibility issues of the heuristic analysis are
    exactly one entry, the count N followed by " images missing alt text",
    and the assets recommendations hold the companion recommendation
    exactly once; with N = 0 there is no accessibility issue and no such
    recommendation. *)
Theorem C5_missing_alt_rule content assets :
  let N := imagesWithoutAlt assets in
  let result := AnalysisResult.assets (generateDefaultAnalysis content assets) in
  let companion := lit "Add descriptive alt text to all images" in
  match N with
  | O => AssetsAnalysis.accessibilityIssues result = []
         /\ occurrences companion (AssetsAnalysis.recommendations result) = 0
  | S _ => AssetsAnalysis.accessibilityIssues result
             = [ofNat N ++ lit " images missing alt text"]
           /\ occurrences companion (AssetsAnalysis.recommendations result) = 1
  end.
Proof.
  cbv zeta. rewrite assets_of_generateDefaultAnalysis, imagesWithoutAlt_filter.
  unfold checkLargeImages, checkAltText.
  destruct (List.length (filter withoutAlt (Assets.images assets))) as [|n];
    destruct (List.length (filter isLarge (Assets.images assets))) as [|m];
    cbn [Nat.ltb Nat.leb]; split; reflexivity.
Qed.

(** C6: on a page with at least one heading, the structure issues of the
    heuristic analysis are exactly "No H1 heading found" when no heading
    has level 1, exactly "Multiple H1 headings (k) found" when k >= 2
    headings have level 1, and empty when exactly one has. *)
Theorem C6_h1_rule content assets :
  orEmpty (headingsOf content) <> [] ->
  let k := h1Count content in
  ContentAnalysis.structureIssues
    (AnalysisResult.content (generateDefaultAnalysis content assets))
  = match k with
    | 0 => [lit "No H1 heading found"]
    | 1 => []
    | _ => [lit "Multiple H1 headings (" ++ ofNat k ++ lit ") found"]
    end.
Proof.
  intros Hne. cbv zeta. rewrite structureIssues_of_generateDefaultAnalysis.
  rewrite h1Count_filter. unfold checkHeadings.
  destruct (orEmpty (headingsOf content)) as [|h hs] eqn:E; [congruence|].
  cbn [List.length Nat.eqb].
  destruct (List.length (filter isH1 (h :: hs))) as [|[|k]]; reflexivity.
Qed.

End HeuristicFacts.

(** A page with no H1 and one H2 gets exactly the "no H1" issue. *)
Lemma C6_h1_rule_witness :
  ContentAnalysis.structureIssues
    (AnalysisResult.content
       (Serverless.generateDefaultAnalysis
          (Sample.contentWith [Sample.heading 2]) (Sample.assetsWith [])))
  = [lit "No H1 heading found"].
Proof.
  apply (C6_h1_rule (Sample.contentWith [Sample.heading 2]) (Sample.assetsWith [])).
  cbn. discriminate.
Defined.

(** A page with two H1 headings gets the count in the message. *)
Example two_h1_headings :
  ContentAnalysis.structureIssues
    (AnalysisResult.content
       (Serverless.generateDefaultAnalysis
          (Sample.contentWith [Sample.heading 1; Sample.heading 2; Sample.heading 1])
          (Sample.assetsWith [])))
  = [lit "Multiple H1 headings (2) found"].
Proof. reflexivity. Qed.

(** An image whose alt text is a single space has an alt attribute that is
    neither missing nor empty, and the rule counts it all the same. *)
Lemma C5_blank_alt_is_counted :
  Props.emptyOrMissingAlts Sample.blankAltAssets = 0
  /\ AssetsAnalysis.accessibilityIssues
       (AnalysisResult.assets
          (Serverless.generateDefaultAnalysis (Sample.contentWith [])
             Sample.blankAltAssets))
     = [lit "1 images missing alt text"]
  /\ AssetsAnalysis.recommendations
       (AnalysisResult.assets
          (Serverless.generateDefaultAnalysis (Sample.contentWith [])
             Sample.blankAltAssets))
     = [lit "Add descriptive alt text to all images"].
Proof. repeat split; reflexivity. Qed.

(** Three images, two of them without a usable alt text. *)
Example two_images_without_alt :
  AssetsAnalysis.accessibilityIssues
    (AnalysisResult.assets
       (Serverless.generateDefaultAnalysis (Sample.contentWith [])
          (Sample.assetsWith [Sample.image None; Sample.image (Some (lit "logo"));
                              Sample.image (Some (lit "  "))])))
  = [lit "2 images missing alt text"].
Proof. reflexivity. Qed.

(* ===================================================================== *)
(** ** Properties of the text search and of the narrative parser *)
(* ===================================================================== *)

Section SearchFacts.

Import Props.

Lemma startsWith_split p s :
  startsWith p s = true -> s = p ++ skipn (List.length p) s.
Proof.
  revert s. induction p as [|x p IH]; intros s; cbn; [reflexivity|].
  destruct s as [|y s]; [discriminate|].
  rewrite andb_true_iff, N.eqb_eq. intros [-> H]. f_equal. now apply IH.
Qed.

Lemma startsWith_app p s : startsWith p (p ++ s) = true.
Proof. induction p as [|x p IH]; cbn; [reflexivity|]. now rewrite N.eqb_refl. Qed.

(** What [findFirst] returns splits the text around an occurrence. *)
Lemma findFirst_sound pat s before after :
  findFirst pat s = Some (before, after) -> s = before ++ pat ++ after.
Proof.
  revert before. induction s as [|c s IH]; intros before; cbn.
  - destruct (startsWith pat []) eqn:E; [|discriminate].
    intros [= <- <-]. apply startsWith_split in E. exact E.
  - destruct (startsWith pat (c :: s)) eqn:E.
    + intros [= <- <-]. apply startsWith_split in E. exact E.
    + destruct (findFirst pat s) as [[b a]|]; [|discriminate].
      intros [= <- <-]. cbn. f_equal. now apply IH.
Qed.

(** The occurrence found is the leftmost one. *)
Lemma findFirst_leftmost pat s before after pre post :
  findFirst pat s = Some (before, after) -> s = pre ++ pat ++ post ->
  List.length before <= List.length pre.
Proof.
  revert before pre. induction s as [|c s IH]; intros before pre; cbn.
  - destruct (startsWith pat []); [|discriminate].
    intros [= <- <-] _. cbn. lia.
  - destruct (startsWith pat (c :: s)) eqn:E.
    + intros [= <- <-] _. cbn. lia.
    + destruct (findFirst pat s) as [[b a]|] eqn:F; [|discriminate].
      intros [= <- <-] Hs. destruct pre as [|d pre].
      * cbn in Hs. rewrite Hs, startsWith_app in E. discriminate.
      * cbn in Hs. injection Hs as _ Hs. cbn.
        apply le_n_S. eapply IH; [reflexivity|eassumption].
Qed.

(** Nothing is found exactly when the pattern does not occur. *)
Lemma findFirst_none pat s : findFirst pat s = None <-> ~ occursIn pat s.
Proof.
  split.
  - intros H (pre & post & Hs). subst s. revert H.
    induction pre as [|c pre IH]; cbn.
    + destruct (pat ++ post) as [|d r] eqn:E.
      * destruct pat; [cbn; discriminate|discriminate].
      * cbn. rewrite <- E, startsWith_app. discriminate.
    + destruct (startsWith pat (c :: pre ++ pat ++ post)); [discriminate|].
      destruct (findFirst pat (pre ++ pat ++ post)) as [[b a]|]; [discriminate|].
      intros _. now apply IH.
  - induction s as [|c s IH]; intros H; cbn.
    + destruct (startsWith pat []) eqn:E; [|reflexivity].
      exfalso. apply H. exists [], (skipn (List.length pat) []).
      now apply startsWith_split.
    + destruct (startsWith pat (c :: s)) eqn:E.
      * exfalso. apply H. exists [], (skipn (List.length pat) (c :: s)).
        now apply startsWith_split.
      * rewrite IH; [reflexivity|].
        intros (pre & post & Hs). apply H. exists (c :: pre), post.
        now rewrite Hs.
Qed.

Lemma captureUntil_absent label next text :
  ~ occursIn label text -> Narrative.captureUntil label next text = None.
Proof.
  intros H. unfold Narrative.captureUntil.
  now rewrite (proj2 (findFirst_none label text) H).
Qed.

Lemma captureToEnd_absent label text :
  ~ occursIn label text -> Narrative.captureToEnd label text = None.
Proof.
  intros H. unfold Narrative.captureToEnd.
  now rewrite (proj2 (findFirst_none label text) H).
Qed.

(** The captured section lies between the leftmost label and the first
    following label, and holds no such label itself. *)
Lemma captureUntil_between label next text captured :
  Narrative.captureUntil label next text = Some captured ->
  exists before rest,
    text = before ++ label ++ rest
    /\ (rest = captured \/ exists after, rest = captured ++ next ++ after).
Proof.
  unfold Narrative.captureUntil.
  destruct (findFirst label text) as [[before rest]|] eqn:F; [|discriminate].
  apply findFirst_sound in F.
  destruct (findFirst next rest) as [[cap after]|] eqn:G.
  - intros [= <-]. apply findFirst_sound in G. exists before, rest. eauto.
  - intros [= <-]. exists before, rest. auto.
Qed.

End SearchFacts.

Section NarrativeFacts.

Import Props Narrative.

Lemma splitLines_nonempty s : splitLines s <> [].
Proof.
  destruct s as [|c s]; cbn; [discriminate|].
  destruct (c =? LF)%N; [discriminate|].
  destruct (splitLines s); discriminate.
Qed.

(** Splitting distributes over a line feed. *)
Lemma splitLines_app a b :
  splitLines (a ++ LF :: b) = splitLines a ++ splitLines b.
Proof.
  induction a as [|c a IH]; cbn; [reflexivity|].
  destruct (c =? LF)%N; [now rewrite IH|].
  rewrite IH. pose proof (splitLines_nonempty a) as Hne.
  destruct (splitLines a); [congruence|reflexivity].
Qed.

Lemma keepPoint_spec t :
  keepPoint t = match t with
                | [] => false
                | c :: _ => negb (isBulletMarker c)
                end.
Proof. destruct t; reflexivity. Qed.

Lemma points_flat_map s : points s = flat_map pointOfLine (splitLines s).
Proof.
  unfold points. induction (splitLines s) as [|l ls IH]; cbn; [reflexivity|].
  unfold pointOfLine at 1. rewrite keepPoint_spec.
  destruct (trim l) as [|c r]; cbn; [exact IH|].
  destruct (isBulletMarker c); cbn; [exact IH|]. now rewrite IH.
Qed.

Lemma processSection_points s : processSection (Some s) = points s.
Proof. destruct s; reflexivity. Qed.

Lemma dropWhile_snoc_false p l m :
  p m = false -> dropWhile p (l ++ [m]) = dropWhile p l ++ [m].
Proof.
  intros Hm. induction l as [|c l IH]; cbn; [now rewrite Hm|].
  destruct (p c); [exact IH|reflexivity].
Qed.

Lemma dropWhile_app_true p l r :
  forallb p l = true -> dropWhile p (l ++ r) = dropWhile p r.
Proof.
  induction l as [|c l IH]; cbn; [reflexivity|].
  rewrite andb_true_iff. intros [-> H]. now apply IH.
Qed.

Lemma bulletMarker_not_space c : isBulletMarker c = true -> isWhiteSpace c = false.
Proof.
  unfold isBulletMarker. rewrite !orb_true_iff, !N.eqb_eq.
  intros [[-> | ->] | ->]; reflexivity.
Qed.

(** A line that begins, after its indentation, with a bullet marker
    contributes nothing, whatever follows the marker. *)
Lemma bullet_line_dropped indent marker text :
  forallb isWhiteSpace indent = true -> isBulletMarker marker = true ->
  pointOfLine (indent ++ marker :: text) = [].
Proof.
  intros Hi Hm. unfold pointOfLine, trim, trimStart, trimEnd.
  rewrite dropWhile_app_true by exact Hi. cbn [dropWhile].
  rewrite (bulletMarker_not_space _ Hm). cbn [rev].
  rewrite dropWhile_snoc_false by now apply bulletMarker_not_space.
  rewrite rev_app_distr. cbn. now rewrite Hm.
Qed.

Lemma takeWhile_app_true p l r :
  forallb p l = true -> takeWhile p (l ++ r) = l ++ takeWhile p r.
Proof.
  induction l as [|c l IH]; cbn; [reflexivity|].
  rewrite andb_true_iff. intros [-> H]. now rewrite IH.
Qed.

(** [/^[0-9]+\.\s*/] matches a non-empty digit run and a dot, and takes
    the white space after the dot with it. *)
Lemma stripOrdinal_ordinal digits rest :
  digits <> [] -> forallb isDigit digits = true ->
  stripOrdinal (digits ++ 46%N :: rest) = dropWhile isWhiteSpace rest.
Proof.
  intros Hne Hd. unfold stripOrdinal.
  rewrite takeWhile_app_true, dropWhile_app_true by exact Hd. cbn.
  rewrite app_nil_r. destruct digits; [congruence|reflexivity].
Qed.

(** C2: the test narrative parses to exit points A and B, design issue C
    and no recommendation; for every narrative, a section whose label
    does not occur is the empty list; and a reply that carries a
    narrative is parsed, not turned into the error record. *)
Theorem C2_visual_narrative_sections :
  Express.parseVisual Sample.narrative
  = {| Visual.exitPoints := [lit "A"; lit "B"];
       Visual.designIssues := [lit "C"];
       Visual.recommendations := [] |}
  /\ (forall text,
        (~ occursIn (lit "Exit Points:") text ->
         Visual.exitPoints (Express.parseVisual text) = [])
        /\ (~ occursIn (lit "Design Issues:") text ->
            Visual.designIssues (Express.parseVisual text) = [])
        /\ (~ occursIn (lit "Recommendations:") text ->
            Visual.recommendations (Express.parseVisual text) = []))
  /\ (forall (service : Service) apiKey title url screenshot text more log,
        service apiKey (VisualPrompt title url screenshot)
        = Returned {| ChatCompletion.choices :=
                        {| Choice.message := {| Message.content := Some text |} |}
                        :: more |} ->
        Express.analyzePageWithAI service apiKey title url screenshot log
        = (Returned (Express.parseVisual text),
           log ++ [VisualPrompt title url screenshot])).
Proof.
  split; [vm_compute; reflexivity|]. split.
  - intros text. unfold Express.parseVisual. cbn.
    repeat split; intros H.
    + now rewrite (captureUntil_absent _ H).
    + now rewrite (captureUntil_absent _ H).
    + now rewrite (captureToEnd_absent H).
  - intros service apiKey title url screenshot text more log H.
    unfold Express.analyzePageWithAI, tryCatch, bind, create. rewrite H.
    cbn. destruct text; reflexivity.
Qed.

(** The digits that [takeWhile] takes are digits. *)
Lemma takeWhile_forallb p s : forallb p (takeWhile p s) = true.
Proof.
  induction s as [|c s IH]; cbn; [reflexivity|].
  destruct (p c) eqn:E; cbn; [now rewrite E|reflexivity].
Qed.

Lemma takeWhile_dropWhile p s : s = takeWhile p s ++ dropWhile p s.
Proof.
  induction s as [|c s IH]; cbn; [reflexivity|].
  destruct (p c); cbn; [now f_equal|reflexivity].
Qed.

(** A line that does not begin with digits and a dot is left as it is. *)
Lemma stripOrdinal_no_ordinal line :
  (forall digits rest,
     digits <> [] -> forallb isDigit digits = true -> line <> digits ++ 46%N :: rest) ->
  stripOrdinal line = line.
Proof.
  intros Hno. unfold stripOrdinal.
  pose proof (takeWhile_dropWhile isDigit line) as Hsplit.
  pose proof (takeWhile_forallb isDigit line) as Hdigits.
  destruct (takeWhile isDigit line) as [|d ds]; [reflexivity|].
  destruct (dropWhile isDigit line) as [|dot rest]; [reflexivity|].
  destruct (N.eqb_spec dot 46) as [->|_]; [|reflexivity].
  exfalso. apply (Hno (d :: ds) rest); [discriminate|exact Hdigits|].
  exact Hsplit.
Qed.

(** The search for the ordinal, by the digits and what follows them. *)
Lemma afterOrdinal_spec line : forall seen,
  afterOrdinal seen line
  = match dropWhile isDigit line with
    | dot :: rest =>
        if (seen || match takeWhile isDigit line with [] => false | _ => true end)
           && (dot =? 46)%N
        then Some (trimStart rest) else None
    | [] => None
    end.
Proof.
  induction line as [|c line IH]; intros seen; cbn; [reflexivity|].
  destruct (isDigit c).
  - rewrite IH. cbn. now rewrite orb_true_r.
  - now rewrite orb_false_r.
Qed.

(** The ordinal step of the parser removes the ordinal, and nothing else. *)
Lemma stripOrdinal_withoutOrdinal line : stripOrdinal line = withoutOrdinal line.
Proof.
  unfold stripOrdinal, withoutOrdinal. rewrite afterOrdinal_spec. cbn [orb].
  destruct (takeWhile isDigit line), (dropWhile isDigit line) as [|dot rest];
    try reflexivity; cbn [andb]; destruct (dot =? 46)%N; reflexivity.
Qed.

(** The lines the filter keeps are the lines that are not empty and do not
    begin with a bullet marker. *)
Lemma keepPoint_bulleted line : keepPoint line = truthy line && negb (bulleted line).
Proof. destruct line; reflexivity. Qed.

(** The entries of the output that are not empty, for any list of trimmed
    lines. *)
Lemma kept_entries lines :
  filter truthy (map stripOrdinal (filter keepPoint lines))
  = filter truthy
      (map withoutOrdinal (filter (fun line => negb (bulleted line)) lines)).
Proof.
  induction lines as [|line lines IH]; [reflexivity|].
  cbn [filter]. rewrite keepPoint_bulleted.
  destruct line as [|c r]; [exact IH|].
  cbn [truthy andb]. destruct (negb (bulleted (c :: r))); [|exact IH].
  cbn [map filter]. now rewrite stripOrdinal_withoutOrdinal, IH.
Qed.

(** Without a line that is only an ordinal, no entry is empty. *)
Lemma no_empty_entry lines :
  Forall (fun line => bareOrdinal (trim line) = false) lines ->
  filter truthy (map stripOrdinal (filter keepPoint (map trim lines)))
  = map stripOrdinal (filter keepPoint (map trim lines)).
Proof.
  induction 1 as [|line lines Hline _ IH]; [reflexivity|].
  cbn [map filter]. rewrite keepPoint_bulleted.
  unfold bareOrdinal in Hline.
  destruct (truthy (trim line)); [|exact IH].
  cbn [andb] in *. destruct (negb (bulleted (trim line))); [|exact IH].
  cbn [map filter]. rewrite (stripOrdinal_withoutOrdinal (trim line)).
  destruct (truthy (withoutOrdinal (trim line))); [|discriminate].
  now rewrite IH.
Qed.

(** C8: every section is split on line feeds and each line trimmed; the
    lines that begin with a bullet marker are dropped, also when text
    follows the marker; a leading ordinal (digits, a dot and the white
    space after it) is removed and a line without one is left as it is;
    empty lines are dropped; order is kept.  This gives every entry of the
    output that is not empty, and the whole output when no line is an
    ordinal and nothing else. *)
Theorem C8_section_post_processing :
  (forall section,
     filter truthy (processSection (Some section)) = pointsOfSection section)
  /\ (forall section,
        Forall (fun line => bareOrdinal (trim line) = false) (splitLines section) ->
        processSection (Some section) = pointsOfSection section)
  /\ (forall a b,
        processSection (Some (a ++ LF :: b))
        = processSection (Some a) ++ processSection (Some b))
  /\ (forall digits rest,
        digits <> [] -> forallb isDigit digits = true ->
        stripOrdinal (digits ++ 46%N :: rest) = dropWhile isWhiteSpace rest)
  /\ (forall line,
        (forall digits rest,
           digits <> [] -> forallb isDigit digits = true ->
           line <> digits ++ 46%N :: rest) ->
        stripOrdinal line = line).
Proof.
  split; [|split; [|split; [|split]]].
  - intros s. rewrite processSection_points. apply kept_entries.
  - intros s Hs. rewrite processSection_points. unfold points.
    rewrite <- (no_empty_entry Hs). apply kept_entries.
  - intros a b. rewrite !processSection_points, !points_flat_map.
    now rewrite splitLines_app, flat_map_app.
  - apply stripOrdinal_ordinal.
  - apply stripOrdinal_no_ordinal.
Qed.

End NarrativeFacts.

(** A bulleted issue is lost by the parser, where the specification keeps
    it. *)
Lemma C8_bulleted_issue_is_dropped :
  Narrative.processSection (Some Sample.bulletedSection) = []
  /\ Props.pointsAsSpecified Sample.bulletedSection = [lit "- Low contrast text"]
  /\ Narrative.processSection (Some Sample.bulletedSection)
     <> Props.pointsAsSpecified Sample.bulletedSection.
Proof.
  split; [reflexivity|]. split; [reflexivity|]. vm_compute. discriminate.
Qed.

(** A reply formatted as bulleted lists parses to no issue at all. *)
Example bulleted_narrative_is_lost :
  Express.parseVisual
    (lit "Exit Points:" ++ [LF] ++ lit "- Slow checkout" ++ [LF]
     ++ lit "Design Issues:" ++ Sample.bulletedSection
     ++ lit "Recommendations:" ++ [LF] ++ lit "* Compress images")
  = {| Visual.exitPoints := []; Visual.designIssues := [];
       Visual.recommendations := [] |}.
Proof. reflexivity. Qed.

(** A line that is only an ordinal stays in the output as an empty entry:
    the filter runs before the ordinal is removed. *)
Example bare_ordinal_stays :
  Narrative.processSection (Some (lit "1." ++ [LF] ++ lit "2. Add alt text"))
  = [[]; lit "Add alt text"]
  /\ Props.pointsOfSection (lit "1." ++ [LF] ++ lit "2. Add alt text")
     = [lit "Add alt text"].
Proof. split; reflexivity. Qed.

(** A section of numbered and plain lines, one of them bulleted. *)
Example mixed_section :
  Narrative.processSection
    (Some ([LF] ++ lit "1. Slow checkout" ++ [LF] ++ lit "  * Small text" ++ [LF]
           ++ [LF] ++ lit "No search box  " ++ [LF] ++ lit "12.Footer links"))
  = [lit "Slow checkout"; lit "No search box"; lit "Footer links"].
Proof. reflexivity. Qed.

(* ===================================================================== *)
(** ** The credential check *)
(* ===================================================================== *)

Section CredentialFacts.

Variable service : Service.
Variable JSON_parse : option jsstring -> outcome AnalysisResult.t.

(** C7: with the credential set to the empty string, [analyzePageContent]
    of the serverless module returns the heuristic analysis of the
    extracted content and assets, all three categories of it, and issues no
    request; with the credential unset the module does not load, so that
    nothing is analyzed. *)
Theorem C7_no_credential_gives_heuristic_analysis OPENAI_API_KEY content assets log :
  truthyOpt OPENAI_API_KEY = false ->
  let run :=
    imported OPENAI_API_KEY
      (Serverless.analyzePageContent service OPENAI_API_KEY JSON_parse content assets)
      log in
  match OPENAI_API_KEY with
  | Some _ => run = (Returned (Serverless.generateDefaultAnalysis content assets), log)
  | None => exists e, run = (Thrown e, log)
  end.
Proof.
  intros H. cbv zeta. destruct OPENAI_API_KEY as [key|].
  - unfold imported, bind, await, newOpenAI, Serverless.analyzePageContent, tryCatch.
    now rewrite H.
  - eexists. reflexivity.
Qed.

End CredentialFacts.

Lemma C7_no_credential_gives_heuristic_analysis_witness :
  imported (Some [])
    (Serverless.analyzePageContent Sample.keyedService (Some [])
       (fun _ => Thrown {| Error.message := lit "Unexpected token" |})
       (Sample.contentWith [Sample.heading 2]) (Sample.assetsWith [Sample.image None]))
    []
  = (Returned (Serverless.generateDefaultAnalysis
                 (Sample.contentWith [Sample.heading 2])
                 (Sample.assetsWith [Sample.image None])), []).
Proof.
  apply (C7_no_credential_gives_heuristic_analysis Sample.keyedService
           (fun _ => Thrown {| Error.message := lit "Unexpected token" |}) (Some [])).
  reflexivity.
Defined.

(** The Express pipeline has no credential check and no heuristic
    analyzer: with the credential set to the empty string it still issues
    its three requests, and its result is not the heuristic one; with the
    credential unset the module does not load and nothing is analyzed. *)
Lemma C7_express_pipeline_ignores_missing_credential :
  (exists result,
     imported (Some [])
       (Express.analyze Sample.staticHeight Sample.staticScroll Sample.keyedService
          (Some []) 3 Sample.browser Sample.exampleUrl) []
     = (Returned result, Sample.threeRequests)
     /\ AnalysisResult.visual
          (Express.MainPage.analysis (Express.FullAnalysis.mainPage result))
        = Express.visualError
     /\ forall content assets,
          Express.MainPage.analysis (Express.FullAnalysis.mainPage result)
          <> Serverless.generateDefaultAnalysis content assets)
  /\ (exists e,
        imported None
          (Express.analyze Sample.staticHeight Sample.staticScroll Sample.keyedService
             None 3 Sample.browser Sample.exampleUrl) []
        = (Thrown e, [])).
Proof.
  split.
  - eexists. split; [vm_compute; reflexivity|]. split; [reflexivity|].
    intros content assets H.
    apply (f_equal AnalysisResult.visual) in H.
    rewrite visual_of_generateDefaultAnalysis in H. vm_compute in H. discriminate.
  - eexists. reflexivity.
Qed.

(* ===================================================================== *)
(** ** Properties of the Express pipeline *)
(* ===================================================================== *)

Section SweepFacts.

Import Props.

Variable Doc : Type.
Variable scrollHeight : Doc -> Z.
Variable scrollBy : Z -> Doc -> Doc.
Variable doc : Doc.


Lemma resolvesAt_dec k :
  {resolvesAt scrollHeight scrollBy doc k} + {~ resolvesAt scrollHeight scrollBy doc k}.
Proof. unfold resolvesAt. apply Z_le_dec. Qed.

Lemma first_stop m :
  resolvesAt scrollHeight scrollBy doc m ->
  exists n, n <= m /\ resolvesAt scrollHeight scrollBy doc n
            /\ forall k, k < n -> ~ resolvesAt scrollHeight scrollBy doc k.
Proof.
  induction m as [m IH] using lt_wf_ind. intros Hm.
  assert (Hcases : (exists k, k < m /\ resolvesAt scrollHeight scrollBy doc k)
                   \/ forall k, k < m -> ~ resolvesAt scrollHeight scrollBy doc k).
  { clear IH Hm. induction m as [|m IHm].
    - right. intros k Hk. lia.
    - destruct IHm as [(k & Hk & Hs)|Hnone].
      + left. exists k. split; [lia|exact Hs].
      + destruct (resolvesAt_dec m) as [Hs|Hs].
        * left. exists m. split; [lia|exact Hs].
        * right. intros k Hk. destruct (Nat.eq_dec k m) as [->|]; [exact Hs|].
          apply Hnone. lia. }
  destruct Hcases as [(k & Hk & Hs)|Hnone].
  - destruct (IH k Hk Hs) as (n & Hn & Hsn & Hmin).
    exists n. split; [lia|]. split; assumption.
  - exists m. split; [lia|]. split; assumption.
Qed.

(** The sweep resolves at the first tick that resolves, given fuel for it. *)
Lemma sweep_resolves n : forall j fuel,
  (forall k, j <= k < j + n -> ~ resolvesAt scrollHeight scrollBy doc k) ->
  resolvesAt scrollHeight scrollBy doc (j + n) -> n < fuel ->
  Express.sweep scrollHeight scrollBy fuel (docAfter scrollBy doc j)
    (100 * Z.of_nat j)
  = Some (docAfter scrollBy doc (j + n + 1), (100 * Z.of_nat (j + n + 1))%Z).
Proof.
  induction n as [|n IH]; intros j fuel Hnot Hstop Hfuel;
    (destruct fuel as [|fuel]; [lia|]); cbn [Express.sweep]; unfold Express.distance.
  - rewrite Nat.add_0_r in *. unfold resolvesAt in Hstop.
    destruct (Z.geb_spec (100 * Z.of_nat j + 100)
                (scrollHeight (docAfter scrollBy doc j))) as [_|Hlt]; [|lia].
    rewrite Nat.add_1_r.
    change (docAfter scrollBy doc (S j)) with (scrollBy 100 (docAfter scrollBy doc j)).
    do 2 f_equal. lia.
  - assert (Hj : ~ resolvesAt scrollHeight scrollBy doc j) by (apply Hnot; lia).
    unfold resolvesAt in Hj.
    destruct (Z.geb_spec (100 * Z.of_nat j + 100)
                (scrollHeight (docAfter scrollBy doc j))) as [Hge|_]; [lia|].
    replace (100 * Z.of_nat j + 100)%Z with (100 * Z.of_nat (S j))%Z by lia.
    change (scrollBy 100 (docAfter scrollBy doc j)) with (docAfter scrollBy doc (S j)).
    rewrite (IH (S j) fuel).
    + do 3 f_equal; lia.
    + intros k Hk. apply Hnot. lia.
    + replace (S j + n) with (j + S n) by lia. exact Hstop.
    + lia.
Qed.

(** Until a tick resolves, the sweep is still running. *)
Lemma sweep_pending fuel : forall j,
  (forall k, j <= k < j + fuel -> ~ resolvesAt scrollHeight scrollBy doc k) ->
  Express.sweep scrollHeight scrollBy fuel (docAfter scrollBy doc j)
    (100 * Z.of_nat j) = None.
Proof.
  induction fuel as [|fuel IH]; intros j Hnot; cbn [Express.sweep];
    [reflexivity|]. unfold Express.distance.
  assert (Hj : ~ resolvesAt scrollHeight scrollBy doc j) by (apply Hnot; lia).
  unfold resolvesAt in Hj.
  destruct (Z.geb_spec (100 * Z.of_nat j + 100)
              (scrollHeight (docAfter scrollBy doc j))) as [Hge|_]; [lia|].
  replace (100 * Z.of_nat j + 100)%Z with (100 * Z.of_nat (S j))%Z by lia.
  change (scrollBy 100 (docAfter scrollBy doc j)) with (docAfter scrollBy doc (S j)).
  apply IH. intros k Hk. apply Hnot. lia.
Qed.

(** Up to any tick, either some tick resolved or none did. *)
Lemma stop_before m :
  (exists k, k < m /\ resolvesAt scrollHeight scrollBy doc k)
  \/ (forall k, k < m -> ~ resolvesAt scrollHeight scrollBy doc k).
Proof.
  induction m as [|m IHm].
  - right. intros k Hk. lia.
  - destruct IHm as [(k & Hk & Hs)|Hnone].
    + left. exists k. split; [lia|exact Hs].
    + destruct (resolvesAt_dec m) as [Hs|Hs].
      * left. exists m. split; [lia|exact Hs].
      * right. intros k Hk. destruct (Nat.eq_dec k m) as [->|]; [exact Hs|].
        apply Hnone. lia.
Qed.

(** When the distance reaches the height at some tick, the sweep ends,
    given ticks enough to get there. *)
Lemma sweep_ends_when_reached n fuel :
  resolvesAt scrollHeight scrollBy doc n -> n < fuel ->
  exists swept, Express.sweep scrollHeight scrollBy fuel doc 0 = Some swept.
Proof.
  intros Hn Hfuel. destruct (first_stop Hn) as (m & Hm & Hsm & Hmin).
  eexists. refine (@sweep_resolves m 0 fuel _ _ _).
  - intros k Hk. apply Hmin. lia.
  - exact Hsm.
  - lia.
Qed.

(** C9: on a page whose scroll height stays at or below a bound [H] while
    it is swept, that is at every tick the sweep gets to, the sweep ends:
    it advances 100 pixels per tick, reads the scroll height anew at every
    tick, and resolves at the first tick whose accumulated distance
    reaches the height read at that tick, after at most
    max(1, ceil(H / 100)) ticks. *)
Theorem C9_sweep_ends_on_bounded_pages (H : Z) :
  (forall k,
     (forall j, j < k -> ~ resolvesAt scrollHeight scrollBy doc j) ->
     (scrollHeight (docAfter scrollBy doc k) <= H)%Z) ->
  exists ticks,
    1 <= ticks <= Z.to_nat (Z.max 1 ((H + 99) / 100))
    /\ (forall fuel, ticks <= fuel ->
          Express.sweep scrollHeight scrollBy fuel doc 0
          = Some (docAfter scrollBy doc ticks, (100 * Z.of_nat ticks)%Z))
    /\ (forall fuel, fuel < ticks ->
          Express.sweep scrollHeight scrollBy fuel doc 0 = None)
    /\ (scrollHeight (docAfter scrollBy doc (ticks - 1)) <= 100 * Z.of_nat ticks)%Z
    /\ (forall k, k + 1 < ticks ->
          (100 * Z.of_nat (k + 1) < scrollHeight (docAfter scrollBy doc k))%Z).
Proof.
  intros Hbound.
  set (bound := Z.to_nat (Z.max 1 ((H + 99) / 100))).
  assert (Hb : (H <= 100 * Z.of_nat bound)%Z /\ 1 <= bound).
  { unfold bound. pose proof (Z.div_mod (H + 99) 100 ltac:(lia)) as Hd.
    pose proof (Z.mod_pos_bound (H + 99) 100 ltac:(lia)) as Hm. lia. }
  destruct Hb as [Hb1 Hb2].
  assert (Hs : exists m, m <= bound - 1 /\ resolvesAt scrollHeight scrollBy doc m).
  { destruct (stop_before (bound - 1)) as [(k & Hk & Hsk)|Hnone].
    - exists k. split; [lia|exact Hsk].
    - exists (bound - 1). split; [lia|].
      unfold resolvesAt. specialize (Hbound (bound - 1) Hnone). lia. }
  destruct Hs as (m & Hm & Hsm).
  destruct (first_stop Hsm) as (n & Hn & Hsn & Hmin).
  exists (n + 1). split; [lia|]. split; [|split; [|split]].
  - intros fuel Hfuel.
    refine (@sweep_resolves n 0 fuel _ _ _).
    + intros k Hk. apply Hmin. lia.
    + exact Hsn.
    + lia.
  - intros fuel Hfuel.
    refine (@sweep_pending fuel 0 _).
    intros k Hk. apply Hmin. lia.
  - replace (n + 1 - 1) with n by lia. unfold resolvesAt in Hsn. lia.
  - intros k Hk.
    assert (Hk' : ~ resolvesAt scrollHeight scrollBy doc k) by (apply Hmin; lia).
    unfold resolvesAt in Hk'. lia.
Qed.

End SweepFacts.

(** The page that loads 50 pixels more at every step is 1000 + 50 k pixels
    high after k steps. *)
Lemma slowly_growing_height k :
  Props.docAfter Sample.slowlyGrowingScroll 1000%Z k = (1000 + 50 * Z.of_nat k)%Z.
Proof.
  unfold Props.docAfter. induction k as [|k IH]; [reflexivity|].
  rewrite Nat.iter_succ, IH. unfold Sample.slowlyGrowingScroll. lia.
Qed.

(** A page 1000 pixels high that grows by 50 pixels at every scroll step
    is swept in at most 19 ticks: no height read during the sweep is above
    1900. *)
Lemma C9_sweep_ends_on_bounded_pages_witness :
  exists ticks,
    1 <= ticks <= Z.to_nat (Z.max 1 ((1900 + 99) / 100))
    /\ (forall fuel, ticks <= fuel ->
          Express.sweep Sample.staticHeight Sample.slowlyGrowingScroll fuel 1000%Z 0
          = Some (Props.docAfter Sample.slowlyGrowingScroll 1000%Z ticks,
                  (100 * Z.of_nat ticks)%Z))
    /\ (forall fuel, fuel < ticks ->
          Express.sweep Sample.staticHeight Sample.slowlyGrowingScroll fuel 1000%Z 0
          = None)
    /\ (Sample.staticHeight
          (Props.docAfter Sample.slowlyGrowingScroll 1000%Z (ticks - 1))
        <= 100 * Z.of_nat ticks)%Z
    /\ (forall k, k + 1 < ticks ->
          (100 * Z.of_nat (k + 1)
           < Sample.staticHeight (Props.docAfter Sample.slowlyGrowingScroll 1000%Z k))%Z).
Proof.
  refine (@C9_sweep_ends_on_bounded_pages Z Sample.staticHeight
            Sample.slowlyGrowingScroll 1000%Z 1900%Z _).
  intros k Hk. unfold Sample.staticHeight. rewrite slowly_growing_height.
  destruct (Nat.le_gt_cases k 18) as [Hle|Hgt]; [lia|].
  exfalso. apply (Hk 18); [lia|].
  unfold Props.resolvesAt, Sample.staticHeight. rewrite slowly_growing_height. lia.
Defined.

(** The sweep of that page ends at tick 19, with 1900 pixels scrolled. *)
Example slowly_growing_page_is_swept :
  Express.sweep Sample.staticHeight Sample.slowlyGrowingScroll 19 1000%Z 0
  = Some (1950%Z, 1900%Z)
  /\ Express.sweep Sample.staticHeight Sample.slowlyGrowingScroll 18 1000%Z 0 = None.
Proof. split; reflexivity. Qed.

Lemma growing_page_never_stops fuel : forall doc totalHeight,
  (totalHeight + 100 < doc)%Z ->
  Express.sweep Sample.staticHeight Sample.growingScroll fuel doc totalHeight = None.
Proof.
  induction fuel as [|fuel IH]; intros doc totalHeight Hgap; cbn [Express.sweep];
    [reflexivity|].
  unfold Express.distance, Sample.staticHeight, Sample.growingScroll.
  destruct (Z.geb_spec (totalHeight + 100) doc) as [Hge|_]; [lia|].
  apply IH. lia.
Qed.

(** On a page that loads a further 100 pixels at every scroll step, the
    sweep never resolves, although the scroll height at its start was
    1000. *)
Lemma C9_sweep_runs_forever_on_growing_page :
  ~ (exists fuel result,
       Express.sweep Sample.staticHeight Sample.growingScroll fuel 1000%Z 0
       = Some result)
  /\ forall fuel log,
       Express.autoScroll Sample.staticHeight Sample.growingScroll fuel 1000%Z log
       = (Pending, log).
Proof.
  split.
  - intros (fuel & result & H).
    rewrite growing_page_never_stops in H by lia. discriminate.
  - intros fuel log. unfold Express.autoScroll, await.
    rewrite growing_page_never_stops by lia. reflexivity.
Qed.

Section LocalFailure.

Import Props.

Variable Doc : Type.
Variable scrollHeight : Doc -> Z.
Variable scrollBy : Z -> Doc -> Doc.

Ltac settled :=
  repeat eexists; first [left; reflexivity | right; eexists; reflexivity].

(** A category request settles with a record, or stays pending with the
    service; it never throws, and it logs its one request. *)
Lemma analyzeAssetsWithAI_settles service apiKey assets pageTitle pageUrl log :
  exists o,
    Express.analyzeAssetsWithAI service apiKey assets pageTitle pageUrl log
    = (o, log ++ [assetsRequest assets pageTitle pageUrl])
    /\ (o = Pending \/ exists a, o = Returned a).
Proof.
  unfold Express.analyzeAssetsWithAI, tryCatch, bind, create, firstContent,
    assetsRequest.
  destruct (service apiKey _) as [c| |]; cbn;
    [destruct (ChatCompletion.choices c); cbn|..]; settled.
Qed.

Lemma analyzeContentWithAI_settles service apiKey content pageTitle pageUrl log :
  exists o log',
    Express.analyzeContentWithAI service apiKey content pageTitle pageUrl log
    = (o, log')
    /\ (o = Pending \/ exists a, o = Returned a).
Proof.
  unfold Express.analyzeContentWithAI, tryCatch, bind, create, firstContent.
  destruct (service apiKey _) as [c| |]; cbn;
    [destruct (ChatCompletion.choices c); cbn|..]; settled.
Qed.

Lemma analyzePageWithAI_settles service apiKey title url screenshot log :
  exists o log',
    Express.analyzePageWithAI service apiKey title url screenshot log = (o, log')
    /\ (o = Pending \/ exists a, o = Returned a).
Proof.
  unfold Express.analyzePageWithAI, tryCatch, bind, create, firstContent.
  destruct (service apiKey _) as [c| |]; cbn;
    [destruct (ChatCompletion.choices c); cbn|..]; settled.
Qed.

(** A failed assets request gives the record of the [catch] block. *)
Lemma analyzeAssetsWithAI_failed service apiKey assets pageTitle pageUrl log :
  requestFails (service apiKey (assetsRequest assets pageTitle pageUrl)) ->
  Express.analyzeAssetsWithAI service apiKey assets pageTitle pageUrl log
  = (Returned Express.assetsError, log ++ [assetsRequest assets pageTitle pageUrl]).
Proof.
  unfold Express.analyzeAssetsWithAI, tryCatch, bind, create, firstContent,
    assetsRequest.
  intros [[e ->] | ->]; reflexivity.
Qed.

(** The other two categories only see the replies to their own request. *)
Lemma analyzeContentWithAI_agree (service service' : Service) apiKey content pageTitle pageUrl log :
  (forall k r, isAssetsPrompt r = false -> service' k r = service k r) ->
  Express.analyzeContentWithAI service' apiKey content pageTitle pageUrl log
  = Express.analyzeContentWithAI service apiKey content pageTitle pageUrl log.
Proof.
  intros H. unfold Express.analyzeContentWithAI, tryCatch, bind, create.
  now rewrite H.
Qed.

Lemma analyzePageWithAI_agree (service service' : Service) apiKey title url screenshot log :
  (forall k r, isAssetsPrompt r = false -> service' k r = service k r) ->
  Express.analyzePageWithAI service' apiKey title url screenshot log
  = Express.analyzePageWithAI service apiKey title url screenshot log.
Proof.
  intros H. unfold Express.analyzePageWithAI, tryCatch, bind, create.
  now rewrite H.
Qed.

(** C1: when the assets request throws (the call rejects, as on a network
    error or a non-success status, or the completion has no choice), the
    assets category is exactly the record with the single entry
    "Error analyzing assets with AI"; the visual and content categories
    are what they are in the run where the assets request is answered,
    and the pipeline returns as it does in that run. *)
Theorem C1_assets_failure_is_local (service service' : Service) apiKey fuel
    (browser : Express.Browser Doc) url result log :
  (forall k r, isAssetsPrompt r = false -> service' k r = service k r) ->
  (forall r, isAssetsPrompt r = true -> requestFails (service' apiKey r)) ->
  Express.analyze scrollHeight scrollBy service apiKey fuel browser url []
  = (Returned result, log) ->
  exists result',
    Express.analyze scrollHeight scrollBy service' apiKey fuel browser url []
    = (Returned result', log)
    /\ AnalysisResult.assets
         (Express.MainPage.analysis (Express.FullAnalysis.mainPage result'))
       = Express.assetsError
    /\ AnalysisResult.visual
         (Express.MainPage.analysis (Express.FullAnalysis.mainPage result'))
       = AnalysisResult.visual
           (Express.MainPage.analysis (Express.FullAnalysis.mainPage result))
    /\ AnalysisResult.content
         (Express.MainPage.analysis (Express.FullAnalysis.mainPage result'))
       = AnalysisResult.content
           (Express.MainPage.analysis (Express.FullAnalysis.mainPage result)).
Proof.
  intros Hagree Hfail.
  unfold Express.analyze, Express.launched, Express.autoScroll,
    tryFinally, tryCatch, bind, await, ret, throw.
  destruct (Express.launch browser) as [[]| |]; try discriminate.
  destruct (Express.newPage browser) as [[]| |];
    [|destruct (Express.close browser); discriminate..].
  destruct (Express.setViewport browser) as [[]| |];
    [|destruct (Express.close browser); discriminate..].
  destruct (Express.goto browser url) as [response| |];
    [|destruct (Express.close browser); discriminate..].
  destruct (Express.Response.ok response); cbn [negb];
    [|destruct (Express.close browser); discriminate].
  destruct (Express.sweep scrollHeight scrollBy fuel (Express.document browser) 0);
    [|discriminate].
  destruct (Express.screenshot browser) as [screenshot| |];
    [|destruct (Express.close browser); discriminate..].
  destruct (Express.extractLinks browser) as [links| |];
    [|destruct (Express.close browser); discriminate..].
  destruct (Express.extractAssets browser) as [assets| |];
    [|destruct (Express.close browser); discriminate..].
  destruct (Express.extractContent browser) as [content| |];
    [|destruct (Express.close browser); discriminate..].
  destruct (Express.title browser) as [pageTitle| |];
    [|destruct (Express.close browser); discriminate..].
  rewrite (@analyzeAssetsWithAI_failed service' apiKey assets pageTitle url [])
    by (apply Hfail; reflexivity).
  destruct (analyzeAssetsWithAI_settles service apiKey assets pageTitle url [])
    as (oa & -> & [-> | [a ->]]); [discriminate|].
  rewrite (@analyzeContentWithAI_agree service service' apiKey content pageTitle url _ Hagree).
  destruct (analyzeContentWithAI_settles service apiKey content pageTitle url
              ([] ++ [assetsRequest assets pageTitle url]))
    as (oc & logc & -> & [-> | [c ->]]); [discriminate|].
  rewrite (@analyzePageWithAI_agree service service' apiKey pageTitle url screenshot _ Hagree).
  destruct (analyzePageWithAI_settles service apiKey pageTitle url screenshot logc)
    as (ov & logv & -> & [-> | [v ->]]); [discriminate|].
  destruct (Express.close browser) as [[]| |]; try discriminate.
  intros [= <- <-]. eexists. split; [reflexivity|]. cbn. auto.
Qed.

End LocalFailure.

Lemma C1_assets_failure_is_local_witness :
  exists result',
    Express.analyze Sample.staticHeight Sample.staticScroll Sample.assetsFailingService
      (Some (lit "sk-test")) 3 Sample.browser Sample.exampleUrl []
    = (Returned result', Sample.threeRequests)
    /\ AnalysisResult.assets
         (Express.MainPage.analysis (Express.FullAnalysis.mainPage result'))
       = Express.assetsError
    /\ AnalysisResult.visual
         (Express.MainPage.analysis (Express.FullAnalysis.mainPage result'))
       = AnalysisResult.visual
           (Express.MainPage.analysis (Express.FullAnalysis.mainPage Sample.answered))
    /\ AnalysisResult.content
         (Express.MainPage.analysis (Express.FullAnalysis.mainPage result'))
       = AnalysisResult.content
           (Express.MainPage.analysis (Express.FullAnalysis.mainPage Sample.answered)).
Proof.
  refine (@C1_assets_failure_is_local Z Sample.staticHeight Sample.staticScroll
            Sample.narratingService Sample.assetsFailingService
            (Some (lit "sk-test")) 3 Sample.browser Sample.exampleUrl
            Sample.answered Sample.threeRequests _ _ _).
  - intros k r H. destruct r; [discriminate|reflexivity..].
  - intros r H. destruct r; try discriminate. left. eexists. reflexivity.
  - vm_compute. reflexivity.
Defined.

(** A completion without text is not a failure for the parser: the assets
    category is then five empty lists, not the error record. *)
Lemma C1_empty_reply_gives_no_error_entry :
  exists result log,
    Express.analyze Sample.staticHeight Sample.staticScroll Sample.silentService
      (Some (lit "sk-test")) 3 Sample.browser Sample.exampleUrl []
    = (Returned result, log)
    /\ AnalysisResult.assets
         (Express.MainPage.analysis (Express.FullAnalysis.mainPage result))
       = {| AssetsAnalysis.performanceIssues := [];
            AssetsAnalysis.accessibilityIssues := [];
            AssetsAnalysis.seoIssues := [];
            AssetsAnalysis.bestPractices := [];
            AssetsAnalysis.recommendations := [] |}
    /\ AnalysisResult.assets
         (Express.MainPage.analysis (Express.FullAnalysis.mainPage result))
       <> Express.assetsError.
Proof.
  do 2 eexists. split; [vm_compute; reflexivity|].
  split; [reflexivity|]. cbn. discriminate.
Qed.

(* ===================================================================== *)
(** ** Further properties of the location resolver *)
(* ===================================================================== *)

Section ResolverIndexing.

Import Resolver Props.

Variable toLowerCase : jsstring -> jsstring.

(** A clamped non-negative index always names an element. *)
Lemma at_clamp_in_range A (xs : list A) index :
  xs <> [] -> (0 <= index)%Z ->
  exists a,
    nth_error xs (Nat.min (Z.to_nat index) (List.length xs - 1)) = Some a
    /\ at_ xs (clampIndex index xs) = Some a.
Proof.
  intros Hne Hpos.
  assert (Hlen : 0 < List.length xs) by (destruct xs; [congruence|cbn; lia]).
  destruct (nth_error xs (Nat.min (Z.to_nat index) (List.length xs - 1))) as [a|] eqn:E.
  - exists a. split; [reflexivity|].
    unfold at_, clampIndex.
    destruct (Z.ltb_spec (Z.min index (Z.of_nat (List.length xs) - 1)) 0); [lia|].
    rewrite <- E. f_equal. lia.
  - apply nth_error_None in E. lia.
Qed.

(** From the last position on, the clamped index names the last element. *)
Lemma at_clamp_from_last A (xs : list A) index :
  xs <> [] -> (Z.of_nat (List.length xs) - 1 <= index)%Z ->
  exists front l, xs = front ++ [l] /\ at_ xs (clampIndex index xs) = Some l.
Proof.
  intros Hne Hle.
  destruct (exists_last Hne) as (front & l & ->).
  exists front, l. split; [reflexivity|].
  unfold at_, clampIndex. rewrite length_app in *. cbn [List.length] in *.
  rewrite Z.min_r by lia.
  destruct (Z.ltb_spec (Z.of_nat (List.length front + 1) - 1) 0); [lia|].
  replace (Z.to_nat (Z.of_nat (List.length front + 1) - 1)) with (List.length front) by lia.
  rewrite nth_error_app2 by lia. now rewrite Nat.sub_diag.
Qed.

Lemma hasElements_links p : links p <> [] -> hasElements p = true.
Proof.
  intros H. apply nonEmpty_iff in H. unfold hasElements. rewrite H.
  now rewrite !orb_true_r.
Qed.

Lemma hasElements_images p : allImages p <> [] -> hasElements p = true.
Proof.
  intros H. apply nonEmpty_iff in H. unfold hasElements. now rewrite H.
Qed.

Lemma hasElements_paragraphs p : paragraphs p <> [] -> hasElements p = true.
Proof.
  intros H. apply nonEmpty_iff in H. unfold hasElements. rewrite H.
  now rewrite !orb_true_r.
Qed.

Lemma hasElements_headings p : headings p <> [] -> hasElements p = true.
Proof.
  intros H. apply nonEmpty_iff in H. unfold hasElements. rewrite H.
  now rewrite !orb_true_r.
Qed.

(** X1: on a page with links, the exit point with list position
    [index >= 0] is located at the link in position
    [min(index, links.length - 1)]: the link of the same position while
    there is one, the last link afterwards. *)
Theorem exit_point_located_at_clamped_link issue p index :
  links p <> [] -> (0 <= index)%Z ->
  exists link,
    nth_error (links p) (Nat.min (Z.to_nat index) (List.length (links p) - 1))
    = Some link
    /\ findElementLocation toLowerCase issue p index exitPoint
       = Some (PageLink.location link).
Proof.
  intros Hne Hpos.
  destruct (at_clamp_in_range Hne Hpos) as (l & Hnth & Hat).
  exists l. split; [exact Hnth|].
  unfold findElementLocation. rewrite (@hasElements_links p Hne). cbn [negb].
  unfold categoryLocation, linkAt.
  rewrite (proj2 (nonEmpty_iff (links p)) Hne), Hat. reflexivity.
Qed.

(** X2: on a page with images, the design issue with list position
    [index >= 0] is located at the image in position
    [min(index, images.length - 1)]. *)
Theorem design_issue_located_at_clamped_image issue p index :
  allImages p <> [] -> (0 <= index)%Z ->
  exists image,
    nth_error (allImages p) (Nat.min (Z.to_nat index) (List.length (allImages p) - 1))
    = Some image
    /\ findElementLocation toLowerCase issue p index designIssue
       = Some (ContentImage.location image).
Proof.
  intros Hne Hpos.
  destruct (at_clamp_in_range Hne Hpos) as (i & Hnth & Hat).
  exists i. split; [exact Hnth|].
  unfold findElementLocation. rewrite (@hasElements_images p Hne). cbn [negb].
  unfold categoryLocation, imageAt.
  rewrite (proj2 (nonEmpty_iff (allImages p)) Hne), Hat. reflexivity.
Qed.

(** X3: the design issues list calls the resolver with its position plus
    100, so on a page with at most 101 images every design issue, whatever
    its position and text, is located at the last image. *)
Theorem design_issues_share_last_image issue p (position : nat) :
  allImages p <> [] -> List.length (allImages p) <= 101 ->
  exists front last,
    allImages p = front ++ [last]
    /\ findElementLocation toLowerCase issue p (Z.of_nat position + 100) designIssue
       = Some (ContentImage.location last).
Proof.
  intros Hne Hlen.
  assert (Hidx : (Z.of_nat (List.length (allImages p)) - 1 <= Z.of_nat position + 100)%Z)
    by lia.
  destruct (at_clamp_from_last Hne Hidx) as (front & l & Hl & Hat).
  exists front, l. split; [exact Hl|].
  unfold findElementLocation. rewrite (@hasElements_images p Hne). cbn [negb].
  unfold categoryLocation, imageAt.
  rewrite (proj2 (nonEmpty_iff (allImages p)) Hne), Hat. reflexivity.
Qed.

(** X4: a content issue is located at the paragraph in position
    [min(index, paragraphs.length - 1)]; on a page without paragraphs it is
    located at the heading in position [min(index, headings.length - 1)]. *)
Theorem content_issue_located_at_paragraph_else_heading issue p index :
  (0 <= index)%Z ->
  (paragraphs p <> [] ->
   exists para,
     nth_error (paragraphs p)
       (Nat.min (Z.to_nat index) (List.length (paragraphs p) - 1)) = Some para
     /\ findElementLocation toLowerCase issue p index content
        = Some (Paragraph.location para))
  /\ (paragraphs p = [] -> headings p <> [] ->
      exists heading,
        nth_error (headings p)
          (Nat.min (Z.to_nat index) (List.length (headings p) - 1)) = Some heading
        /\ findElementLocation toLowerCase issue p index content
           = Some (Heading.location heading)).
Proof.
  intros Hpos. split.
  - intros Hne.
    destruct (at_clamp_in_range Hne Hpos) as (a & Hnth & Hat).
    exists a. split; [exact Hnth|].
    unfold findElementLocation. rewrite (@hasElements_paragraphs p Hne). cbn [negb].
    unfold categoryLocation, paragraphAt.
    rewrite (proj2 (nonEmpty_iff (paragraphs p)) Hne), Hat. reflexivity.
  - intros Hnil Hne.
    destruct (at_clamp_in_range Hne Hpos) as (a & Hnth & Hat).
    exists a. split; [exact Hnth|].
    unfold findElementLocation. rewrite (@hasElements_headings p Hne). cbn [negb].
    unfold categoryLocation, headingAt.
    rewrite (proj2 (nonEmpty_iff (headings p)) Hne), Hat, Hnil. reflexivity.
Qed.

End ResolverIndexing.

Lemma exit_point_located_at_clamped_link_witness :
  exists link,
    nth_error (Resolver.links Sample.twoLinks)
      (Nat.min (Z.to_nat 0) (List.length (Resolver.links Sample.twoLinks) - 1))
    = Some link
    /\ Resolver.findElementLocation asciiToLowerCase (lit "Checkout link")
         Sample.twoLinks 0 Resolver.exitPoint
       = Some (PageLink.location link).
Proof.
  apply (exit_point_located_at_clamped_link asciiToLowerCase (lit "Checkout link")
           Sample.twoLinks (index := 0)).
  - cbn. discriminate.
  - lia.
Defined.

Lemma design_issue_located_at_clamped_image_witness :
  exists image,
    nth_error (Resolver.allImages Sample.gallery)
      (Nat.min (Z.to_nat 1) (List.length (Resolver.allImages Sample.gallery) - 1))
    = Some image
    /\ Resolver.findElementLocation asciiToLowerCase (lit "Cluttered hero")
         Sample.gallery 1 Resolver.designIssue
       = Some (ContentImage.location image).
Proof.
  apply (design_issue_located_at_clamped_image asciiToLowerCase (lit "Cluttered hero")
           Sample.gallery (index := 1)).
  - cbn. discriminate.
  - lia.
Defined.

Lemma design_issues_share_last_image_witness :
  exists front last,
    Resolver.allImages Sample.gallery = front ++ [last]
    /\ Resolver.findElementLocation asciiToLowerCase (lit "Cluttered hero")
         Sample.gallery (Z.of_nat 0 + 100) Resolver.designIssue
       = Some (ContentImage.location last).
Proof.
  apply (design_issues_share_last_image asciiToLowerCase (lit "Cluttered hero")
           Sample.gallery 0).
  - cbn. discriminate.
  - cbn. lia.
Defined.

Lemma content_issue_located_at_paragraph_else_heading_witness :
  exists heading,
    nth_error (Resolver.headings Sample.gallery)
      (Nat.min (Z.to_nat 5) (List.length (Resolver.headings Sample.gallery) - 1))
    = Some heading
    /\ Resolver.findElementLocation asciiToLowerCase (lit "Thin copy")
         Sample.gallery 5 Resolver.content
       = Some (Heading.location heading).
Proof.
  refine (proj2 (content_issue_located_at_paragraph_else_heading asciiToLowerCase
                   (lit "Thin copy") Sample.gallery (index := 5) _) _ _).
  - lia.
  - reflexivity.
  - cbn. discriminate.
Defined.

(* ===================================================================== *)
(** ** Further properties of the heuristic analyzer *)
(* ===================================================================== *)

Section HeuristicRules.

Import Serverless Props.

(** The analysis, list by list. *)
Lemma generateDefaultAnalysis_lists content assets :
  let result := generateDefaultAnalysis content assets in
  let N := imagesWithoutAlt assets in
  let L := largeImages assets in
  let headings := orEmpty (headingsOf content) in
  let missing := match descriptionOf content with
                 | None => true
                 | Some d => negb (truthy d) || eqb (trim d) []
                 end in
  AnalysisResult.visual result = AnalysisResult.visual emptyAnalysis
  /\ AssetsAnalysis.performanceIssues (AnalysisResult.assets result)
     = (if (0 <? L)%nat
        then [ofNat L ++ lit " large images may slow down page load"] else [])
  /\ AssetsAnalysis.accessibilityIssues (AnalysisResult.assets result)
     = (if (0 <? N)%nat then [ofNat N ++ lit " images missing alt text"] else [])
  /\ AssetsAnalysis.seoIssues (AnalysisResult.assets result) = []
  /\ AssetsAnalysis.bestPractices (AnalysisResult.assets result) = []
  /\ AssetsAnalysis.recommendations (AnalysisResult.assets result)
     = (if (0 <? N)%nat then [lit "Add descriptive alt text to all images"] else [])
       ++ (if (0 <? L)%nat then [lit "Optimize and resize large images"] else [])
  /\ ContentAnalysis.structureIssues (AnalysisResult.content result)
     = (if (List.length headings =? 0)%nat then [lit "No headings found on the page"]
        else if (h1Count content =? 0)%nat then [lit "No H1 heading found"]
        else if (1 <? h1Count content)%nat
             then [lit "Multiple H1 headings (" ++ ofNat (h1Count content) ++ lit ") found"]
        else [])
  /\ ContentAnalysis.qualityIssues (AnalysisResult.content result)
     = (if (paragraphCount content <? 3)%nat then [lit "Limited text content found"]
        else [])
  /\ ContentAnalysis.seoIssues (AnalysisResult.content result)
     = (if missing then [lit "Missing meta description"] else [])
  /\ ContentAnalysis.uxIssues (AnalysisResult.content result) = []
  /\ List.length (ContentAnalysis.recommendations (AnalysisResult.content result))
     = List.length (ContentAnalysis.structureIssues (AnalysisResult.content result))
       + List.length (ContentAnalysis.seoIssues (AnalysisResult.content result))
       + List.length (ContentAnalysis.qualityIssues (AnalysisResult.content result)).
Proof.
  cbv zeta. rewrite imagesWithoutAlt_filter, largeImages_filter, !h1Count_filter.
  unfold generateDefaultAnalysis, checkShortContent, checkMetaDescription,
    checkHeadings, checkLargeImages, checkAltText, paragraphCount.
  destruct (0 <? List.length (filter withoutAlt (Assets.images assets)))%nat;
  destruct (0 <? List.length (filter isLarge (Assets.images assets)))%nat;
  destruct (List.length (orEmpty (headingsOf content)) =? 0)%nat;
  destruct (List.length (filter isH1 (orEmpty (headingsOf content))) =? 0)%nat;
  destruct (1 <? List.length (filter isH1 (orEmpty (headingsOf content))))%nat;
  destruct (List.length (orEmpty (paragraphsOf content)) <? 3)%nat;
  destruct (match descriptionOf content with
            | Some d => negb (truthy d) || eqb (trim d) []
            | None => true
            end);
  repeat split.
Qed.

(** X5: with L > 0 images wider or higher than 1000 pixels, the
    performance issues of the heuristic analysis are exactly one entry, the
    count L followed by " large images may slow down page load", and the
    assets recommendations hold "Optimize and resize large images" exactly
    once; with L = 0 there is neither. *)
Theorem large_image_rule content assets :
  let L := largeImages assets in
  let result := AnalysisResult.assets (generateDefaultAnalysis content assets) in
  let companion := lit "Optimize and resize large images" in
  match L with
  | O => AssetsAnalysis.performanceIssues result = []
         /\ occurrences companion (AssetsAnalysis.recommendations result) = 0
  | S _ => AssetsAnalysis.performanceIssues result
             = [ofNat L ++ lit " large images may slow down page load"]
           /\ occurrences companion (AssetsAnalysis.recommendations result) = 1
  end.
Proof.
  cbv zeta.
  destruct (generateDefaultAnalysis_lists content assets)
    as (_ & Hperf & _ & _ & _ & Hrec & _).
  rewrite Hperf, Hrec.
  destruct (largeImages assets); destruct (imagesWithoutAlt assets);
    cbn [Nat.ltb Nat.leb]; split; reflexivity.
Qed.

(** X6: every issue of the heuristic analysis has its recommendation: in
    the assets and in the content category there are as many
    recommendations as issues; the visual category, the assets SEO issues
    and best practices and the content UX issues are always empty. *)
Theorem every_issue_has_a_recommendation content assets :
  let result := generateDefaultAnalysis content assets in
  let a := AnalysisResult.assets result in
  let c := AnalysisResult.content result in
  List.length (AssetsAnalysis.recommendations a)
  = List.length (AssetsAnalysis.performanceIssues a)
    + List.length (AssetsAnalysis.accessibilityIssues a)
  /\ List.length (ContentAnalysis.recommendations c)
     = List.length (ContentAnalysis.structureIssues c)
       + List.length (ContentAnalysis.seoIssues c)
       + List.length (ContentAnalysis.qualityIssues c)
  /\ AnalysisResult.visual result
     = {| Visual.exitPoints := []; Visual.designIssues := [];
          Visual.recommendations := [] |}
  /\ AssetsAnalysis.seoIssues a = [] /\ AssetsAnalysis.bestPractices a = []
  /\ ContentAnalysis.uxIssues c = [].
Proof.
  cbv zeta.
  destruct (generateDefaultAnalysis_lists content assets)
    as (Hv & Hperf & Hacc & Hseo & Hbest & Hrec & _ & _ & _ & Hux & Hlen).
  rewrite Hperf, Hacc, Hrec, Hv, Hseo, Hbest, Hux.
  repeat split; [|exact Hlen].
  destruct (0 <? imagesWithoutAlt assets)%nat; destruct (0 <? largeImages assets)%nat;
    reflexivity.
Qed.

Lemma description_missing_iff content :
  match descriptionOf content with
  | None => true
  | Some d => negb (truthy d) || eqb (trim d) []
  end = false <-> hasDescription content.
Proof.
  unfold hasDescription. destruct (descriptionOf content) as [d|].
  - rewrite orb_false_iff, negb_false_iff. split.
    + intros [_ H]. exists d. split; [reflexivity|].
      intros Ht. rewrite Ht in H. discriminate.
    + intros (d' & [= <-] & Ht). split.
      * destruct d; [|reflexivity]. exfalso. apply Ht. reflexivity.
      * destruct (eqb (trim d) []) eqn:E; [|reflexivity].
        apply eqb_nil in E. congruence.
  - split; [discriminate|]. intros (d & H & _). discriminate.
Qed.

(** X7: the heuristic analysis reports nothing at all exactly when no image
    lacks an alt text, no image is large, exactly one heading has level 1,
    the meta description is present and not blank, and there are at least
    three paragraphs. *)
Theorem clean_report_iff content assets :
  generateDefaultAnalysis content assets = emptyAnalysis
  <-> imagesWithoutAlt assets = 0 /\ largeImages assets = 0
      /\ h1Count content = 1 /\ hasDescription content
      /\ 3 <= paragraphCount content.
Proof.
  destruct (generateDefaultAnalysis_lists content assets)
    as (Hv & Hperf & Hacc & Hseo & Hbest & Hrec & Hstr & Hq & Hs & Hux & Hlen).
  cbv zeta in *. rewrite <- description_missing_iff.
  assert (Hh : h1Count content <= List.length (orEmpty (headingsOf content))).
  { rewrite h1Count_filter. apply filter_length_le. }
  split.
  - intros E. rewrite E in *. cbn in Hperf, Hacc, Hstr.
    repeat split.
    + destruct (imagesWithoutAlt assets); [reflexivity|discriminate Hacc].
    + destruct (largeImages assets); [reflexivity|discriminate Hperf].
    + destruct (List.length (orEmpty (headingsOf content))) as [|n]; [discriminate Hstr|].
      cbn [Nat.eqb] in Hstr.
      destruct (h1Count content) as [|[|k]]; cbn [Nat.eqb Nat.ltb Nat.leb] in Hstr.
      * discriminate Hstr.
      * reflexivity.
      * discriminate Hstr.
    + destruct (match descriptionOf content with
                | Some d => negb (truthy d) || eqb (trim d) []
                | None => true
                end); [discriminate Hs|reflexivity].
    + destruct (Nat.ltb_spec (paragraphCount content) 3); [discriminate Hq|assumption].
  - intros (HN & HL & H1 & Hd & Hp).
    rewrite HN, HL in *. rewrite H1 in *. rewrite Hd in *.
    destruct (List.length (orEmpty (headingsOf content))) as [|n]; [lia|].
    destruct (Nat.ltb_spec (paragraphCount content) 3); [lia|].
    cbn in Hperf, Hacc, Hrec, Hstr, Hq, Hs, Hlen.
    rewrite Hstr, Hq, Hs in Hlen. cbn in Hlen.
    destruct (generateDefaultAnalysis content assets) as [v a c].
    destruct a, c. cbn in *. subst.
    destruct recommendations0; [reflexivity|discriminate].
Qed.

(** X8: on a page without headings the structure issues are exactly
    "No headings found on the page"; on every page there is at most one
    structure issue. *)
Theorem no_headings_rule content assets :
  let issues := ContentAnalysis.structureIssues
                  (AnalysisResult.content (generateDefaultAnalysis content assets)) in
  (orEmpty (headingsOf content) = [] -> issues = [lit "No headings found on the page"])
  /\ List.length issues <= 1.
Proof.
  cbv zeta.
  destruct (generateDefaultAnalysis_lists content assets)
    as (_ & _ & _ & _ & _ & _ & Hstr & _).
  cbv zeta in Hstr. rewrite Hstr. split.
  - intros ->. reflexivity.
  - destruct (List.length (orEmpty (headingsOf content)) =? 0)%nat; [cbn; lia|].
    destruct (h1Count content =? 0)%nat; [cbn; lia|].
    destruct (1 <? h1Count content)%nat; cbn; lia.
Qed.

(** X9: the content SEO issues are exactly "Missing meta description" when
    the meta description is absent or blank and empty otherwise; the
    quality issues are exactly "Limited text content found" when the page
    has fewer than three paragraphs and empty otherwise. *)
Theorem description_and_length_rules content assets :
  let c := AnalysisResult.content (generateDefaultAnalysis content assets) in
  (hasDescription content -> ContentAnalysis.seoIssues c = [])
  /\ (~ hasDescription content ->
      ContentAnalysis.seoIssues c = [lit "Missing meta description"])
  /\ (3 <= paragraphCount content -> ContentAnalysis.qualityIssues c = [])
  /\ (paragraphCount content < 3 ->
      ContentAnalysis.qualityIssues c = [lit "Limited text content found"]).
Proof.
  cbv zeta.
  destruct (generateDefaultAnalysis_lists content assets)
    as (_ & _ & _ & _ & _ & _ & _ & Hq & Hs & _).
  cbv zeta in Hq, Hs. rewrite Hq, Hs. rewrite <- description_missing_iff.
  repeat split.
  - intros ->. reflexivity.
  - intros H. destruct (match descriptionOf content with
                        | Some d => negb (truthy d) || eqb (trim d) []
                        | None => true
                        end); [reflexivity|congruence].
  - intros H. destruct (Nat.ltb_spec (paragraphCount content) 3); [lia|reflexivity].
  - intros H. destruct (Nat.ltb_spec (paragraphCount content) 3); [reflexivity|lia].
Qed.

End HeuristicRules.

(* ===================================================================== *)
(** ** Further properties of [analyzePageContent] *)
(* ===================================================================== *)

Section PageContentFacts.

Import Serverless Props.

Variable service : Service.
Variable OPENAI_API_KEY : option jsstring.
Variable JSON_parse : option jsstring -> outcome AnalysisResult.t.

(** X10: [analyzePageContent] never throws, whatever the service and the
    JSON parser do, and it sends at most one request: none without a
    credential, else the one carrying the simplified content. *)
Theorem analyzePageContent_never_throws content assets log :
  exists o,
    analyzePageContent service OPENAI_API_KEY JSON_parse content assets log
    = (o, if truthyOpt OPENAI_API_KEY
          then log ++ [JsonPrompt (simplify content assets)] else log)
    /\ (o = Pending \/ exists analysis, o = Returned analysis).
Proof.
  unfold analyzePageContent, tryCatch, bind, create, firstContent, await, ret, throw.
  destruct (truthyOpt OPENAI_API_KEY); cbn [negb]; [|eauto].
  destruct (service OPENAI_API_KEY _) as [c| |]; [|eauto..].
  destruct (ChatCompletion.choices c) as [|choice more]; [eauto|].
  destruct (JSON_parse _); eauto.
Qed.

(** X11: with a credential, the analysis is the parsed reply when the
    request is answered and the reply parses, and the heuristic analysis
    when the request fails or the reply does not parse. *)
Theorem analyzePageContent_parses_or_falls_back content assets log :
  truthyOpt OPENAI_API_KEY = true ->
  let request := JsonPrompt (simplify content assets) in
  (requestFails (service OPENAI_API_KEY request) ->
   analyzePageContent service OPENAI_API_KEY JSON_parse content assets log
   = (Returned (generateDefaultAnalysis content assets), log ++ [request]))
  /\ (forall choice more,
        service OPENAI_API_KEY request
        = Returned {| ChatCompletion.choices := choice :: more |} ->
        (forall e, JSON_parse (Message.content (Choice.message choice)) = Thrown e ->
           analyzePageContent service OPENAI_API_KEY JSON_parse content assets log
           = (Returned (generateDefaultAnalysis content assets), log ++ [request]))
        /\ (forall analysis,
              JSON_parse (Message.content (Choice.message choice)) = Returned analysis ->
              analyzePageContent service OPENAI_API_KEY JSON_parse content assets log
              = (Returned analysis, log ++ [request]))).
Proof.
  intros Hkey. cbv zeta.
  unfold analyzePageContent, tryCatch, bind, create, firstContent, await, ret, throw.
  rewrite Hkey. cbn [negb]. split.
  - intros [[e ->] | ->]; reflexivity.
  - intros choice more ->. cbn. split.
    + intros e ->. reflexivity.
    + intros analysis ->. reflexivity.
Qed.

End PageContentFacts.

Lemma analyzePageContent_parses_or_falls_back_witness :
  Serverless.analyzePageContent Sample.assetsFailingService (Some (lit "sk-test"))
    (fun _ => Returned Serverless.emptyAnalysis)
    (Sample.contentWith [Sample.heading 2]) (Sample.assetsWith []) []
  = (Returned Serverless.emptyAnalysis,
     [] ++ [JsonPrompt (Serverless.simplify (Sample.contentWith [Sample.heading 2])
                          (Sample.assetsWith []))]).
Proof.
  refine (proj2 (proj2 (@analyzePageContent_parses_or_falls_back
                          Sample.assetsFailingService (Some (lit "sk-test"))
                          (fun _ => Returned Serverless.emptyAnalysis)
                          (Sample.contentWith [Sample.heading 2]) (Sample.assetsWith [])
                          [] _)
                   {| Choice.message := {| Message.content := Some Sample.narrative |} |}
                   [] _) Serverless.emptyAnalysis _); reflexivity.
Defined.

(* ===================================================================== *)
(** ** Further properties of the Express pipeline *)
(* ===================================================================== *)

Section ExpressFacts.

Import Props.

Variable Doc : Type.
Variable scrollHeight : Doc -> Z.
Variable scrollBy : Z -> Doc -> Doc.
Variable service : Service.
Variable OPENAI_API_KEY : option jsstring.

(** X12: when the page answers with a status that is not a success,
    [analyze] throws "Failed to load page: <status> <statusText>" and sends
    no request to the model. *)
Theorem analyze_rejects_failed_navigation fuel (browser : Express.Browser Doc) url
    response log :
  Express.launch browser = Returned tt ->
  Express.newPage browser = Returned tt ->
  Express.setViewport browser = Returned tt ->
  Express.goto browser url = Returned response ->
  Express.Response.ok response = false ->
  Express.close browser = Returned tt ->
  Express.analyze scrollHeight scrollBy service OPENAI_API_KEY fuel browser url log
  = (Thrown {| Error.message :=
                 lit "Failed to load page: " ++ ofNat (Express.Response.status response)
                 ++ lit " " ++ Express.Response.statusText response |},
     log).
Proof.
  intros Hl Hn Hv Hg Hok Hc.
  unfold Express.analyze, Express.launched, tryFinally, tryCatch, bind, await, ret, throw.
  rewrite Hl, Hn, Hv, Hg, Hok, Hc. reflexivity.
Qed.

Lemma analyzeAssetsWithAI_outcome assets pageTitle pageUrl log :
  (forall r, service OPENAI_API_KEY r <> Pending) ->
  Express.analyzeAssetsWithAI service OPENAI_API_KEY assets pageTitle pageUrl log
  = (Returned match narrativeOf (service OPENAI_API_KEY
                                   (assetsRequest assets pageTitle pageUrl)) with
              | Some text => Express.parseAssets text
              | None => Express.assetsError
              end,
     log ++ [assetsRequest assets pageTitle pageUrl]).
Proof.
  intros Hs.
  unfold Express.analyzeAssetsWithAI, tryCatch, bind, create, firstContent,
    assetsRequest, narrativeOf.
  specialize (Hs (AssetsPrompt pageTitle pageUrl
                    (List.length (Assets.images assets))
                    (List.length (Assets.stylesheets assets))
                    (List.length (Assets.scripts assets))
                    (List.length (Assets.videos assets))
                    (List.length (Assets.fonts assets)))).
  destruct (service OPENAI_API_KEY _) as [c| |]; [|reflexivity|congruence].
  destruct (ChatCompletion.choices c); reflexivity.
Qed.

Lemma analyzeContentWithAI_outcome content pageTitle pageUrl log :
  (forall r, service OPENAI_API_KEY r <> Pending) ->
  Express.analyzeContentWithAI service OPENAI_API_KEY content pageTitle pageUrl log
  = (Returned match narrativeOf (service OPENAI_API_KEY
                                   (contentRequest content pageTitle pageUrl)) with
              | Some text => Express.parseContent text
              | None => Express.contentError
              end,
     log ++ [contentRequest content pageTitle pageUrl]).
Proof.
  intros Hs.
  unfold Express.analyzeContentWithAI, tryCatch, bind, create, firstContent,
    contentRequest, narrativeOf.
  match goal with
  | |- context [service OPENAI_API_KEY ?r] =>
      specialize (Hs r); destruct (service OPENAI_API_KEY r) as [c| |]
  end; [|reflexivity|congruence].
  destruct (ChatCompletion.choices c); reflexivity.
Qed.

Lemma analyzePageWithAI_outcome title url screenshot log :
  (forall r, service OPENAI_API_KEY r <> Pending) ->
  Express.analyzePageWithAI service OPENAI_API_KEY title url screenshot log
  = (Returned match narrativeOf (service OPENAI_API_KEY
                                   (VisualPrompt title url screenshot)) with
              | Some text => Express.parseVisual text
              | None => Express.visualError
              end,
     log ++ [VisualPrompt title url screenshot]).
Proof.
  intros Hs.
  unfold Express.analyzePageWithAI, tryCatch, bind, create, firstContent, narrativeOf.
  specialize (Hs (VisualPrompt title url screenshot)).
  destruct (service OPENAI_API_KEY _) as [c| |]; [|reflexivity|congruence].
  destruct (ChatCompletion.choices c); reflexivity.
Qed.

(** X13: when every call to the browser succeeds, the distance scrolled
    reaches the scroll height of the page at some tick, and the service
    settles every request, [analyze] returns, given ticks enough for the
    sweep; it sends exactly three requests, for the assets, the content
    and the screenshot in this order; the result carries the captured data
    unchanged, and each category is the parse of its own reply, or its
    error record when its own request failed. *)
Theorem analyze_returns_when_browser_succeeds (browser : Express.Browser Doc)
    url screenshot links assets content pageTitle log n fuel :
  browserSucceeds browser url screenshot links assets content pageTitle ->
  resolvesAt scrollHeight scrollBy (Express.document browser) n -> n < fuel ->
  (forall r, service OPENAI_API_KEY r <> Pending) ->
  let category {A} (request : Request) (parse : jsstring -> A) (error : A) :=
    match narrativeOf (service OPENAI_API_KEY request) with
    | Some text => parse text
    | None => error
    end in
  Express.analyze scrollHeight scrollBy service OPENAI_API_KEY fuel browser url log
  = (Returned
       {| Express.FullAnalysis.mainPage :=
            {| Express.MainPage.url := url;
               Express.MainPage.title := pageTitle;
               Express.MainPage.screenshot := screenshot;
               Express.MainPage.content := content;
               Express.MainPage.assets := assets;
               Express.MainPage.analysis :=
                 {| AnalysisResult.visual :=
                      category (VisualPrompt pageTitle url screenshot)
                        Express.parseVisual Express.visualError;
                    AnalysisResult.assets :=
                      category (assetsRequest assets pageTitle url)
                        Express.parseAssets Express.assetsError;
                    AnalysisResult.content :=
                      category (contentRequest content pageTitle url)
                        Express.parseContent Express.contentError |} |};
          Express.FullAnalysis.allLinks := links |},
     log ++ [ assetsRequest assets pageTitle url;
              contentRequest content pageTitle url;
              VisualPrompt pageTitle url screenshot ]).
Proof.
  intros (Hl & Hn & Hv & (response & Hg & Hok) & Hshot & Hlinks
          & Hassets & Hcontent & Htitle & Hclose) Hreached Hfuel Hs.
  destruct (sweep_ends_when_reached Hreached Hfuel) as (swept & Hsw).
  cbv zeta.
  unfold Express.analyze, Express.launched, Express.autoScroll,
    tryFinally, tryCatch, bind, await, ret, throw.
  rewrite Hl, Hn, Hv, Hg, Hok, Hsw, Hshot, Hlinks, Hassets, Hcontent, Htitle.
  cbn [negb].
  rewrite (analyzeAssetsWithAI_outcome assets pageTitle url log Hs).
  rewrite (analyzeContentWithAI_outcome content pageTitle url _ Hs).
  rewrite (analyzePageWithAI_outcome pageTitle url screenshot _ Hs).
  rewrite Hclose. rewrite <- !app_assoc. reflexivity.
Qed.

Lemma tryCatch_message_not_empty A (body : M A) log e log' :
  tryCatch body
    (fun error =>
       throw {| Error.message := orElse (Some (Error.message error))
                                   (lit "Failed to analyze website") |}) log
  = (Thrown e, log') ->
  Error.message e <> [].
Proof.
  unfold tryCatch, throw. destruct (body log) as [[a|e0|] l]; try discriminate.
  intros [= <- _]. cbn. destruct (Error.message e0); cbn; discriminate.
Qed.

(** X14: an error that [analyze] throws always has a message, provided
    closing the browser does not itself throw: an error without one is
    rethrown as "Failed to analyze website". *)
Theorem analyze_error_has_message fuel (browser : Express.Browser Doc) url log e log' :
  Express.close browser = Returned tt ->
  Express.analyze scrollHeight scrollBy service OPENAI_API_KEY fuel browser url log
  = (Thrown e, log') ->
  Error.message e <> [].
Proof.
  intros Hclose. unfold Express.analyze.
  match goal with
  | |- tryFinally (tryCatch ?b ?h) ?c _ = _ -> _ =>
      set (body := b); set (cleanup := c)
  end.
  unfold tryFinally.
  destruct (tryCatch body _ log) as [[a|e0|] l] eqn:E; [| |discriminate].
  - assert (Hc : exists l', cleanup l = (Returned tt, l')).
    { unfold cleanup. destruct (Express.launched browser);
        [unfold await; rewrite Hclose|unfold ret]; eauto. }
    destruct Hc as (l' & ->). discriminate.
  - assert (Hc : exists l', cleanup l = (Returned tt, l')).
    { unfold cleanup. destruct (Express.launched browser);
        [unfold await; rewrite Hclose|unfold ret]; eauto. }
    destruct Hc as (l' & ->). intros [= <- _].
    eapply tryCatch_message_not_empty. exact E.
Qed.

End ExpressFacts.

Lemma analyze_rejects_failed_navigation_witness :
  Express.analyze Sample.staticHeight Sample.staticScroll Sample.narratingService
    (Some (lit "sk-test")) 3 Sample.notFound Sample.exampleUrl []
  = (Thrown {| Error.message := lit "Failed to load page: 404 Not Found" |}, []).
Proof.
  apply (@analyze_rejects_failed_navigation Z Sample.staticHeight Sample.staticScroll
           Sample.narratingService (Some (lit "sk-test")) 3 Sample.notFound
           Sample.exampleUrl
           {| Express.Response.ok := false; Express.Response.status := 404;
              Express.Response.statusText := lit "Not Found" |} []);
    reflexivity.
Defined.

Lemma analyze_returns_when_browser_succeeds_witness :
  Express.analyze Sample.staticHeight Sample.staticScroll Sample.narratingService
    (Some (lit "sk-test")) 3 Sample.browser Sample.exampleUrl []
  = (Returned Sample.answered, Sample.threeRequests).
Proof.
  refine (@analyze_returns_when_browser_succeeds Z Sample.staticHeight
            Sample.staticScroll Sample.narratingService (Some (lit "sk-test"))
            Sample.browser Sample.exampleUrl (lit "iVBORw0KGgo=")
            [lit "https://example.com/about"] (Sample.assetsWith [Sample.image None])
            Sample.expressContent (lit "Example") [] 2 3 _ _ _ _).
  - unfold Props.browserSucceeds. repeat split; try reflexivity.
    eexists. split; reflexivity.
  - unfold Props.resolvesAt. vm_compute. discriminate.
  - lia.
  - intros r. discriminate.
Defined.

Lemma analyze_error_has_message_witness :
  Error.message {| Error.message := lit "Failed to load page: 404 Not Found" |} <> [].
Proof.
  apply (@analyze_error_has_message Z Sample.staticHeight Sample.staticScroll
           Sample.narratingService (Some (lit "sk-test")) 3 Sample.notFound
           Sample.exampleUrl [] _ []); reflexivity.
Defined.

Section StaticSweep.

Import Props.

Variable Doc : Type.
Variable scrollHeight : Doc -> Z.
Variable scrollBy : Z -> Doc -> Doc.
Variable doc : Doc.


End StaticSweep.


(* ===================================================================== *)
(** ** Further properties of the narrative parser *)
(* ===================================================================== *)

Section PointShape.

Import Props Narrative.

Lemma occursIn_refl s : occursIn s s.
Proof. exists [], []. now rewrite app_nil_r. Qed.

Lemma occursIn_trans a b c : occursIn a b -> occursIn b c -> occursIn a c.
Proof.
  intros (p1 & q1 & ->) (p2 & q2 & ->).
  exists (p2 ++ p1), (q1 ++ q2). now rewrite !app_assoc.
Qed.

Lemma occursIn_In c pat s : In c pat -> occursIn pat s -> In c s.
Proof. intros Hc (pre & post & ->). rewrite !in_app_iff. auto. Qed.

Lemma dropWhile_suffix p s : exists pre, s = pre ++ dropWhile p s.
Proof. exists (takeWhile p s). apply takeWhile_dropWhile. Qed.

Lemma trimEnd_prefix s : exists post, s = trimEnd s ++ post.
Proof.
  unfold trimEnd. destruct (dropWhile_suffix isWhiteSpace (rev s)) as (pre & H).
  exists (rev pre). apply (f_equal (@rev _)) in H.
  rewrite rev_involutive, rev_app_distr in H. exact H.
Qed.

(** A trimmed line is a piece of the line. *)
Lemma trim_occursIn s : occursIn (trim s) s.
Proof.
  unfold trim, trimStart.
  destruct (dropWhile_suffix isWhiteSpace s) as (pre & Hs).
  destruct (trimEnd_prefix (dropWhile isWhiteSpace s)) as (post & Ht).
  exists pre, post. rewrite <- Ht. exact Hs.
Qed.

Lemma stripOrdinal_suffix t : exists pre, t = pre ++ stripOrdinal t.
Proof.
  unfold stripOrdinal.
  destruct (takeWhile isDigit t) as [|d ds] eqn:Ht; [now exists []|].
  destruct (dropWhile isDigit t) as [|dot rest] eqn:Hd; [now exists []|].
  destruct (dot =? 46)%N; [|now exists []].
  destruct (dropWhile_suffix isWhiteSpace rest) as (ws & Hr).
  exists ((d :: ds) ++ dot :: ws).
  rewrite (takeWhile_dropWhile isDigit t) at 1. rewrite Ht, Hd.
  rewrite Hr at 1. now rewrite <- app_assoc.
Qed.

Lemma splitLines_occursIn s l : In l (splitLines s) -> occursIn l s.
Proof.
  revert l. induction s as [|c s IH]; intros l; cbn.
  - intros [<-|[]]. apply occursIn_refl.
  - destruct (c =? LF)%N.
    + intros [<-|H]; [exists [], (c :: s); reflexivity|].
      destruct (IH l H) as (pre & post & ->). now exists (c :: pre), post.
    + destruct (splitLines s) as [|l0 ls] eqn:E; cbn.
      * intros [<-|[]]. exists [], s. reflexivity.
      * intros [<-|H].
        -- destruct (IH l0 (or_introl eq_refl)) as (pre & post & Hs).
           pose proof (splitLines_nonempty s).
           (* the first line of [s] is a prefix of [s] *)
           assert (Hpre : exists post', s = l0 ++ post').
           { clear -E. revert l0 ls E. induction s as [|d s IHs]; cbn; intros l0 ls.
             - intros [= <- <-]. now exists [].
             - destruct (d =? LF)%N.
               + intros [= <- <-]. now exists (d :: s).
               + destruct (splitLines s) as [|l1 ls1]; [intros [= <- <-]; now exists s|].
                 intros [= <- <-]. destruct (IHs l1 ls1 eq_refl) as (post' & ->).
                 now exists post'. }
           destruct Hpre as (post' & ->). now exists [], post'.
        -- destruct (IH l (or_intror H)) as (pre & post & ->).
           now exists (c :: pre), post.
Qed.

Lemma splitLines_no_LF s l : In l (splitLines s) -> ~ In LF l.
Proof.
  revert l. induction s as [|c s IH]; intros l; cbn.
  - intros [<-|[]] [].
  - destruct (N.eqb_spec c LF) as [->|Hc].
    + intros [<-|H]; [intros []|now apply IH].
    + destruct (splitLines s) as [|l0 ls] eqn:E; cbn.
      * intros [<-|[]] [H|[]]. congruence.
      * intros [<-|H].
        -- intros [Hl|Hl]; [congruence|]. apply (IH l0); [now left|exact Hl].
        -- apply IH. now right.
Qed.

(** Every point comes from one line of the section. *)
Lemma point_from_line section p :
  In p (points section) ->
  exists line, In line (splitLines section) /\ p = stripOrdinal (trim line).
Proof.
  unfold points. rewrite in_map_iff. intros (t & <- & Ht).
  apply filter_In in Ht. destruct Ht as [Ht _].
  apply in_map_iff in Ht. destruct Ht as (line & <- & Hl). eauto.
Qed.

Lemma point_occursIn section p : In p (points section) -> occursIn p section.
Proof.
  intros H. destruct (point_from_line _ _ H) as (line & Hl & ->).
  destruct (stripOrdinal_suffix (trim line)) as (pre & Hp).
  eapply occursIn_trans; [|eapply occursIn_trans;
                            [apply trim_occursIn|apply splitLines_occursIn, Hl]].
  exists pre, []. now rewrite app_nil_r.
Qed.

Lemma dropWhile_head p s :
  match dropWhile p s with [] => True | c :: _ => p c = false end.
Proof.
  induction s as [|c s IH]; cbn; [exact I|].
  destruct (p c) eqn:E; [exact IH|exact E].
Qed.

Lemma dropWhile_fixed p s :
  match s with [] => True | c :: _ => p c = false end -> dropWhile p s = s.
Proof. destruct s as [|c s]; cbn; [reflexivity|]. now intros ->. Qed.

Lemma tight_trim_fixed s : tight s -> trim s = s.
Proof.
  intros [Hh Hl]. unfold trim, trimStart, trimEnd.
  rewrite (dropWhile_fixed _ _ Hh), (dropWhile_fixed _ _ Hl).
  apply rev_involutive.
Qed.

Lemma rev_head_of_suffix (pre s : jsstring) :
  s <> [] -> hd_error (rev (pre ++ s)) = hd_error (rev s).
Proof.
  intros Hne. rewrite rev_app_distr.
  destruct (rev s) as [|c r] eqn:E; [|reflexivity].
  apply (f_equal (@rev _)) in E. rewrite rev_involutive in E. cbn in E. congruence.
Qed.

Lemma trim_tight s : tight (trim s).
Proof.
  unfold trim, trimStart, trimEnd.
  set (u := dropWhile isWhiteSpace s).
  pose proof (dropWhile_head isWhiteSpace s) as Hu. fold u in Hu.
  pose proof (dropWhile_head isWhiteSpace (rev u)) as Hv.
  split; [|now rewrite rev_involutive].
  destruct (dropWhile_suffix isWhiteSpace (rev u)) as (pre & Hr).
  destruct (dropWhile isWhiteSpace (rev u)) as [|c r] eqn:E; [exact I|].
  apply (f_equal (@rev _)) in Hr. rewrite rev_involutive, rev_app_distr in Hr.
  destruct (rev (c :: r)) as [|d r'] eqn:E2.
  - apply (f_equal (@rev _)) in E2. rewrite rev_involutive in E2. discriminate.
  - rewrite Hr in Hu. exact Hu.
Qed.

(** A suffix of a tight string that does not begin with white space is
    tight. *)
Lemma tight_suffix pre s :
  tight (pre ++ s) -> match s with [] => True | c :: _ => isWhiteSpace c = false end ->
  tight s.
Proof.
  intros [_ Hl] Hh. split; [exact Hh|].
  destruct s as [|c s']; [exact I|].
  pose proof (@rev_head_of_suffix pre (c :: s') ltac:(discriminate)) as E.
  destruct (rev (c :: s')) as [|d r]; [exact I|].
  destruct (rev (pre ++ c :: s')) as [|d' r']; [discriminate|].
  cbn in E. injection E as ->. exact Hl.
Qed.

Lemma stripOrdinal_tight t : tight t -> tight (stripOrdinal t).
Proof.
  intros Ht. unfold stripOrdinal.
  destruct (takeWhile isDigit t) as [|d ds] eqn:Hd; [exact Ht|].
  destruct (dropWhile isDigit t) as [|dot rest] eqn:Hr; [exact Ht|].
  destruct (dot =? 46)%N; [|exact Ht].
  destruct (dropWhile_suffix isWhiteSpace rest) as (ws & Hws).
  apply (@tight_suffix ((d :: ds) ++ dot :: ws)).
  - rewrite <- app_assoc. cbn. rewrite <- Hws.
    change (d :: ds ++ dot :: rest) with ((d :: ds) ++ dot :: rest).
    rewrite <- Hd, <- Hr, <- takeWhile_dropWhile. exact Ht.
  - apply dropWhile_head.
Qed.

(** X16: every issue the parser returns is one trimmed line of the section:
    it holds no line feed, it has no white space at either end, and it is
    a piece of the section text. *)
Theorem parsed_points_are_trimmed_lines section p :
  In p (processSection section) ->
  ~ In LF p /\ trim p = p
  /\ exists s, section = Some s /\ occursIn p s.
Proof.
  destruct section as [s|]; [|intros []].
  rewrite processSection_points. intros H.
  destruct (point_from_line _ _ H) as (line & Hl & Hp).
  split; [|split].
  - intros HLF. apply (splitLines_no_LF _ _ Hl).
    eapply occursIn_In; [exact HLF|].
    eapply occursIn_trans; [|apply trim_occursIn].
    destruct (stripOrdinal_suffix (trim line)) as (pre & Hpre).
    exists pre, []. rewrite app_nil_r, Hp. exact Hpre.
  - apply tight_trim_fixed. rewrite Hp. apply stripOrdinal_tight, trim_tight.
  - exists s. split; [reflexivity|]. now apply point_occursIn.
Qed.

End PointShape.

Lemma parsed_points_are_trimmed_lines_witness :
  ~ In LF (lit "A") /\ trim (lit "A") = lit "A"
  /\ exists s, Some (LF :: lit " 1.  A " ++ [LF]) = Some s /\ Props.occursIn (lit "A") s.
Proof.
  apply (@parsed_points_are_trimmed_lines (Some (LF :: lit " 1.  A " ++ [LF]))
           (lit "A")).
  cbn. left. reflexivity.
Defined.

Section RoundTrip.

Import Props Narrative.

(** The decimal rendering of a count is a non-empty run of digits. *)
Lemma string_of_uint_digits d :
  forallb isDigit (lit (NilEmpty.string_of_uint d)) = true.
Proof. induction d; cbn; auto. Qed.

Lemma ofNat_digits n : forallb isDigit (ofNat n) = true /\ ofNat n <> [].
Proof.
  unfold ofNat, NilZero.string_of_uint.
  destruct (Nat.to_uint n) eqn:E; cbn;
    (split; [try reflexivity; apply string_of_uint_digits|discriminate]).
Qed.

Lemma digit_not_space c : isDigit c = true -> isWhiteSpace c = false.
Proof.
  unfold isDigit, isWhiteSpace, inRange.
  rewrite andb_true_iff, !N.leb_le. intros [H1 H2].
  repeat match goal with
         | |- context [(?a =? ?b)%N] => destruct (N.eqb_spec a b); [lia|]
         | |- context [(?a <=? ?b)%N] => destruct (N.leb_spec a b); try lia
         end; reflexivity.
Qed.

Lemma digit_not_bullet c : isDigit c = true -> isBulletMarker c = false.
Proof.
  unfold isDigit, isBulletMarker, inRange, BULLET.
  rewrite andb_true_iff, !N.leb_le. intros [H1 H2].
  repeat match goal with
         | |- context [(?a =? ?b)%N] => destruct (N.eqb_spec a b); [lia|]
         end; reflexivity.
Qed.

Lemma dropWhile_nil_all p s : forallb p s = true -> dropWhile p s = [].
Proof. intros H. now apply dropWhile_nil_iff. Qed.

Lemma no_LF_one_line s : ~ In LF s -> splitLines s = [s].
Proof.
  induction s as [|c s IH]; cbn; [reflexivity|].
  intros H. destruct (N.eqb_spec c LF) as [->|_]; [exfalso; apply H; now left|].
  rewrite IH; [reflexivity|]. intros Hin. apply H. now right.
Qed.

Lemma points_app a b : points (a ++ LF :: b) = points a ++ points b.
Proof. now rewrite !points_flat_map, splitLines_app, flat_map_app. Qed.

Lemma tight_of_trim_fixed s : trim s = s -> tight s.
Proof. intros <-. apply trim_tight. Qed.

Lemma trimEnd_snoc_space s c :
  isWhiteSpace c = true -> trimEnd (s ++ [c]) = trimEnd s.
Proof.
  intros H. unfold trimEnd. rewrite rev_app_distr. cbn. now rewrite H.
Qed.

Lemma trimEnd_snoc_keep s c :
  isWhiteSpace c = false -> trimEnd (s ++ [c]) = s ++ [c].
Proof.
  intros H. unfold trimEnd. rewrite rev_app_distr. cbn [rev app dropWhile].
  rewrite H. cbn [rev]. now rewrite rev_involutive.
Qed.

(** A numbered line is read back as its item. *)
Lemma points_numbered_line n item :
  plainItem item -> points (ofNat n ++ lit ". " ++ item) = [item].
Proof.
  intros [HLF Htrim].
  destruct (ofNat_digits n) as [Hd Hne].
  assert (Hline : ~ In LF (ofNat n ++ lit ". " ++ item)).
  { rewrite !in_app_iff. intros [H|[H|H]].
    - rewrite forallb_forall in Hd. specialize (Hd _ H). discriminate.
    - cbn in H. destruct H as [H|[H|[]]]; discriminate.
    - contradiction. }
  rewrite points_flat_map, (no_LF_one_line _ Hline). cbn [flat_map].
  rewrite app_nil_r. unfold pointOfLine.
  pose proof (tight_of_trim_fixed Htrim) as [Hh Hl].
  destruct (ofNat n) as [|d ds] eqn:En; [congruence|].
  cbn in Hd. apply andb_true_iff in Hd. destruct Hd as [Hd Hds].
  destruct item as [|c item'].
  - (* an empty item: the line is the bare ordinal *)
    assert (Ht : trim ((d :: ds) ++ lit ". " ++ []) = (d :: ds) ++ [46%N]).
    { replace ((d :: ds) ++ lit ". " ++ []) with (((d :: ds) ++ [46%N]) ++ [32%N])
        by (now rewrite <- app_assoc).
      unfold trim, trimStart. cbn [dropWhile app].
      rewrite (digit_not_space _ Hd).
      change (d :: (ds ++ [46%N]) ++ [32%N]) with (((d :: ds) ++ [46%N]) ++ [32%N]).
      rewrite trimEnd_snoc_space by reflexivity.
      now rewrite trimEnd_snoc_keep by reflexivity. }
    rewrite Ht. cbn [app]. rewrite (digit_not_bullet _ Hd). f_equal.
    change (d :: ds ++ [46%N]) with ((d :: ds) ++ 46%N :: []).
    rewrite stripOrdinal_ordinal; [reflexivity|discriminate|].
    cbn. now rewrite Hd, Hds.
  - assert (Ht : trim ((d :: ds) ++ lit ". " ++ c :: item')
                 = (d :: ds) ++ lit ". " ++ c :: item').
    { apply tight_trim_fixed. split; [cbn; now apply digit_not_space|].
      rewrite !app_assoc.
      pose proof (@rev_head_of_suffix (((d :: ds) ++ lit ". ")) (c :: item')
                    ltac:(discriminate)) as E.
      destruct (rev (c :: item')) as [|x r] eqn:Er.
      { apply (f_equal (@rev _)) in Er. rewrite rev_involutive in Er. discriminate. }
      destruct (rev (((d :: ds) ++ lit ". ") ++ c :: item')) as [|y r']; [exact I|].
      cbn in E. injection E as ->. exact Hl. }
    rewrite Ht. cbn [app]. rewrite (digit_not_bullet _ Hd). f_equal.
    change (d :: ds ++ lit ". " ++ c :: item')
      with ((d :: ds) ++ 46%N :: 32%N :: c :: item').
    rewrite stripOrdinal_ordinal; [|discriminate|cbn; now rewrite Hd, Hds].
    cbn [dropWhile]. change (isWhiteSpace 32%N) with true. cbn iota.
    cbn in Hh. now rewrite Hh.
Qed.

Lemma processSection_numbered n items :
  Forall plainItem items ->
  processSection (Some (LF :: numberedFrom n items)) = items.
Proof.
  intros H. rewrite processSection_points.
  change (LF :: numberedFrom n items) with ([] ++ LF :: numberedFrom n items).
  rewrite points_app. change (points [] ++ ?x) with x.
  revert n. induction H as [|item rest Hi _ IH]; intros n; cbn [numberedFrom].
  - reflexivity.
  - rewrite !app_assoc, points_app, <- !app_assoc.
    now rewrite (points_numbered_line n Hi), IH.
Qed.

(** X17: a numbered list of items, one per line, is read back as exactly
    those items in the same order, whatever the starting number, provided
    each item has no line feed inside and no white space around. *)
Theorem numbered_section_round_trip n items :
  Forall plainItem items ->
  processSection (Some (LF :: numberedFrom n items)) = items.
Proof. apply processSection_numbered. Qed.

(** *** Finding the labels of a well-formed narrative *)

Lemma startsWith_within_line pat u s :
  ~ In LF pat -> startsWith pat (u ++ LF :: s) = true -> exists v, u = pat ++ v.
Proof.
  revert u. induction pat as [|x pat IH]; intros u HLF; cbn.
  - intros _. now exists u.
  - destruct u as [|y u]; cbn.
    + rewrite andb_true_iff, N.eqb_eq. intros [-> _]. exfalso. apply HLF. now left.
    + rewrite andb_true_iff, N.eqb_eq. intros [-> H].
      destruct (IH u (fun Hin => HLF (or_intror Hin)) H) as (v & ->). now exists v.
Qed.

(** A line that does not hold the pattern is skipped by the search. *)
Lemma findFirst_skip_line pat a s :
  ~ In LF pat -> ~ occursIn pat a ->
  findFirst pat (a ++ LF :: s) = behind (a ++ [LF]) (findFirst pat s).
Proof.
  intros HLF. induction a as [|c a IH]; intros Hno.
  - cbn [app findFirst].
    destruct (startsWith pat (LF :: s)) eqn:E.
    + destruct (@startsWith_within_line pat [] s HLF E) as (v & Hv).
      exfalso. apply Hno. exists [], v. exact Hv.
    + destruct (findFirst pat s) as [[b r]|]; reflexivity.
  - cbn [app findFirst].
    destruct (startsWith pat (c :: a ++ LF :: s)) eqn:E.
    + destruct (@startsWith_within_line pat (c :: a) s HLF E) as (v & Hv).
      exfalso. apply Hno. exists [], v. exact Hv.
    + rewrite IH.
      * destruct (findFirst pat s) as [[b r]|]; reflexivity.
      * intros (pre & post & ->). apply Hno. now exists (c :: pre), post.
Qed.

Lemma findFirst_skip_newline pat s :
  ~ In LF pat -> pat <> [] ->
  findFirst pat (LF :: s) = behind [LF] (findFirst pat s).
Proof.
  intros HLF Hne. apply (@findFirst_skip_line pat [] s HLF).
  intros (pre & post & H). destruct pre; [destruct pat; [congruence|]|]; discriminate.
Qed.

Lemma findFirst_hit pat s :
  startsWith pat s = true -> findFirst pat s = Some ([], skipn (List.length pat) s).
Proof. destruct s; cbn; intros ->; reflexivity. Qed.

Lemma findFirst_here pat s : findFirst pat (pat ++ s) = Some ([], s).
Proof.
  rewrite findFirst_hit by apply startsWith_app. do 2 f_equal.
  induction pat; cbn; auto.
Qed.

Lemma numbered_line_no_colon n item :
  ~ In COLON item -> ~ In COLON (ofNat n ++ lit ". " ++ item).
Proof.
  intros H. rewrite !in_app_iff. intros [Hc|[Hc|Hc]]; [| |contradiction].
  - destruct (ofNat_digits n) as [Hd _]. rewrite forallb_forall in Hd.
    specialize (Hd _ Hc). discriminate.
  - cbn in Hc. destruct Hc as [Hc|[Hc|[]]]; discriminate.
Qed.

(** A block of numbered items without colons is skipped by the search for
    a label. *)
Lemma findFirst_skip_numbered pat n items s :
  ~ In LF pat -> In COLON pat -> Forall (fun item => ~ In COLON item) items ->
  findFirst pat (numberedFrom n items ++ s)
  = behind (numberedFrom n items) (findFirst pat s).
Proof.
  intros HLF Hcolon H. revert n.
  induction H as [|item rest Hi _ IH]; intros n; cbn [numberedFrom].
  - cbn. destruct (findFirst pat s) as [[b r]|]; reflexivity.
  - rewrite <- !app_assoc. cbn [app]. rewrite !app_assoc.
    rewrite <- (app_assoc (ofNat n)).
    rewrite findFirst_skip_line; [|exact HLF|].
    + rewrite IH. destruct (findFirst pat s) as [[b r]|]; cbn; [|reflexivity].
      do 2 f_equal. rewrite <- !app_assoc. reflexivity.
    + intros Hocc. apply (@numbered_line_no_colon n item Hi).
      eapply occursIn_In; eassumption.
Qed.

Ltac label_facts :=
  repeat match goal with
         | |- ~ In _ _ => cbn; intuition discriminate
         | |- In _ _ => cbn; tauto
         | |- ~ occursIn _ _ => apply findFirst_none; reflexivity
         end.

(** X18: a narrative in the requested format (each of the three labels on a
    line of its own, followed by its numbered items) parses back to exactly
    the three lists of items, provided every item has no line feed and no
    colon inside and no white space around. *)
Theorem visual_narrative_round_trip exitPoints designIssues recommendations :
  Forall plainItem (exitPoints ++ designIssues ++ recommendations) ->
  Forall (fun item => ~ In COLON item) (exitPoints ++ designIssues ++ recommendations) ->
  Express.parseVisual (visualNarrative exitPoints designIssues recommendations)
  = {| Visual.exitPoints := exitPoints;
       Visual.designIssues := designIssues;
       Visual.recommendations := recommendations |}.
Proof.
  rewrite !Forall_app. intros (Px & Py & Pz) (Cx & Cy & Cz).
  unfold Express.parseVisual, visualNarrative, captureUntil, captureToEnd.
  set (E := lit "Exit Points:"). set (D := lit "Design Issues:").
  set (R := lit "Recommendations:").
  assert (HD : ~ In LF D /\ In COLON D) by (split; subst D; label_facts).
  assert (HR : ~ In LF R /\ In COLON R) by (split; subst R; label_facts).
  assert (HED : ~ occursIn D E) by (subst D E; label_facts).
  assert (HER : ~ occursIn R E) by (subst R E; label_facts).
  assert (HDR : ~ occursIn R D) by (subst R D; label_facts).
  assert (HnD : D <> []) by (subst D; discriminate).
  assert (HnR : R <> []) by (subst R; discriminate).
  destruct HD as [HD1 HD2]. destruct HR as [HR1 HR2].
  f_equal.
  - (* exit points *)
    rewrite findFirst_here.
    rewrite (@findFirst_skip_newline D _ HD1 HnD).
    rewrite (@findFirst_skip_numbered D 1 exitPoints _ HD1 HD2 Cx), findFirst_here.
    cbn [behind app]. rewrite app_nil_r. now apply processSection_numbered.
  - (* design issues *)
    rewrite (@findFirst_skip_line D E _ HD1 HED).
    rewrite (@findFirst_skip_numbered D 1 exitPoints _ HD1 HD2 Cx), findFirst_here.
    cbn [behind].
    rewrite (@findFirst_skip_newline R _ HR1 HnR).
    rewrite (@findFirst_skip_numbered R 1 designIssues _ HR1 HR2 Cy), findFirst_here.
    cbn [behind app]. rewrite app_nil_r. now apply processSection_numbered.
  - (* recommendations *)
    rewrite (@findFirst_skip_line R E _ HR1 HER).
    rewrite (@findFirst_skip_numbered R 1 exitPoints _ HR1 HR2 Cx).
    rewrite (@findFirst_skip_line R D _ HR1 HDR).
    rewrite (@findFirst_skip_numbered R 1 designIssues _ HR1 HR2 Cy), findFirst_here.
    cbn [behind]. now apply processSection_numbered.
Qed.

(** The captured text of a section holds no occurrence of the label that
    ends it. *)
Lemma captureUntil_stops_before_next label next text captured :
  next <> [] -> captureUntil label next text = Some captured ->
  ~ occursIn next captured.
Proof.
  intros Hne. unfold captureUntil.
  destruct (findFirst label text) as [[before rest]|]; [|discriminate].
  destruct (findFirst next rest) as [[cap after]|] eqn:F.
  - intros [= <-] (pre & post & Hc).
    pose proof (@findFirst_sound next rest cap after F) as Hs.
    assert (Hs' : rest = pre ++ next ++ (post ++ next ++ after)).
    { rewrite Hs, Hc. now rewrite <- !app_assoc. }
    pose proof (@findFirst_leftmost next rest cap after pre _ F Hs') as Hlen.
    rewrite Hc, !length_app in Hlen.
    destruct next; [congruence|cbn in Hlen; lia].
  - intros [= <-]. now apply findFirst_none.
Qed.

(** X19: sections do not bleed into one another: no exit point holds the
    label "Design Issues:" and no design issue holds the label
    "Recommendations:", whatever the narrative. *)
Theorem visual_sections_do_not_bleed text p :
  (In p (Visual.exitPoints (Express.parseVisual text)) ->
   ~ occursIn (lit "Design Issues:") p)
  /\ (In p (Visual.designIssues (Express.parseVisual text)) ->
      ~ occursIn (lit "Recommendations:") p).
Proof.
  unfold Express.parseVisual. cbn [Visual.exitPoints Visual.designIssues].
  split.
  - destruct (captureUntil (lit "Exit Points:") (lit "Design Issues:") text)
      as [cap|] eqn:E; [|intros []].
    rewrite processSection_points. intros Hp Hocc.
    apply (@captureUntil_stops_before_next _ (lit "Design Issues:") _ _
             ltac:(discriminate) E).
    eapply occursIn_trans; [exact Hocc|now apply point_occursIn].
  - destruct (captureUntil (lit "Design Issues:") (lit "Recommendations:") text)
      as [cap|] eqn:E; [|intros []].
    rewrite processSection_points. intros Hp Hocc.
    apply (@captureUntil_stops_before_next _ (lit "Recommendations:") _ _
             ltac:(discriminate) E).
    eapply occursIn_trans; [exact Hocc|now apply point_occursIn].
Qed.

End RoundTrip.

Lemma numbered_section_round_trip_witness :
  Narrative.processSection
    (Some (LF :: Props.numberedFrom 1 [lit "Slow checkout"; lit "No search box"]))
  = [lit "Slow checkout"; lit "No search box"].
Proof.
  apply (@numbered_section_round_trip 1 [lit "Slow checkout"; lit "No search box"]).
  repeat constructor; try (cbn; intuition discriminate).
Defined.

Lemma visual_narrative_round_trip_witness :
  Express.parseVisual
    (Props.visualNarrative [lit "Slow checkout"; lit "No search box"] []
       [lit "Add a search box"])
  = {| Visual.exitPoints := [lit "Slow checkout"; lit "No search box"];
       Visual.designIssues := [];
       Visual.recommendations := [lit "Add a search box"] |}.
Proof.
  apply (@visual_narrative_round_trip [lit "Slow checkout"; lit "No search box"] []
           [lit "Add a search box"]).
  - repeat constructor; try (cbn; intuition discriminate).
  - repeat constructor; cbn; intuition discriminate.
Defined.

(* ===================================================================== *)
(** ** Properties of the link extraction *)
(* ===================================================================== *)

Section LinkFacts.

Import Props Links.

Lemma eqb_eq a b : eqb a b = true <-> a = b.
Proof.
  revert b. induction a as [|x a IH]; intros [|y b]; cbn; try (split; congruence).
  rewrite andb_true_iff, N.eqb_eq, IH. split; [intros [-> ->]|intros [= -> ->]]; auto.
Qed.

Lemma existsb_eqb x l : existsb (eqb x) l = true <-> In x l.
Proof.
  rewrite existsb_exists. split.
  - intros (y & Hy & E). apply eqb_eq in E. now subst.
  - intros H. exists x. split; [exact H|now apply eqb_eq].
Qed.

Lemma indexOf_range v l : (-1 <= indexOf v l < Z.of_nat (List.length l))%Z \/ l = [].
Proof.
  induction l as [|x l IH]; [now right|left]. cbn [indexOf List.length].
  destruct (eqb x v); [lia|].
  destruct IH as [IH| ->]; [|cbn; lia].
  destruct (Z.ltb_spec (indexOf v l) 0); lia.
Qed.

Lemma indexOf_absent v l : ~ In v l -> indexOf v l = (-1)%Z.
Proof.
  induction l as [|x l IH]; cbn; [reflexivity|]. intros H.
  destruct (eqb x v) eqn:E; [apply eqb_eq in E; exfalso; apply H; now left|].
  rewrite IH by (intros Hin; apply H; now right). reflexivity.
Qed.

Lemma indexOf_present v l : In v l -> (0 <= indexOf v l < Z.of_nat (List.length l))%Z.
Proof.
  induction l as [|x l IH]; [intros []|]. cbn [indexOf List.length]. intros H.
  destruct (eqb x v) eqn:E; [lia|].
  destruct H as [->|H]; [rewrite (proj2 (eqb_eq v v) eq_refl) in E; discriminate|].
  specialize (IH H). destruct (Z.ltb_spec (indexOf v l) 0); lia.
Qed.

(** The index of an element behind a prefix: in the prefix when it occurs
    there, else right behind it. *)
Lemma indexOf_at pre v post :
  indexOf v (pre ++ v :: post)
  = (if existsb (eqb v) pre then indexOf v pre else Z.of_nat (List.length pre)).
Proof.
  induction pre as [|x pre IH]; cbn [app indexOf existsb List.length].
  - now rewrite (proj2 (eqb_eq v v) eq_refl).
  - destruct (eqb x v) eqn:E.
    + apply eqb_eq in E. subst x. now rewrite (proj2 (eqb_eq v v) eq_refl).
    + assert (E' : eqb v x = false).
      { destruct (eqb v x) eqn:E'; [|reflexivity].
        apply eqb_eq in E'. subst. rewrite (proj2 (eqb_eq x x) eq_refl) in E.
        discriminate. }
      rewrite E', IH. cbn [orb].
      destruct (existsb (eqb v) pre) eqn:Ex.
      * reflexivity.
      * destruct (Z.ltb_spec (Z.of_nat (List.length pre)) 0); lia.
Qed.

Lemma firstOccurrences_ext s1 s2 l :
  (forall z, existsb (eqb z) s1 = existsb (eqb z) s2) ->
  firstOccurrences s1 l = firstOccurrences s2 l.
Proof.
  revert s1 s2. induction l as [|z l IH]; intros s1 s2 Hs; cbn [firstOccurrences];
    [reflexivity|].
  rewrite (Hs z). destruct (existsb (eqb z) s2); [now apply IH|].
  f_equal. apply IH. intros w. rewrite !existsb_app. now rewrite Hs.
Qed.

(** Seeing again what was seen before changes nothing. *)
Lemma firstOccurrences_seen_again pre x suffix :
  In x pre -> firstOccurrences (pre ++ [x]) suffix = firstOccurrences pre suffix.
Proof.
  intros Hx. apply firstOccurrences_ext. intros z.
  rewrite existsb_app. cbn [existsb]. rewrite orb_false_r.
  destruct (eqb z x) eqn:E; [|now rewrite orb_false_r].
  apply eqb_eq in E. subst z.
  rewrite (proj2 (existsb_eqb x pre) Hx). reflexivity.
Qed.

(** The filter of [removeDuplicates] keeps what was not seen before. *)
Lemma filterFrom_firstOccurrences pre suffix :
  filterFrom (fun value index => (indexOf value (pre ++ suffix) =? index)%Z)
    (Z.of_nat (List.length pre)) suffix
  = firstOccurrences pre suffix.
Proof.
  revert pre. induction suffix as [|x suffix IH]; intros pre;
    cbn [filterFrom firstOccurrences]; [reflexivity|].
  rewrite indexOf_at.
  specialize (IH (pre ++ [x])).
  rewrite <- app_assoc, length_app in IH. cbn [app List.length] in IH.
  replace (Z.of_nat (List.length pre + 1)) with (Z.of_nat (List.length pre) + 1)%Z in IH
    by lia.
  destruct (existsb (eqb x) pre) eqn:Ex.
  - apply existsb_eqb in Ex. pose proof (indexOf_present _ _ Ex) as Hr.
    destruct (Z.eqb_spec (indexOf x pre) (Z.of_nat (List.length pre))); [lia|].
    rewrite IH. now apply firstOccurrences_seen_again.
  - rewrite Z.eqb_refl. now rewrite IH.
Qed.

Lemma removeDuplicates_firstOccurrences l :
  removeDuplicates l = firstOccurrences [] l.
Proof. apply (filterFrom_firstOccurrences [] l). Qed.

Lemma firstOccurrences_In seen l x :
  In x (firstOccurrences seen l) <-> In x l /\ ~ In x seen.
Proof.
  revert seen. induction l as [|y l IH]; intros seen; cbn [firstOccurrences].
  - cbn. tauto.
  - destruct (existsb (eqb y) seen) eqn:E.
    + apply existsb_eqb in E. rewrite IH. cbn. split; [tauto|].
      intros [[->|H] Hn]; [contradiction|tauto].
    + assert (Hy : ~ In y seen) by (rewrite <- existsb_eqb; congruence).
      cbn [In]. rewrite IH, in_app_iff. cbn. split.
      * intros [->|[H Hn]]; [tauto|]. split; [tauto|]. intros Hs. apply Hn. tauto.
      * intros [[->|H] Hn]; [now left|].
        destruct (list_eq_dec N.eq_dec y x) as [->|Hne]; [now left|].
        right. split; [exact H|]. intros [Hs|[Hs|[]]]; congruence.
Qed.

Lemma firstOccurrences_NoDup seen l : NoDup (firstOccurrences seen l).
Proof.
  revert seen. induction l as [|y l IH]; intros seen; cbn [firstOccurrences];
    [constructor|].
  destruct (existsb (eqb y) seen); [apply IH|].
  constructor; [|apply IH].
  rewrite firstOccurrences_In, in_app_iff. cbn. tauto.
Qed.

Lemma firstOccurrences_snoc seen l x :
  firstOccurrences seen (l ++ [x])
  = firstOccurrences seen l
    ++ (if existsb (eqb x) (seen ++ l) then [] else [x]).
Proof.
  revert seen. induction l as [|y l IH]; intros seen; cbn [app firstOccurrences].
  - rewrite app_nil_r. destruct (existsb (eqb x) seen); reflexivity.
  - destruct (existsb (eqb y) seen) eqn:E.
    + rewrite IH. f_equal. rewrite !existsb_app. cbn [existsb].
      destruct (existsb (eqb x) seen) eqn:Ex; [reflexivity|].
      destruct (eqb x y) eqn:Exy; [|reflexivity].
      apply eqb_eq in Exy. subst. congruence.
    + rewrite IH. cbn [app]. do 2 f_equal.
      rewrite <- app_assoc. reflexivity.
Qed.

(** X20: [removeDuplicates] keeps each string once, at its first
    occurrence: the result has no duplicates and the same members as the
    input, and appending a string to the input appends it to the result
    when it is new and changes nothing otherwise. *)
Theorem removeDuplicates_keeps_first_occurrences l :
  NoDup (removeDuplicates l)
  /\ (forall x, In x (removeDuplicates l) <-> In x l)
  /\ (forall x, removeDuplicates (l ++ [x])
                = removeDuplicates l ++ (if existsb (eqb x) l then [] else [x])).
Proof.
  rewrite removeDuplicates_firstOccurrences. repeat split.
  - apply firstOccurrences_NoDup.
  - now intros H%firstOccurrences_In.
  - intros H. apply firstOccurrences_In. auto.
  - intros x. rewrite removeDuplicates_firstOccurrences.
    apply (firstOccurrences_snoc [] l x).
Qed.

Variable Anchor : Type.
Variable sameDomainHref : Anchor -> option jsstring.
Variable textContent : Anchor -> jsstring.
Variable getBoundingClientRect : Anchor -> BoundingBox.t.

Lemma filterTruthy_In xs u :
  In u (filterTruthy xs) <-> u <> [] /\ In (Some u) xs.
Proof.
  induction xs as [|[s|] xs IH]; cbn [filterTruthy In].
  - tauto.
  - destruct s as [|c s]; cbn [truthy].
    + rewrite IH. split; [tauto|]. intros [Hne [[= <-]|H]]; [congruence|tauto].
    + cbn [In]. rewrite IH. split.
      * intros [<-|[Hne H]]; [split; [discriminate|now left]|tauto].
      * intros [Hne [[= <-]|H]]; [now left|tauto].
  - rewrite IH. split; [tauto|]. intros [Hne [H|H]]; [discriminate|tauto].
Qed.

Lemma extractLinks_membership links u :
  In u (extractLinks sameDomainHref links)
  <-> u <> [] /\ exists link, In link links /\ sameDomainHref link = Some u.
Proof.
  unfold extractLinks.
  rewrite removeDuplicates_firstOccurrences, firstOccurrences_In, filterTruthy_In,
    in_map_iff.
  split.
  - intros [[Hne (link & E & Hl)] _]. eauto.
  - intros [Hne (link & Hl & E)]. repeat split; eauto.
Qed.

(** X21: [extractLinks] returns every same-domain address of the page
    once: the result has no duplicates, and an address is in it exactly
    when it is not empty and is the same-domain address of some anchor. *)
Theorem extractLinks_lists_each_address_once links :
  NoDup (extractLinks sameDomainHref links)
  /\ forall u,
       In u (extractLinks sameDomainHref links)
       <-> u <> [] /\ exists link, In link links /\ sameDomainHref link = Some u.
Proof.
  unfold extractLinks. rewrite removeDuplicates_firstOccurrences. split.
  - apply firstOccurrences_NoDup.
  - intros u. rewrite firstOccurrences_In, filterTruthy_In, in_map_iff.
    split.
    + intros [[Hne (link & E & Hl)] _]. eauto.
    + intros [Hne (link & Hl & E)]. repeat split; eauto.
Qed.

Lemma filterNonNull_In A (xs : list (option A)) a :
  In a (filterNonNull xs) <-> In (Some a) xs.
Proof.
  induction xs as [|[b|] xs IH]; cbn [filterNonNull In].
  - tauto.
  - rewrite IH. split; [intros [->|H]; auto|intros [[= ->]|H]; auto].
  - rewrite IH. split; [auto|intros [H|H]; [discriminate|auto]].
Qed.

(** X22: the links with location and the list of addresses agree: an
    address is in [extractLinks] exactly when it is not empty and is the
    address of a link of [extractLinksWithLocation]; and every such link
    carries the trimmed text and the rectangle of its anchor. *)
Theorem located_links_agree_with_addresses links :
  (forall u,
     In u (extractLinks sameDomainHref links)
     <-> u <> []
         /\ exists l,
              In l (extractLinksWithLocation sameDomainHref textContent
                      getBoundingClientRect links)
              /\ PageLink.url l = u)
  /\ (forall l,
        In l (extractLinksWithLocation sameDomainHref textContent
                getBoundingClientRect links)
        -> exists link,
             In link links
             /\ sameDomainHref link = Some (PageLink.url l)
             /\ PageLink.text l = trim (textContent link)
             /\ PageLink.location l = getBoundingClientRect link).
Proof.
  assert (Hloc : forall l,
            In l (extractLinksWithLocation sameDomainHref textContent
                    getBoundingClientRect links)
            <-> exists link,
                  In link links
                  /\ exists href,
                       sameDomainHref link = Some href
                       /\ l = {| PageLink.url := href;
                                 PageLink.text := trim (textContent link);
                                 PageLink.location := getBoundingClientRect link |}).
  { intros l. unfold extractLinksWithLocation.
    rewrite filterNonNull_In, in_map_iff. split.
    - intros (link & E & Hl). exists link. split; [exact Hl|].
      destruct (sameDomainHref link) as [href|]; [|discriminate].
      exists href. split; [reflexivity|]. now injection E as <-.
    - intros (link & Hl & href & E & ->). exists link. split; [|exact Hl].
      now rewrite E. }
  split.
  - intros u.
    destruct (extractLinks_membership links u) as [H1 H2].
    split.
    + intros H. destruct (H1 H) as [Hne (link & Hl & E)]. split; [exact Hne|].
      eexists. split; [apply Hloc; eauto|reflexivity].
    + intros [Hne (l & Hl & <-)]. apply H2. split; [exact Hne|].
      apply Hloc in Hl. destruct Hl as (link & Hin & href & E & ->). eauto.
  - intros l Hl. apply Hloc in Hl. destruct Hl as (link & Hin & href & E & ->).
    exists link. cbn. auto.
Qed.

End LinkFacts.

(* ===================================================================== *)
(** ** Properties of the HTTP handlers *)
(* ===================================================================== *)

Section RouteFacts.

Import Props.

Variable Doc : Type.
Variable scrollHeight : Doc -> Z.
Variable scrollBy : Z -> Doc -> Doc.
Variable service : Service.
Variable OPENAI_API_KEY : option jsstring.
Variable JSON_parse : option jsstring -> outcome AnalysisResult.t.

Lemma webAddress_false url :
  webAddress url = false ->
  negb (startsWith (lit "http://") url) && negb (startsWith (lit "https://") url) = true.
Proof. unfold webAddress. rewrite orb_false_iff. now intros [-> ->]. Qed.

Lemma webAddress_true url :
  webAddress url = true ->
  negb (startsWith (lit "http://") url) && negb (startsWith (lit "https://") url) = false.
Proof.
  unfold webAddress. rewrite orb_true_iff.
  intros [-> | ->]; [reflexivity|now rewrite andb_false_r].
Qed.

Lemma webAddress_truthy url : webAddress url = true -> truthy url = true.
Proof. destruct url; [discriminate|reflexivity]. Qed.

(** X23: the route [/analyze] answers 400 without starting the pipeline
    when the address is absent or empty ("URL is required") or does not
    begin with [http://] or [https://] ("Invalid URL format..."): the
    answer is the same for every browser and service, and no request is
    sent to the model. *)
Theorem analyzeRoute_refuses_bad_addresses fuel (browser : Express.Browser Doc) url log :
  (Http.falsy url = true ->
   ExpressServer.analyzeRoute scrollHeight scrollBy service OPENAI_API_KEY fuel browser
     url log
   = (Returned {| Http.status := 400;
                  Http.body := Http.ErrorJson (lit "URL is required") |}, log))
  /\ (forall address,
        url = Http.Text address -> address <> [] -> webAddress address = false ->
        ExpressServer.analyzeRoute scrollHeight scrollBy service OPENAI_API_KEY fuel
          browser url log
        = (Returned {| Http.status := 400;
                       Http.body := Http.ErrorJson
                         (lit "Invalid URL format. URL must start with http:// or https://") |},
           log)).
Proof.
  unfold ExpressServer.analyzeRoute, tryCatch, ret. split.
  - intros ->. reflexivity.
  - intros address -> Hne Hweb. cbn [Http.falsy].
    destruct address; [congruence|]. cbn [truthy negb].
    now rewrite (webAddress_false _ Hweb).
Qed.

(** X24: for an address that begins with [http://] or [https://], the
    route [/analyze] answers 200 with the analysis when [analyze] returns
    it, and 500 with the message of the error when [analyze] throws; the
    route itself never throws. *)
Theorem analyzeRoute_reports_the_pipeline fuel (browser : Express.Browser Doc) address log :
  webAddress address = true ->
  ExpressServer.analyzeRoute scrollHeight scrollBy service OPENAI_API_KEY fuel browser
    (Http.Text address) log
  = match Express.analyze scrollHeight scrollBy service OPENAI_API_KEY fuel browser
            address log with
    | (Returned analysis, log') =>
        (Returned {| Http.status := 200; Http.body := Http.Json analysis |}, log')
    | (Thrown error, log') =>
        (Returned {| Http.status := 500;
                     Http.body := Http.ErrorJson
                       (orElse (Some (Error.message error))
                          (lit "Failed to analyze website")) |}, log')
    | (Pending, log') => (Pending, log')
    end.
Proof.
  intros Hweb. unfold ExpressServer.analyzeRoute, tryCatch, bind, ret.
  cbn [Http.falsy]. rewrite (webAddress_truthy _ Hweb). cbn [negb].
  rewrite (webAddress_true _ Hweb).
  destruct (Express.analyze _ _ _ _ _ _ _ _) as [[a|e|] l]; reflexivity.
Qed.


(** X26: with the credential set to the empty string, a POST to the
    serverless handler for a page that the browser captures, and whose
    scroll height the sweep reaches at some tick, is answered 200 with the
    captured data, the heuristic analysis of its content and assets, no
    additional pages, and without any request to the model, given ticks
    enough for the sweep. *)
Theorem handler_without_credential (browser : ServerlessApi.Browser Doc)
    address pageTitle screenshot allLinks assets content links log n fuel :
  webAddress address = true ->
  serverlessBrowserSucceeds browser address pageTitle screenshot allLinks assets
    content links ->
  resolvesAt scrollHeight scrollBy (ServerlessApi.document browser) n -> n < fuel ->
  imported (Some [])
    (ServerlessApi.handler scrollHeight scrollBy service (Some []) JSON_parse fuel
       browser (lit "POST") (Http.Parsed (Http.Text address))) log
  = (Returned
       {| Http.status := 200;
          Http.body := Http.Json
            {| ServerlessApi.FullAnalysis.mainPage :=
                 {| PageAnalysis.url := address;
                    PageAnalysis.title := pageTitle;
                    PageAnalysis.analysis :=
                      Serverless.generateDefaultAnalysis content assets;
                    PageAnalysis.screenshot :=
                      lit "data:image/png;base64," ++ screenshot;
                    PageAnalysis.content := Some content;
                    PageAnalysis.assets := Some assets;
                    PageAnalysis.links := Some links |};
               ServerlessApi.FullAnalysis.additionalPages := [];
               ServerlessApi.FullAnalysis.allLinks := allLinks |} |},
     log).
Proof.
  intros Hweb (Hl & Hn & Hv & Hg & Ht & Hshot & Hall
               & Hassets & Hcontent & Hlinks & Hclose) Hreached Hfuel.
  destruct (sweep_ends_when_reached Hreached Hfuel) as (swept & Hsw).
  unfold imported, newOpenAI, ServerlessApi.handler, ServerlessApi.urlOf.
  change (eqb (lit "POST") (lit "OPTIONS")) with false.
  change (eqb (lit "POST") (lit "POST")) with true.
  unfold tryCatch, bind, await, ret.
  cbn [negb Http.falsy]. rewrite (webAddress_truthy _ Hweb). cbn [negb].
  rewrite (webAddress_true _ Hweb).
  unfold ServerlessApi.analyzeWebsite, Express.autoScroll, tryCatch, bind, await, ret.
  rewrite Hl, Hn, Hv, Hg, Ht, Hsw, Hshot, Hall, Hassets, Hcontent, Hlinks.
  unfold Serverless.analyzePageContent, tryCatch, ret. cbn [truthyOpt truthy negb].
  rewrite Hclose. reflexivity.
Qed.

End RouteFacts.

Lemma analyzeRoute_reports_the_pipeline_witness :
  ExpressServer.analyzeRoute Sample.staticHeight Sample.staticScroll
    Sample.narratingService (Some (lit "sk-test")) 3 Sample.notFound
    (Http.Text Sample.exampleUrl) []
  = match Express.analyze Sample.staticHeight Sample.staticScroll
            Sample.narratingService (Some (lit "sk-test")) 3 Sample.notFound
            Sample.exampleUrl [] with
    | (Returned analysis, log') =>
        (Returned {| Http.status := 200; Http.body := Http.Json analysis |}, log')
    | (Thrown error, log') =>
        (Returned {| Http.status := 500;
                     Http.body := Http.ErrorJson
                       (orElse (Some (Error.message error))
                          (lit "Failed to analyze website")) |}, log')
    | (Pending, log') => (Pending, log')
    end.
Proof.
  apply (@analyzeRoute_reports_the_pipeline Z Sample.staticHeight Sample.staticScroll
           Sample.narratingService (Some (lit "sk-test")) 3 Sample.notFound
           Sample.exampleUrl []).
  reflexivity.
Defined.

Lemma handler_without_credential_witness :
  imported (Some [])
    (ServerlessApi.handler Sample.staticHeight Sample.staticScroll Sample.keyedService
       (Some []) (fun _ => Thrown {| Error.message := lit "Unexpected token" |}) 3
       Sample.serverlessBrowser (lit "POST") (Http.Parsed (Http.Text Sample.exampleUrl)))
    []
  = (Returned
       {| Http.status := 200;
          Http.body := Http.Json
            {| ServerlessApi.FullAnalysis.mainPage :=
                 {| PageAnalysis.url := Sample.exampleUrl;
                    PageAnalysis.title := lit "Example";
                    PageAnalysis.analysis :=
                      Serverless.generateDefaultAnalysis
                        (Sample.contentWith [Sample.heading 2])
                        (Sample.assetsWith [Sample.image None]);
                    PageAnalysis.screenshot :=
                      lit "data:image/png;base64," ++ lit "iVBORw0KGgo=";
                    PageAnalysis.content := Some (Sample.contentWith [Sample.heading 2]);
                    PageAnalysis.assets := Some (Sample.assetsWith [Sample.image None]);
                    PageAnalysis.links := Some [Sample.link 1] |};
               ServerlessApi.FullAnalysis.additionalPages := [];
               ServerlessApi.FullAnalysis.allLinks := [lit "https://example.com/about"] |} |},
     []).
Proof.
  refine (@handler_without_credential Z Sample.staticHeight Sample.staticScroll
            Sample.keyedService
            (fun _ => Thrown {| Error.message := lit "Unexpected token" |})
            Sample.serverlessBrowser Sample.exampleUrl _ _ _ _ _ _ [] 2 3 _ _ _ _).
  - reflexivity.
  - unfold Props.serverlessBrowserSucceeds. repeat split; reflexivity.
  - unfold Props.resolvesAt. vm_compute. discriminate.
  - lia.
Defined.

(* ===================================================================== *)
(** ** Properties of the solution generators *)
(* ===================================================================== *)

Section SolutionFacts.

Import Props Solutions.

Variable toLowerCase : jsstring -> jsstring.

(** X27: every category that [categorizeIssue] returns is a key of the
    prompts table, so the system prompt of a categorized issue is that
    category's own, non-empty text and never the "general" fallback of the
    lookup; a category that is no key of the table, nor a member every
    object inherits, gets the general prompt. *)
Theorem categorized_issue_has_its_own_prompt issue :
  (exists text,
     ownProperty (categorizeIssue toLowerCase issue) prompts = Some text
     /\ getSystemPromptForCategory (categorizeIssue toLowerCase issue) = PromptText text
     /\ text <> [])
  /\ (forall category,
        ownProperty category prompts = None ->
        existsb (eqb category) inheritedMembers = false ->
        getSystemPromptForCategory category = PromptText generalPrompt).
Proof.
  split.
  - unfold categorizeIssue.
    repeat match goal with
           | |- context [if ?c then _ else _] => destruct c
           end;
      (eexists; split; [reflexivity|split; [reflexivity|discriminate]]).
  - intros category H1 H2. unfold getSystemPromptForCategory. now rewrite H1, H2.
Qed.

Lemma generateFallbackSolution_static issue :
  In (generateFallbackSolution toLowerCase issue) staticSolutions.
Proof.
  unfold generateFallbackSolution, staticSolutions.
  repeat match goal with
         | |- context [if ?c then _ else _] => destruct c
         end; cbn [In]; tauto.
Qed.

(** X28: the static solution of the front end and the fallback solution
    of the server are the same function: for every issue they give the
    same text, one of the nine fixed texts, and never an empty one. *)
Theorem static_solutions_agree issue :
  generateSolution toLowerCase issue = generateFallbackSolution toLowerCase issue
  /\ In (generateFallbackSolution toLowerCase issue) staticSolutions
  /\ generateFallbackSolution toLowerCase issue <> [].
Proof.
  split; [reflexivity|]. split; [apply generateFallbackSolution_static|].
  pose proof (generateFallbackSolution_static issue) as H.
  unfold staticSolutions in H. cbn [In] in H.
  repeat destruct H as [<-|H]; try discriminate. destruct H.
Qed.

Variable fetch : FetchRequest -> outcome FetchResponse.
Variable OPENAI_API_KEY : option jsstring.

Ltac answered :=
  do 2 eexists; split; [reflexivity|];
  split; [first [left; reflexivity | right; eexists; reflexivity]
         |first [left; reflexivity | right; reflexivity]].

(** X29: for an issue given as a non-empty string, the solution route
    always answers 200 with a solution unless the endpoint never settles;
    it never throws and never answers an error, and it sends at most one
    request.  An absent or empty issue is answered 400. *)
Theorem solutionRoute_always_answers issue log :
  (Http.falsy issue = true ->
   solutionRoute toLowerCase fetch OPENAI_API_KEY issue log
   = (Returned {| Http.status := 400;
                  Http.body := Http.ErrorJson (lit "Issue is required") |}, log))
  /\ (forall text,
        issue = Http.Text text -> text <> [] ->
        exists o log',
          solutionRoute toLowerCase fetch OPENAI_API_KEY issue log = (o, log')
          /\ (o = Pending \/ exists solution, o = Returned (solved solution))
          /\ (log' = log
              \/ log' = log ++ [solutionRequest toLowerCase OPENAI_API_KEY text])).
Proof.
  split.
  - intros H. unfold solutionRoute, attempt, done. now rewrite H.
  - intros text -> Hne.
    unfold solutionRoute, attempt, andThen, done, raise, awaited, send, fallbackFor,
      trimmedContent, solved, solutionRequest.
    cbn [Http.falsy]. destruct text as [|c text]; [congruence|]. cbn [truthy negb].
    destruct (truthyOpt OPENAI_API_KEY); cbn [negb]; [|answered].
    destruct (fetch _) as [r| |]; [|answered..].
    destruct (ok r); cbn [negb].
    + destruct (json r) as [data| |]; [|answered..].
      destruct (ChatCompletion.choices data) as [|choice more]; [answered|].
      destruct (Message.content (Choice.message choice)); answered.
    + destruct (json r); answered.
Qed.

(** X30: the solution of the route is the trimmed text of the reply when
    the endpoint answers with one, and the fallback solution of the issue
    in every other case: without a credential (then no request is sent),
    when the call rejects, when the status is not a success, when the body
    cannot be read, and when the reply has no choice or no text. *)
Theorem solutionRoute_solution text log :
  text <> [] ->
  let run := solutionRoute toLowerCase fetch OPENAI_API_KEY (Http.Text text) log in
  let request := solutionRequest toLowerCase OPENAI_API_KEY text in
  let fallback := solved (generateFallbackSolution toLowerCase text) in
  (truthyOpt OPENAI_API_KEY = false -> run = (Returned fallback, log))
  /\ (truthyOpt OPENAI_API_KEY = true ->
      (forall e, fetch request = Thrown e -> run = (Returned fallback, log ++ [request]))
      /\ (forall response,
            fetch request = Returned response ->
            (ok response = false -> json response <> Pending ->
             run = (Returned fallback, log ++ [request]))
            /\ (ok response = true ->
                (forall e, json response = Thrown e ->
                   run = (Returned fallback, log ++ [request]))
                /\ (forall data,
                      json response = Returned data ->
                      run = (Returned
                               match ChatCompletion.choices data with
                               | choice :: _ =>
                                   match Message.content (Choice.message choice) with
                                   | Some content => solved (trim content)
                                   | None => fallback
                                   end
                               | [] => fallback
                               end,
                             log ++ [request]))))).
Proof.
  intros Hne. cbv zeta.
  unfold solutionRoute, attempt, andThen, done, raise, awaited, send, fallbackFor,
    trimmedContent, solved, solutionRequest.
  cbn [Http.falsy]. destruct text as [|c text]; [congruence|]. cbn [truthy negb].
  split.
  - intros ->. reflexivity.
  - intros ->. cbn [negb]. split.
    + intros e ->. reflexivity.
    + intros response ->. split.
      * intros -> Hp. cbn [negb]. destruct (json response); [reflexivity..|congruence].
      * intros ->. cbn [negb]. split.
        -- intros e ->. reflexivity.
        -- intros data ->.
           destruct (ChatCompletion.choices data) as [|choice more]; [reflexivity|].
           destruct (Message.content (Choice.message choice)); reflexivity.
Qed.

End SolutionFacts.

Lemma solutionRoute_solution_witness :
  Solutions.solutionRoute asciiToLowerCase Sample.answeringFetch (Some (lit "sk-test"))
    (Http.Text (lit "Images have no ALT text")) []
  = (Returned (Props.solved (lit "Add alt text.")),
     [] ++ [Props.solutionRequest asciiToLowerCase (Some (lit "sk-test"))
              (lit "Images have no ALT text")]).
Proof.
  refine (proj2 (proj2 (proj2 (proj2
            (@solutionRoute_solution asciiToLowerCase Sample.answeringFetch
               (Some (lit "sk-test")) (lit "Images have no ALT text") [] _)
            eq_refl) _ eq_refl) eq_refl) _ eq_refl).
  discriminate.
Defined.
